(** * Zillow rental scraper: a shallow embedding of the extraction pipeline

    The development follows the three variants of the scraper:
    - [scrape_zillow.py]            (module [Main]),
    - [scrape_zillow_selenium.py]   (its [nimble_request],
      [extract_property_details], [extract_apartment_details] and the
      per-card loop are textually those of [scrape_zillow.py]),
    - [scrape_zillow_old.py]        (module [Old]).

    Python dictionaries are finite maps from strings to Python values,
    exceptions are an explicit outcome, and the rendering backend, the
    printed messages and the number of network calls live in a small
    state-and-exception monad.  The libraries the scripts call
    (the HTML parser, [re.search], [json.loads], [urlparse], and [str]
    where an f-string formats a list or a JSON value) are section
    variables: every theorem holds whatever they compute.  Strings are
    sequences of 8-bit characters; [lower], [strip] and [isdigit] are
    their ASCII parts. *)

From Stdlib Require Import ZArith Ascii String List Bool Lia.
From stdpp Require Import base option list gmap strings fin_maps pretty.

Set Warnings "-register-all".

Local Open Scope string_scope.
Local Open Scope list_scope.

(** ** Python strings *)

Module PyStr.

(** [str.startswith] *)
Definition startswith (s p : string) : bool := String.prefix p s.

(** [needle in hay] on strings *)
Fixpoint contains (needle hay : string) : bool :=
  String.prefix needle hay ||
  match hay with
  | EmptyString => false
  | String _ rest => contains needle rest
  end.

(** ASCII part of [str.isspace]: tab..carriage return, the four
    separators 28..31 and the blank. *)
Definition isspace (c : ascii) : bool :=
  let n := nat_of_ascii c in
  (((9 <=? n) && (n <=? 13)) || ((28 <=? n) && (n <=? 32)))%nat.

Fixpoint lstrip (s : string) : string :=
  match s with
  | EmptyString => EmptyString
  | String c rest => if isspace c then lstrip rest else s
  end.

Fixpoint rstrip (s : string) : string :=
  match s with
  | EmptyString => EmptyString
  | String c rest =>
      match rstrip rest with
      | EmptyString => if isspace c then EmptyString else String c EmptyString
      | r => String c r
      end
  end.

(** [str.strip()] *)
Definition strip (s : string) : string := rstrip (lstrip s).

Definition lower_ascii (c : ascii) : ascii :=
  let n := nat_of_ascii c in
  if ((65 <=? n) && (n <=? 90))%nat then ascii_of_nat (n + 32) else c.

(** [str.lower()] on the ASCII letters *)
Fixpoint lower (s : string) : string :=
  match s with
  | EmptyString => EmptyString
  | String c rest => String (lower_ascii c) (lower rest)
  end.

(** [str.replace(old, new)] for a non-empty [old]: leftmost,
    non-overlapping occurrences.  [skip] counts the characters of an
    occurrence still to be dropped. *)
Fixpoint replace_go (old new : string) (skip : nat) (s : string) : string :=
  match s with
  | EmptyString => EmptyString
  | String c rest =>
      match skip with
      | S k => replace_go old new k rest
      | O =>
          if String.prefix old s
          then (new ++ replace_go old new (String.length old - 1) rest)%string
          else String c (replace_go old new 0 rest)
      end
  end.

(** With an empty [old] Python puts [new] before every character and
    at the end. *)
Fixpoint intersperse (new s : string) : string :=
  match s with
  | EmptyString => new
  | String c rest => (new ++ String c (intersperse new rest))%string
  end.

Definition replace (old new s : string) : string :=
  match old with
  | EmptyString => intersperse new s
  | _ => replace_go old new 0 s
  end.

End PyStr.

(** ** Python values held by the scraper's dictionaries *)

Inductive pyval : Type :=
| PNone
| PStr (s : string)
| PInt (n : Z).

Global Instance pyval_eq_dec : EqDecision pyval.
Proof. solve_decision. Defined.

(** Truth value of [None], of a string and of an integer. *)
Definition truthy (v : pyval) : bool :=
  match v with
  | PNone => false
  | PStr s => negb (String.eqb s "")
  | PInt n => negb (Z.eqb n 0)
  end.

(** [str(v)] as the CSV writer puts it in a cell: [None] is the empty cell. *)
Definition cell (v : pyval) : string :=
  match v with
  | PNone => ""
  | PStr s => s
  | PInt n => pretty n
  end.

(** [a == b] *)
Definition py_eqb (a b : pyval) : bool := bool_decide (a = b).

(** A Python [dict] with string keys. *)
Abbreviation dict := (gmap string pyval).

(** [d.get(k)] *)
Definition dict_get (d : dict) (k : string) : pyval :=
  match d !! k with
  | Some v => v
  | None => PNone
  end.

(** [d.get(k, default)] *)
Definition dict_get_default (d : dict) (k : string) (default : pyval) : pyval :=
  match d !! k with
  | Some v => v
  | None => default
  end.

(** [d.update(d')]: the keys of [d'] win. *)
Definition dict_update (d d' : dict) : dict := d' ∪ d.

(** ** Parsed HTML, as BeautifulSoup presents it

    A document is a tree of tags and text nodes.  Attribute values are
    strings (the classes of a tag are kept as the one string of its
    [class] attribute); comments and declarations are left out.  The
    selectors are the simple ones the scripts use: a tag name with
    attribute tests. *)

Inductive node : Type :=
| Text (s : string)
| Elem (name : string) (attrs : list (string * string)) (children : list node).

(** One test of a simple CSS selector. *)
Inductive sel_test : Type :=
| AttrIs (a v : string)     (** [[a="v"]] *)
| AttrHas (a v : string)    (** [[a*="v"]] *)
| AttrSet (a : string)      (** [[a]] *)
| IdIs (v : string)         (** [#v] *)
| ContainsText (v : string) (** [:contains("v")] *).

(** A simple selector: an optional tag name and its tests, for instance
    [span[data-testid="price"]] is [Sel (Some "span") [AttrIs "data-testid" "price"]]. *)
Record selector : Type := Sel {
  sel_tag : option string;
  sel_tests : list sel_test
}.

Module Soup.

Fixpoint assoc (k : string) (l : list (string * string)) : option string :=
  match l with
  | [] => None
  | (k', v) :: rest => if String.eqb k k' then Some v else assoc k rest
  end.

(** [tag.attrs] lookup *)
Definition attr (n : node) (a : string) : option string :=
  match n with
  | Text _ => None
  | Elem _ attrs _ => assoc a attrs
  end.

(** [tag.get(a, default)] *)
Definition get (n : node) (a default : string) : string :=
  match attr n a with
  | Some v => v
  | None => default
  end.

(** [tag.text], [tag.get_text()]: the text nodes below, in order. *)
Fixpoint text (n : node) : string :=
  match n with
  | Text s => s
  | Elem _ _ cs =>
      (fix go (l : list node) : string :=
         match l with
         | [] => EmptyString
         | c :: l' => (text c ++ go l')%string
         end) cs
  end.

(** [tag.get_text(strip=True)]: every text node stripped, the empty
    ones dropped. *)
Fixpoint text_stripped (n : node) : string :=
  match n with
  | Text s => PyStr.strip s
  | Elem _ _ cs =>
      (fix go (l : list node) : string :=
         match l with
         | [] => EmptyString
         | c :: l' => (text_stripped c ++ go l')%string
         end) cs
  end.

(** [tag.string]: the only child when it is a text node, the
    [.string] of the only child when it is a tag, otherwise [None]. *)
Fixpoint string_ (n : node) : option string :=
  match n with
  | Text s => Some s
  | Elem _ _ [c] => string_ c
  | Elem _ _ _ => None
  end.

(** The tags below [n], in document order. *)
Fixpoint descendants (n : node) : list node :=
  match n with
  | Text _ => []
  | Elem _ _ cs =>
      (fix go (l : list node) : list node :=
         match l with
         | [] => []
         | c :: l' =>
             match c with
             | Text _ => go l'
             | Elem _ _ _ => c :: descendants c ++ go l'
             end
         end) cs
  end.

Definition name_is (tag : string) (n : node) : bool :=
  match n with
  | Text _ => false
  | Elem nm _ _ => String.eqb nm tag
  end.

Definition test_holds (t : sel_test) (n : node) : bool :=
  match t with
  | AttrIs a v =>
      match attr n a with Some w => String.eqb w v | None => false end
  | AttrHas a v =>
      match attr n a with Some w => PyStr.contains v w | None => false end
  | AttrSet a =>
      match attr n a with Some _ => true | None => false end
  | IdIs v =>
      match attr n "id" with Some w => String.eqb w v | None => false end
  | ContainsText v => PyStr.contains v (text n)
  end.

Definition matches (s : selector) (n : node) : bool :=
  match sel_tag s with
  | Some tag => name_is tag n
  | None => match n with Text _ => false | Elem _ _ _ => true end
  end && forallb (fun t => test_holds t n) (sel_tests s).

(** [tag.select(s)] *)
Definition select (s : selector) (n : node) : list node :=
  List.filter (matches s) (descendants n).

(** [tag.select_one(s)] *)
Definition select_one (s : selector) (n : node) : option node :=
  head (select s n).

(** [tag.find(name, attrs)] with string-valued attribute filters *)
Definition find (tag : string) (attrs : list (string * string)) (n : node) : option node :=
  head (List.filter
          (fun d => name_is tag d &&
                    forallb (fun av => test_holds (AttrIs (fst av) (snd av)) d) attrs)
          (descendants n)).

(** [tag.find_all(names)] with a list of tag names *)
Definition find_all (names : list string) (n : node) : list node :=
  List.filter (fun d => existsb (fun nm => name_is nm d) names) (descendants n).

End Soup.

(** ** Exceptions, the world and the monad of the scripts *)

Inductive exn : Type :=
| ConnectionError (msg : string)   (** [requests.post] failed: transport error or timeout *)
| HTTPError (status : Z)           (** [raise_for_status] *)
| InvalidJSON                      (** [response.json()]: [requests.exceptions.JSONDecodeError] *)
| JSONDecodeError                  (** [json.loads] *)
| KeyError (key : string)
| AttributeError (what : string)
| TypeError (what : string)
| ValueError (what : string).

(** [isinstance(e, requests.RequestException)] *)
Definition is_RequestException (e : exn) : bool :=
  match e with
  | ConnectionError _ | HTTPError _ | InvalidJSON => true
  | _ => false
  end.

Inductive outcome (A : Type) : Type :=
| Ok (a : A)
| Raise (e : exn).
Arguments Ok {A} a.
Arguments Raise {A} e.

(** One instruction of a render flow. *)
Inductive flow_step : Type :=
| wait_for (selectors : list string) (timeout : Z) (visible : bool)
| scroll_to (selector : string) (visible : bool)
| wait (delay : Z)
| infinite_scroll (duration : Z) (loading_selector : string)
                  (delay_after_scroll : Z) (idle_timeout : option Z)
| wait_and_click (selector : string) (timeout delay : Z) (scroll visible : bool).

(** The JSON payload posted to the rendering backend
    ([render] is always [True] and [format] always ["json"]). *)
Record request : Type := Request {
  req_url : string;
  req_render_flow : option (list flow_step)
}.

(** What one network call gives back: no answer at all, or an HTTP
    status with a body that is a JSON object ([Some]) or is not JSON. *)
Inductive response : Type :=
| NoAnswer (msg : string)
| Reply (status_code : Z) (body : option dict).

(** The messages the scripts print or log, with the values they
    interpolate, and the pauses they take. *)
Inductive event : Type :=
| RequestFailed (url : string) (message : pyval)
| AttemptFailed (attempt : nat) (url : string) (e : exn)
| FailedToFetch (url : string) (retries : nat)
| Fetching (url : string) (attempt : nat)
| ApiError (message : pyval)
| Sleep (seconds_lo seconds_hi : nat)
| CardAddress (address : string)
| CardAddressRegex (address : string)
| SkippingDetail (url : string)
| DetailAddress (address : string)
| UrlAddress (address : string)
| ProcessingPage (url : string)
| FailedToFetchPage
| FoundCards (n : nat)
| FewerCards
| FetchingDetails (url : pyval)
| ErrorProcessing (url : pyval) (e : exn)
| NoPropertiesFound
| FoundProperties (n : nat)
| FirstProperty (i : nat) (address url : pyval)
| SavedCsv
| Info (msg : string)
| Warn (msg : string)
| Error (msg : string).

(** The state the scripts change: the number of network calls made so
    far, what was printed, and the files written. *)
Record world : Type := World {
  calls : nat;
  printed : list event;
  csv_file : option (list (list string));
  debug_files : list string
}.

Definition world0 : world :=
  {| calls := 0; printed := []; csv_file := None; debug_files := [] |}.

Definition M (A : Type) : Type := world → outcome A * world.

Global Instance M_ret : MRet M := λ A a w, (Ok a, w).

Global Instance M_bind : MBind M := λ A B f m w,
  match m w with
  | (Ok a, w') => f a w'
  | (Raise e, w') => (Raise e, w')
  end.

Definition raise {A : Type} (e : exn) : M A := λ w, (Raise e, w).

(** [try: body except Exception as e: handler(e)] *)
Definition try_except {A : Type} (body : M A) (handler : exn → M A) : M A :=
  λ w, match body w with
       | (Ok a, w') => (Ok a, w')
       | (Raise e, w') => handler e w'
       end.

(** [try: body except C as e: handler(e)] for an exception class [C] *)
Definition try_except_only {A : Type} (C : exn → bool)
    (body : M A) (handler : exn → M A) : M A :=
  try_except body (λ e, if C e then handler e else raise e).

Definition print (e : event) : M unit :=
  λ w, (Ok tt, {| calls := calls w; printed := printed w ++ [e];
                  csv_file := csv_file w; debug_files := debug_files w |}).

Definition write_debug (name : string) : M unit :=
  λ w, (Ok tt, {| calls := calls w; printed := printed w;
                  csv_file := csv_file w; debug_files := debug_files w ++ [name] |}).

(** [open(name, 'w')] of the CSV file, and one line written to it. *)
Definition csv_open : M unit :=
  λ w, (Ok tt, {| calls := calls w; printed := printed w;
                  csv_file := Some []; debug_files := debug_files w |}).

Definition csv_write (row : list string) : M unit :=
  λ w, (Ok tt, {| calls := calls w; printed := printed w;
                  csv_file := Some (default [] (csv_file w) ++ [row]);
                  debug_files := debug_files w |}).

(** [d[k]] *)
Definition dict_getitem (d : dict) (k : string) : M pyval :=
  match d !! k with
  | Some v => mret v
  | None => raise (KeyError k)
  end.

(** [tag[a]] *)
Definition tag_getitem (n : node) (a : string) : M string :=
  match Soup.attr n a with
  | Some v => mret v
  | None => raise (KeyError a)
  end.

(** The three calls a request goes through. *)
Section Requests.

(** The rendering backend: what the [n]-th network call of the run
    answers to a request. *)
Variable backend : nat → request → response.

(** [requests.post(NIMBLE_API_URL, ...)]: one network call. *)
Definition post (rq : request) : M response :=
  λ w,
    let r := backend (calls w) rq in
    let w' := {| calls := S (calls w); printed := printed w;
                 csv_file := csv_file w; debug_files := debug_files w |} in
    match r with
    | NoAnswer msg => (Raise (ConnectionError msg), w')
    | Reply _ _ => (Ok r, w')
    end.

(** [response.raise_for_status()]: 4xx and 5xx raise. *)
Definition raise_for_status (r : response) : M unit :=
  match r with
  | Reply code _ =>
      if ((400 <=? code) && (code <? 600))%Z then raise (HTTPError code) else mret tt
  | NoAnswer msg => raise (ConnectionError msg)
  end.

(** [response.json()] *)
Definition response_json (r : response) : M dict :=
  match r with
  | Reply _ (Some d) => mret d
  | _ => raise InvalidJSON
  end.

End Requests.

(** A match object of [re.search]: [group(0)] and [group(1)]. *)
Record re_match : Type := ReMatch {
  group0 : string;
  group1 : string
}.

(** ** [scrape_zillow.py] *)

Module Main.

Definition create_scroll_flow : list flow_step :=
  [ wait_for ["article[data-test='property-card']"] 30000 true;
    scroll_to "article[data-test='property-card']:last-child" false;
    wait 5000;
    scroll_to "body" false;
    wait 5000;
    infinite_scroll 60000 "div[data-test='loading-spinner']" 5000 (Some 10000%Z);
    wait 10000 ].

Definition address_selectors : list selector :=
  [ Sel (Some "address") [AttrIs "data-test" "property-card-addr"];
    Sel (Some "div") [AttrIs "data-test" "property-card-addr"];
    Sel (Some "span") [AttrIs "data-test" "property-card-addr"];
    Sel (Some "address") [AttrHas "class" "address"];
    Sel (Some "div") [AttrHas "class" "StyledPropertyCardDataArea"];
    Sel (Some "span") [AttrHas "class" "address"];
    Sel (Some "div") [AttrHas "class" "PropertyCard"];
    Sel (Some "div") [AttrHas "class" "card-info"] ].

Definition address_pattern : string :=
  "\d+\s+[A-Za-z\s-]+,\s*[A-Za-z\s]+,\s*[A-Z]{2}\s*\d{5}(?:-\d{4})?".

Definition price_selectors : list selector :=
  [ Sel (Some "span") [AttrIs "data-testid" "price"];
    Sel (Some "div") [AttrIs "data-testid" "price"];
    Sel (Some "span") [AttrHas "class" "price"];
    Sel (Some "div") [AttrHas "class" "price"];
    Sel (Some "h4") [AttrHas "class" "price"];
    Sel (Some "span") [AttrHas "class" "Price"];
    Sel (Some "div") [AttrHas "class" "PriceDetails"] ].

Definition bed_pattern : string := "(\d+)\s*bed(?:room|s)?".
Definition bath_pattern : string := "(\d+\.?\d*)\s*bath(?:room|s)?".
Definition sqft_pattern : string := "(\d{1,3}(?:,\d{3})*)\s*(?:sqft|ft²)".
Definition path_pattern : string := "/homedetails/(.+?)/\d+_zpid".

Definition facts_selectors : list selector :=
  [ Sel (Some "div") [AttrIs "data-testid" "facts-and-features"];
    Sel (Some "ul") [AttrHas "class" "facts-features"];
    Sel (Some "div") [AttrHas "class" "home-facts"];
    Sel (Some "div") [AttrHas "class" "facts"];
    Sel (Some "div") [AttrHas "class" "FactGroup"] ].

Definition detail_render_flow : list flow_step :=
  [ wait_for ["span[data-testid='price']"; "h1[data-testid='home-details-address']";
              "div[data-testid='bed-bath-beyond']"] 40000 true;
    scroll_to "body" false;
    wait 8000;
    scroll_to "div[data-testid='facts-and-features']" false;
    wait 6000 ].

Definition initial_url : string :=
  "https://www.zillow.com/bloomington-il-61761/rentals/?searchQueryState=%7B%22isMapVisible%22%3Atrue%2C%22mapBounds%22%3A%7B%22north%22%3A40.636718508366414%2C%22south%22%3A40.43345579864026%2C%22east%22%3A-88.85417987207032%2C%22west%22%3A-89.1054921279297%7D%2C%22filterState%22%3A%7B%22fr%22%3A%7B%22value%22%3Atrue%7D%2C%22fsba%22%3A%7B%22value%22%3Afalse%7D%2C%22fsbo%22%3A%7B%22value%22%3Afalse%7D%2C%22nc%22%3A%7B%22value%22%3Afalse%7D%2C%22cmsn%22%3A%7B%22value%22%3Afalse%7D%2C%22auc%22%3A%7B%22value%22%3Afalse%7D%2C%22fore%22%3A%7B%22value%22%3Afalse%7D%2C%22mp%22%3A%7B%22min%22%3A1000%2C%22max%22%3A2000%7D%2C%22tow%22%3A%7B%22value%22%3Afalse%7D%2C%22mf%22%3A%7B%22value%22%3Afalse%7D%2C%22con%22%3A%7B%22value%22%3Afalse%7D%2C%22land%22%3A%7B%22value%22%3Afalse%7D%2C%22apa%22%3A%7B%22value%22%3Afalse%7D%2C%22manu%22%3A%7B%22value%22%3Afalse%7D%2C%22apco%22%3A%7B%22value%22%3Afalse%7D%2C%22r4r%22%3A%7B%22value%22%3Atrue%7D%7D%2C%22isListVisible%22%3Atrue%2C%22mapZoom%22%3A12%2C%22usersSearchTerm%22%3A%2261761%22%2C%22regionSelection%22%3A%5B%7B%22regionId%22%3A85145%2C%22regionType%22%3A7%7D%5D%7D".

Definition csv_columns : list string :=
  [ "zpid"; "address"; "url"; "price"; "bedrooms"; "bathrooms"; "sqft";
    "pets_allowed"; "laundry"; "parking"; "cooling"; "heating" ].

Section Pipeline.

Variable backend : nat → request → response.
(** [BeautifulSoup(html, 'html.parser')] *)
Variable BeautifulSoup : string → node.
(** [re.search(pattern, text)] *)
Variable re_search : string → string → option re_match.
(** [urllib.parse.urlparse(url).path] *)
Variable urlparse_path : string → string.

(** The body of the [try] of [nimble_request]: one attempt, giving
    the value the function returns when the attempt does not raise. *)
Definition attempt_once (url : string) (render_flow : option (list flow_step)) : M pyval :=
  response ← post backend (Request url render_flow);
  raise_for_status response;;
  result ← response_json response;
  status ← dict_getitem result "status";
  if py_eqb status (PStr "success")
  then dict_getitem result "html_content"
  else
    print (RequestFailed url (dict_get_default result "message" (PStr "Unknown error")));;
    mret PNone.

(** The [for attempt in range(retries)] loop from index [attempt],
    with [todo] iterations left, and the two lines after it. *)
Fixpoint attempts_from (url : string) (render_flow : option (list flow_step))
    (retries attempt todo : nat) : M pyval :=
  match todo with
  | O =>
      print (FailedToFetch url retries);;
      mret PNone
  | S todo' =>
      try_except (attempt_once url render_flow)
        (λ e,
           print (AttemptFailed (attempt + 1) url e);;
           (if (attempt <? retries - 1)%nat then print (Sleep 3 5) else mret tt);;
           attempts_from url render_flow retries (S attempt) todo')
  end.

(** [nimble_request(url, render_flow=None, retries=2, timeout=120)] *)
Definition nimble_request (url : string) (render_flow : option (list flow_step))
    (retries : nat) : M pyval :=
  attempts_from url render_flow retries 0 retries.

(** The [for selector in address_selectors] loop with its [break]:
    the value of [address] after it. *)
Fixpoint address_loop (card : node) (selectors : list selector) : M string :=
  match selectors with
  | [] => mret "Unknown"
  | selector :: rest =>
      match Soup.select_one selector card with
      | Some address_elem =>
          let address := PyStr.strip (Soup.text address_elem) in
          print (CardAddress address);;
          mret address
      | None => address_loop card rest
      end
  end.

(** [extract_property_details(card)] *)
Definition extract_property_details (card : node) : M dict :=
  let zpid :=
    PyStr.replace "property-card-" "" (PyStr.replace "zpid_" "" (Soup.get card "id" "")) in
  let link := Soup.find "a" [("data-test", "property-card-link")] card in
  url ←
    (if match link with
        | Some l =>
            match Soup.attr l "href" with
            | Some h => negb (PyStr.startswith h "http")
            | None => false
            end
        | None => false
        end
     then
       match link with
       | Some l => h ← tag_getitem l "href"; mret (PStr ("https://www.zillow.com" ++ h))
       | None => mret PNone
       end
     else
       match link with
       | Some l => h ← tag_getitem l "href"; mret (PStr h)
       | None => mret PNone
       end);
  address ← address_loop card address_selectors;
  address ←
    (if String.eqb address "Unknown"
     then
       let card_text := PyStr.strip (Soup.text card) in
       match re_search address_pattern card_text with
       | Some address_match =>
           print (CardAddressRegex (group0 address_match));;
           mret (group0 address_match)
       | None => mret address
       end
     else mret address);
  mret (<["zpid" := PStr zpid]> (<["url" := url]> (<["address" := PStr address]> ∅))).

(** The three searches run on the summary text and again on the
    whole page text. *)
Definition bed_bath_sqft (text : string) (details : dict) : dict :=
  let details :=
    match re_search bed_pattern text with
    | Some bed_match => <["bedrooms" := PStr (group1 bed_match)]> details
    | None => details
    end in
  let details :=
    match re_search bath_pattern text with
    | Some bath_match => <["bathrooms" := PStr (group1 bath_match)]> details
    | None => details
    end in
  match re_search sqft_pattern text with
  | Some sqft_match => <["sqft" := PStr (group1 sqft_match)]> details
  | None => details
  end.

(** One item of a fact group. *)
Definition classify_fact (item : node) (details : dict) : dict :=
  let text := PyStr.lower (Soup.text item) in
  let has := λ w, PyStr.contains w text in
  if has "cats" || has "dogs" || has "no pets"
  then <["pets_allowed" := PStr (PyStr.strip text)]> details
  else if has "laundry" || has "washer" || has "dryer"
  then <["laundry" := PStr (PyStr.strip text)]> details
  else if has "parking" || has "garage"
  then <["parking" := PStr (PyStr.strip text)]> details
  else if has "air conditioning" || has "central air"
  then <["cooling" := PStr (PyStr.strip text)]> details
  else if has "heating" || has "forced air"
  then <["heating" := PStr (PyStr.strip text)]> details
  else details.

Definition amenity_keys : list string :=
  ["pets_allowed"; "laundry"; "parking"; "cooling"; "heating"].

(** The [for selector in facts_selectors] loop with its [break]. *)
Fixpoint facts_loop (soup : node) (selectors : list selector) (details : dict) : dict :=
  match selectors with
  | [] => details
  | selector :: rest =>
      let details :=
        fold_left
          (λ details fact_group,
             fold_left (λ details item, classify_fact item details)
                       (Soup.find_all ["span"; "li"; "div"] fact_group) details)
          (Soup.select selector soup) details in
      if forallb (λ key, negb (py_eqb (dict_get details key) (PStr "None"))) amenity_keys
      then details
      else facts_loop soup rest details
  end.

(** The [for selector in price_selectors] loop with its [break]. *)
Fixpoint price_loop (soup : node) (selectors : list selector) (details : dict) : dict :=
  match selectors with
  | [] => details
  | selector :: rest =>
      match Soup.select_one selector soup with
      | Some price_elem => <["price" := PStr (PyStr.strip (Soup.text price_elem))]> details
      | None => price_loop soup rest details
      end
  end.

(** [extract_apartment_details] after the page was fetched: from
    [soup = BeautifulSoup(html, 'html.parser')] to [return details]. *)
Definition parse_apartment_details (url : string) (soup : node) : M dict :=
  let details : dict := <["price" := PStr "Unknown"]> ∅ in
  let details := price_loop soup price_selectors details in
  let details := <["bedrooms" := PStr "Unknown"]> details in
  let details := <["bathrooms" := PStr "Unknown"]> details in
  let details := <["sqft" := PStr "Unknown"]> details in
  let details :=
    match Soup.select_one (Sel (Some "div") [AttrIs "data-testid" "bed-bath-beyond"]) soup with
    | Some summary_elem => bed_bath_sqft (PyStr.lower (Soup.text summary_elem)) details
    | None => details
    end in
  let details :=
    if existsb (λ key, py_eqb (dict_get details key) (PStr "Unknown"))
               ["bedrooms"; "bathrooms"; "sqft"]
    then bed_bath_sqft (PyStr.lower (Soup.text soup)) details
    else details in
  let details := <["address" := PStr "Unknown"]> details in
  let address_elem :=
    match Soup.select_one (Sel (Some "h1") [AttrIs "data-testid" "home-details-address"]) soup with
    | Some e => Some e
    | None =>
        match Soup.select_one (Sel (Some "h1") [AttrHas "class" "address"]) soup with
        | Some e => Some e
        | None => Soup.select_one (Sel (Some "div") [AttrHas "class" "address"]) soup
        end
    end in
  details ←
    match address_elem with
    | Some e =>
        let address := PyStr.strip (Soup.text e) in
        print (DetailAddress address);;
        mret (<["address" := PStr address]> details)
    | None =>
        match re_search path_pattern (urlparse_path url) with
        | Some path_match =>
            let address := PyStr.replace "-" " " (group1 path_match) in
            print (UrlAddress address);;
            mret (<["address" := PStr address]> details)
        | None => mret details
        end
    end;
  let details := <["pets_allowed" := PStr "No"]> details in
  let details := <["laundry" := PStr "None"]> details in
  let details := <["parking" := PStr "None"]> details in
  let details := <["cooling" := PStr "None"]> details in
  let details := <["heating" := PStr "None"]> details in
  mret (facts_loop soup facts_selectors details).

(** [extract_apartment_details(url)]: [None] when the page could not
    be fetched. *)
Definition extract_apartment_details (url : string) : M (option dict) :=
  html ← nimble_request url (Some detail_render_flow) 2;
  if negb (truthy html)
  then print (SkippingDetail url);; mret None
  else details ← parse_apartment_details url (BeautifulSoup (cell html)); mret (Some details).

(** Lines 234-236: what a fetched detail page changes in the card's
    record.  The comprehension [{k: v ... if k != 'address'}] is the
    detail record without its address. *)
Definition merge_details (details apartment_details : dict) : M dict :=
  card_address ← dict_getitem details "address";
  details ←
    (if py_eqb card_address (PStr "Unknown") &&
        negb (py_eqb (dict_get apartment_details "address") (PStr "Unknown"))
     then a ← dict_getitem apartment_details "address"; mret (<["address" := a]> details)
     else mret details);
  mret (dict_update details (delete "address" apartment_details)).

(** Truth value of [apartment_details]: neither [None] nor an empty dict. *)
Definition fetched (apartment_details : option dict) : option dict :=
  match apartment_details with
  | Some d => if bool_decide (d = ∅) then None else Some d
  | None => None
  end.

(** The body of the [for card in cards] loop: the record appended to
    [all_properties], if any. *)
Definition process_card (card : node) : M (option dict) :=
  details ← extract_property_details card;
  url ← dict_getitem details "url";
  if truthy url
  then
    print (FetchingDetails url);;
    record ←
      try_except
        (apartment_details ← extract_apartment_details (cell url);
         match fetched apartment_details with
         | Some d => merge_details details d
         | None => mret details
         end)
        (λ e, print (ErrorProcessing url e);; mret details);
    print (Sleep 3 5);;
    mret (Some record)
  else mret None.

(** The [for card in cards] loop: [all_properties] after it. *)
Fixpoint process_cards (cards : list node) (all_properties : list dict) : M (list dict) :=
  match cards with
  | [] => mret all_properties
  | card :: rest =>
      record ← process_card card;
      process_cards rest
        (match record with
         | Some r => all_properties ++ [r]
         | None => all_properties
         end)
  end.

(** [csv.DictWriter.writerow]: a key outside the field names raises,
    a missing key is written as the empty cell, and so is [None]. *)
Definition writerow (prop : dict) : M unit :=
  if forallb (λ kv, existsb (String.eqb (fst kv)) csv_columns) (map_to_list prop)
  then
    csv_write (map (λ column, cell (dict_get_default prop column (PStr ""))) csv_columns)
  else raise (ValueError "dict contains fields not in fieldnames").

Fixpoint for_each {A : Type} (f : A → M unit) (l : list A) : M unit :=
  match l with
  | [] => mret tt
  | x :: rest => f x;; for_each f rest
  end.

(** [scrape_zillow_rentals()] *)
Definition scrape_zillow_rentals : M unit :=
  print (ProcessingPage initial_url);;
  html ← nimble_request initial_url (Some create_scroll_flow) 2;
  if negb (truthy html)
  then print FailedToFetchPage
  else
    let soup := BeautifulSoup (cell html) in
    let cards := Soup.select (Sel (Some "article") [AttrIs "data-test" "property-card"]) soup in
    print (FoundCards (length cards));;
    (if (length cards <? 9)%nat
     then print FewerCards;; write_debug "search_page_debug.html"
     else mret tt);;
    all_properties ← process_cards cards [];
    match all_properties with
    | [] => print NoPropertiesFound
    | _ =>
        print (FoundProperties (length all_properties));;
        for_each (λ ip : nat * dict,
                    address ← dict_getitem (snd ip) "address";
                    url ← dict_getitem (snd ip) "url";
                    print (FirstProperty (fst ip + 1) address url))
                 (zip (seq 0 5) all_properties);;
        csv_open;;
        csv_write csv_columns;;
        for_each writerow all_properties;;
        print SavedCsv
    end.

End Pipeline.

End Main.

(** ** [scrape_zillow_old.py] *)

(** A value of [json.loads]. *)
Inductive json : Type :=
| JNull
| JBool (b : bool)
| JNum (n : Z)
| JStr (s : string)
| JArr (items : list json)
| JObj (fields : list (string * json)).

Module Old.

Definition default_render_flow : list flow_step :=
  [ wait_for ["article[data-test='property-card']"] 10000 true;
    wait_and_click "[class*='StyledCard']" 20000 500 true false;
    infinite_scroll 10000 "div[data-test='loading-spinner']" 1000 None;
    wait 3000 ].

Definition create_single_card_click_flow (card_selector : string)
    (wait_for_detail : bool) : list flow_step :=
  [ wait_for [card_selector] 10000 true;
    wait_and_click card_selector 20000 1000 true false ] ++
  (if wait_for_detail
   then [ wait 2000;
          wait_for ["script#hdpApolloPreloadedData"] 15000 true;
          wait 3000 ]
   else []).

Definition detail_render_flow : list flow_step :=
  [ wait 5000;
    wait_for ["script#hdpApolloPreloadedData";
              "h1[data-test='home-details-summary-address']";
              "span[data-test='price']"] 20000 true;
    wait 3000 ].

Definition script_selectors : list selector :=
  [ Sel (Some "script") [IdIs "hdpApolloPreloadedData"];
    Sel (Some "script") [AttrSet "data-zillow-zpid"];
    Sel (Some "script") [AttrIs "type" "application/json"];
    Sel (Some "script") [ContainsText "apiCache"] ].

(** Truth value of a JSON value. *)
Definition json_truthy (j : json) : bool :=
  match j with
  | JNull => false
  | JBool b => b
  | JNum n => negb (Z.eqb n 0)
  | JStr s => negb (String.eqb s "")
  | JArr l => match l with [] => false | _ => true end
  | JObj l => match l with [] => false | _ => true end
  end.

Fixpoint fields_get (k : string) (l : list (string * json)) : option json :=
  match l with
  | [] => None
  | (k', v) :: rest => if String.eqb k k' then Some v else fields_get k rest
  end.

(** [j.get(k, {})]: only a dict has [get]. *)
Definition json_get (j : json) (k : string) : M json :=
  match j with
  | JObj l => mret (default (JObj []) (fields_get k l))
  | _ => raise (AttributeError "get")
  end.

(** [j.values()] *)
Definition json_values (j : json) : M (list json) :=
  match j with
  | JObj l => mret (map snd l)
  | _ => raise (AttributeError "values")
  end.

Definition is_JStr (s : string) (j : json) : bool :=
  match j with
  | JStr s' => String.eqb s s'
  | _ => false
  end.

(** ['property' in value] *)
Definition json_contains (k : string) (j : json) : M bool :=
  match j with
  | JObj l => mret (bool_decide (is_Some (fields_get k l)))
  | JStr s => mret (PyStr.contains k s)
  | JArr l => mret (existsb (is_JStr k) l)
  | _ => raise (TypeError "argument is not iterable")
  end.

(** [value['property']] *)
Definition json_getitem (j : json) (k : string) : M json :=
  match j with
  | JObj l =>
      match fields_get k l with
      | Some v => mret v
      | None => raise (KeyError k)
      end
  | _ => raise (TypeError "indices must be integers")
  end.

(** [tag.find(name, class_=c)]: the class attribute is [c] or has the
    word [c]. *)
Definition find_class (tag c : string) (n : node) : option node :=
  head (List.filter
          (λ d, Soup.name_is tag d &&
                match Soup.attr d "class" with
                | Some w => String.eqb w c || existsb (String.eqb c) (String.words w)
                | None => false
                end)
          (Soup.descendants n)).

(** [a or b] on two optional tags *)
Definition or_else (a b : option node) : option node :=
  match a with
  | Some e => Some e
  | None => b
  end.

Section Pipeline.

Variable backend : nat → request → response.
(** [BeautifulSoup(html, 'html.parser')] *)
Variable BeautifulSoup : string → node.
(** [json.loads(text)]: [None] stands for [json.JSONDecodeError]. *)
Variable json_loads : string → option json.

(** The body of the [try] of [nimble_request] at index [attempt]:
    the pair the function returns when the attempt does not raise
    (after a status other than "success" control reaches the
    [return None, None] that ends the loop body). *)
Definition attempt_once (url : string) (render_flow : list flow_step) (attempt : nat)
    : M (pyval * pyval) :=
  print (Fetching url (attempt + 1));;
  response ← post backend (Request url (Some render_flow));
  raise_for_status response;;
  result ← response_json response;
  status ← dict_getitem result "status";
  if py_eqb status (PStr "success")
  then
    html ← dict_getitem result "html_content";
    mret (html, dict_get result "render_flow")
  else
    print (ApiError (dict_get_default result "message" (PStr "Unknown error")));;
    mret (PNone, PNone).

(** The [for attempt in range(retries)] loop of [nimble_request]
    from index [attempt], with [todo] iterations left, and the two
    lines after it.  Only a [requests.RequestException] is caught;
    on the last index the handler falls through to
    [return None, None]. *)
Fixpoint attempts_from (url : string) (render_flow : list flow_step)
    (retries backoff attempt todo : nat) : M (pyval * pyval) :=
  match todo with
  | O =>
      print (FailedToFetch url retries);;
      mret (PNone, PNone)
  | S todo' =>
      try_except_only is_RequestException
        (attempt_once url render_flow attempt)
        (λ e,
           print (AttemptFailed (attempt + 1) url e);;
           if (attempt <? retries - 1)%nat
           then
             print (Sleep (backoff * (attempt + 1)) (backoff * (attempt + 1)));;
             attempts_from url render_flow retries backoff (S attempt) todo'
           else mret (PNone, PNone))
  end.

(** [render_flow or default_render_flow] *)
Definition effective_flow (render_flow : option (list flow_step)) : list flow_step :=
  match render_flow with
  | Some (step :: steps) => step :: steps
  | _ => default_render_flow
  end.

(** [nimble_request(url, render_flow=None, retries=3, backoff=2)] *)
Definition nimble_request (url : string) (render_flow : option (list flow_step))
    (retries backoff : nat) : M (pyval * pyval) :=
  attempts_from url (effective_flow render_flow) retries backoff 0 retries.

(** [extract_basic_info_from_html(soup)] *)
Definition extract_basic_info_from_html (soup : node) : M dict :=
  try_except
    (let data : dict := ∅ in
     let data :=
       match or_else (Soup.find "span" [("data-test", "price")] soup)
                     (find_class "span" "price" soup) with
       | Some price_elem => <["price" := PStr (Soup.text_stripped price_elem)]> data
       | None => data
       end in
     let data :=
       match or_else (Soup.find "h1" [("data-test", "home-details-summary-address")] soup)
                     (find_class "h1" "address" soup) with
       | Some address_elem => <["address" := PStr (Soup.text_stripped address_elem)]> data
       | None => data
       end in
     let data :=
       fold_left
         (λ data elem,
            let text := Soup.text_stripped elem in
            if PyStr.contains "bd" text then <["bedrooms" := PStr text]> data
            else if PyStr.contains "ba" text then <["bathrooms" := PStr text]> data
            else data)
         (List.filter (λ d, Soup.test_holds (AttrIs "data-test" "bed-bath-brief") d)
                      (Soup.find_all ["span"] soup))
         data in
     let data :=
       match or_else (Soup.find "span" [("data-test", "property-size")] soup)
                     (find_class "span" "sqft" soup) with
       | Some sqft_elem => <["square_feet" := PStr (Soup.text_stripped sqft_elem)]> data
       | None => data
       end in
     let data :=
       match or_else (Soup.find "span" [("data-test", "property-type")] soup)
                     (find_class "span" "home-type" soup) with
       | Some home_type_elem => <["home_type" := PStr (Soup.text_stripped home_type_elem)]> data
       | None => data
       end in
     let data :=
       match or_else (Soup.find "span" [("data-test", "year-built")] soup)
                     (find_class "span" "year-built" soup) with
       | Some year_elem => <["year_built" := PStr (Soup.text_stripped year_elem)]> data
       | None => data
       end in
     print (Info "Extracted basic info from HTML");;
     mret data)
    (λ e, print (Error "Error extracting basic info from HTML");; mret ∅).

(** The first [for] of [parse_house_page]. *)
Fixpoint select_script (soup : node) (selectors : list selector) : option node :=
  match selectors with
  | [] => None
  | selector :: rest =>
      match Soup.select_one selector soup with
      | Some script => Some script
      | None => select_script soup rest
      end
  end.

(** The second one, over [soup.find_all('script')]. *)
Fixpoint scan_scripts (scripts : list node) : option node :=
  match scripts with
  | [] => None
  | s :: rest =>
      match Soup.string_ s with
      | Some str =>
          if negb (String.eqb str "") &&
             (PyStr.contains "apiCache" str || PyStr.contains "property" str)
          then Some s
          else scan_scripts rest
      | None => scan_scripts rest
      end
  end.

(** [for value in api_cache.values(): if 'property' in value: ... break]:
    [true] when the loop left through [break]. *)
Fixpoint property_found (values : list json) : M bool :=
  match values with
  | [] => mret false
  | value :: rest =>
      has ← json_contains "property" value;
      if has : bool
      then prop ← json_getitem value "property"; mret true
      else property_found rest
  end.

(** "Clean the script content": the assignment prefix in front of
    the JSON text is dropped. *)
Definition clean_script_content (script_content : string) : string :=
  if PyStr.startswith script_content "window.__INITIAL_STATE__="
  then PyStr.replace "window.__INITIAL_STATE__=" "" script_content
  else if PyStr.startswith script_content "window.__APOLLO_STATE__="
  then PyStr.replace "window.__APOLLO_STATE__=" "" script_content
  else script_content.

(** The script tag [parse_house_page] settles on: the first of
    [script_selectors] that selects one, else the first script whose
    text mentions [apiCache] or [property]. *)
Definition find_script (soup : node) : option node :=
  match select_script soup script_selectors with
  | Some s => Some s
  | None => scan_scripts (Soup.find_all ["script"] soup)
  end.

(** [parse_house_page(html)].  The statements that build the full
    record sit after a [return] in the source and are never run. *)
Definition parse_house_page (html : string) : M dict :=
  let soup := BeautifulSoup html in
  match find_script soup with
  | None =>
      print (Error "No preloaded data script found. Trying to extract from HTML...");;
      extract_basic_info_from_html soup
  | Some script =>
      try_except
        (script_content ←
           match Soup.string_ script with
           | Some s => mret (PyStr.strip s)
           | None => raise (AttributeError "strip")
           end;
         let script_content := clean_script_content script_content in
         preloaded_data ←
           match json_loads script_content with
           | Some j => mret j
           | None => raise JSONDecodeError
           end;
         api_cache ← json_get preloaded_data "apiCache";
         api_cache ←
           (if negb (json_truthy api_cache)
            then json_get preloaded_data "property"
            else mret api_cache);
         values ← json_values api_cache;
         found ← property_found values;
         if found : bool
         then
           print (Error "No property data found in apiCache.");;
           mret ∅
         else
           prop ← json_get preloaded_data "property";
           if negb (json_truthy prop)
           then
             print (Error "No property data found in any structure");;
             extract_basic_info_from_html soup
           else
             print (Error "No property data found in apiCache.");;
             mret ∅)
        (λ e,
           match e with
           | JSONDecodeError => print (Error "JSON decode error");; mret ∅
           | _ => print (Error "Error parsing house page");; mret ∅
           end)
  end.

(** [card_data.get(k, '')] *)
Definition card_field (card_data : dict) (k : string) : pyval :=
  dict_get_default card_data k (PStr "").

(** The card-level fields copied into a record. *)
Definition with_card_fields (card_data data : dict) : dict :=
  <["card_home_type" := card_field card_data "card_home_type"]>
  (<["card_sqft" := card_field card_data "card_sqft"]>
  (<["card_bathrooms" := card_field card_data "card_bathrooms"]>
  (<["card_bedrooms" := card_field card_data "card_bedrooms"]>
  (<["card_address" := card_field card_data "card_address"]>
  (<["card_price" := card_field card_data "card_price"]> data))))).

(** The request for the detail page of card [i]: a click on the
    card in the search page, or the detail URL itself. *)
Definition fetch_detail (initial_url : string) (use_clicks : bool)
    (i : nat) (href : pyval) : M (pyval * pyval) :=
  if use_clicks
  then
    let card_selector :=
      ("article[data-test='property-card']:nth-child(" ++ pretty i ++
       ") a[data-test='property-card-link']")%string in
    nimble_request initial_url
      (Some (create_single_card_click_flow card_selector true)) 3 2
  else nimble_request (cell href) (Some detail_render_flow) 3 2.

(** The record kept when the detail page gave nothing. *)
Definition fallback_data (i : nat) (href : pyval) (card_data : dict) : dict :=
  <["source" := PStr "card_data_only"]>
    (with_card_fields card_data
       (<["detail_url" := href]> (<["card_index" := PInt (Z.of_nat i)]> ∅))).

(** The body of the [for i, card_data in enumerate(card_data_list, 1)]
    loop of [process_individual_cards]: the record appended to
    [all_data], if any. *)
Definition process_card (initial_url : string) (use_clicks : bool)
    (i : nat) (card_data : dict) : M (option dict) :=
  let href := dict_get card_data "detail_url" in
  if negb (truthy href)
  then print (Warn "Card has no valid link, skipping");; mret None
  else
    '(detail_html, _) ← fetch_detail initial_url use_clicks i href;
    record ←
      (if truthy detail_html
       then
         write_debug ("debug_card_" ++ pretty i ++ ".html")%string;;
         house_data ← parse_house_page (cell detail_html);
         if bool_decide (house_data = ∅)
         then
           mret (Some (fallback_data i href card_data))
         else
           mret (Some (with_card_fields card_data
                         (<["detail_url" := href]>
                          (<["card_index" := PInt (Z.of_nat i)]> house_data))))
       else print (Error "Failed to fetch detail page for card");; mret None);
    print (Sleep 2 2);;
    mret record.

(** The loop itself, from index [i]: [all_data] after it. *)
Fixpoint process_card_list (initial_url : string) (use_clicks : bool)
    (i : nat) (card_data_list : list dict) (all_data : list dict) : M (list dict) :=
  match card_data_list with
  | [] => mret all_data
  | card_data :: rest =>
      record ← process_card initial_url use_clicks i card_data;
      process_card_list initial_url use_clicks (S i) rest
        (match record with
         | Some r => all_data ++ [r]
         | None => all_data
         end)
  end.

End Pipeline.

(** [create_render_flow_with_clicks(click_selectors, wait_selectors,
    scroll_duration)] *)
Definition scroll_targets : list string :=
  [ "article[data-test='property-card']:nth-child(5)";
    "article[data-test='property-card']:nth-child(10)";
    "article[data-test='property-card']:nth-child(15)";
    "article[data-test='property-card']:nth-child(20)";
    "article[data-test='property-card']:last-child";
    "section[data-test='search-page-list-container']";
    "div[data-test='search-page-list']";
    "footer";
    "div[data-test='loading-spinner']";
    "body";
    "html" ].

Definition create_render_flow_with_clicks (click_selectors wait_selectors : list string)
    (scroll_duration : Z) : list flow_step :=
  (match wait_selectors with
   | [] => []
   | _ => [wait_for wait_selectors 15000 true]
   end) ++
  map (λ selector, wait_and_click selector 20000 500 true false) click_selectors ++
  flat_map (λ target, [scroll_to target false; wait 3000]) scroll_targets ++
  [ infinite_scroll 45000 "div[data-test='loading-spinner']" 5000 (Some 8000%Z);
    wait 8000;
    scroll_to "body" false;
    wait 5000;
    scroll_to "article[data-test='property-card']:nth-child(18)" false;
    wait 3000;
    wait 8000 ] ++
  (match wait_selectors with
   | [] => []
   | _ => [wait_for wait_selectors 20000 true]
   end).

(** A selector of [parse_search_page]: a simple one, or two simple
    ones joined by the descendant combinator, as in
    [div[data-test="search-page-list"] article]. *)
Inductive card_selector : Type :=
| Simple (s : selector)
| Inside (anc s : selector).

(** The tags below [n] that match [s] and have a tag matching [anc]
    above them, in document order; [under] tells whether such a tag
    has been passed on the way down to [n]. *)
Fixpoint select_under (anc s : selector) (under : bool) (n : node) : list node :=
  match n with
  | Text _ => []
  | Elem _ _ cs =>
      (fix go (l : list node) : list node :=
         match l with
         | [] => []
         | c :: l' =>
             match c with
             | Text _ => go l'
             | Elem _ _ _ =>
                 (if under && Soup.matches s c then [c] else []) ++
                 select_under anc s (under || Soup.matches anc c) c ++ go l'
             end
         end) cs
  end.

(** [soup.select(selector)] *)
Definition select_cards (selector : card_selector) (soup : node) : list node :=
  match selector with
  | Simple s => Soup.select s soup
  | Inside anc s => select_under anc s false soup
  end.

Definition card_selectors : list card_selector :=
  [ Simple (Sel (Some "article") [AttrIs "data-test" "property-card"]);
    Simple (Sel (Some "div") [AttrIs "data-test" "property-card"]);
    Simple (Sel (Some "li") [AttrIs "data-test" "property-card"]);
    Simple (Sel (Some "div") [AttrHas "class" "property-card"]);
    Simple (Sel (Some "article") [AttrHas "class" "property-card"]);
    Simple (Sel (Some "div") [AttrHas "class" "StyledCard"]);
    Simple (Sel (Some "article") [AttrHas "class" "StyledCard"]);
    Inside (Sel (Some "div") [AttrIs "data-test" "search-page-list"])
           (Sel (Some "article") []);
    Inside (Sel (Some "div") [AttrIs "data-test" "search-page-list"])
           (Sel (Some "div") [AttrHas "class" "card"]);
    Inside (Sel (Some "section") [AttrIs "data-test" "search-page-list-container"])
           (Sel (Some "article") []);
    Inside (Sel (Some "section") [AttrIs "data-test" "search-page-list-container"])
           (Sel (Some "div") [AttrHas "class" "card"]) ].

Definition link_selectors : list selector :=
  [ Sel (Some "a") [AttrIs "data-test" "property-card-link"];
    Sel (Some "a") [AttrHas "href" "/homedetails/"];
    Sel (Some "a") [AttrIs "data-test" "property-link"];
    Sel (Some "a") [AttrHas "class" "property-link"];
    Sel (Some "a") [AttrHas "class" "card-link"] ].

Definition card_price_selectors : list selector :=
  [ Sel (Some "span") [AttrIs "data-test" "property-card-price"];
    Sel (Some "span") [AttrIs "data-test" "price"];
    Sel (Some "span") [AttrHas "class" "price"];
    Sel (Some "div") [AttrIs "data-test" "property-card-price"];
    Sel (Some "div") [AttrHas "class" "price"];
    Sel None [AttrIs "data-test" "price"];
    Sel None [AttrHas "class" "price"] ].

Definition card_address_selectors : list selector :=
  [ Sel (Some "address") [AttrIs "data-test" "property-card-addr"];
    Sel (Some "address") [AttrIs "data-test" "address"];
    Sel (Some "span") [AttrIs "data-test" "property-card-addr"];
    Sel (Some "span") [AttrIs "data-test" "address"];
    Sel (Some "div") [AttrIs "data-test" "property-card-addr"];
    Sel (Some "div") [AttrIs "data-test" "address"];
    Sel None [AttrIs "data-test" "address"];
    Sel None [AttrHas "class" "address"] ].

Definition bed_bath_selectors : list selector :=
  [ Sel (Some "ul") [AttrIs "data-test" "property-beds"];
    Sel (Some "ul") [AttrHas "class" "bed"];
    Sel (Some "div") [AttrIs "data-test" "property-beds"];
    Sel (Some "div") [AttrHas "class" "bed"];
    Sel None [AttrIs "data-test" "bed"];
    Sel None [AttrHas "class" "bed"] ].

Definition sqft_selectors : list selector :=
  [ Sel (Some "span") [AttrIs "data-test" "property-card-size"];
    Sel (Some "span") [AttrIs "data-test" "size"];
    Sel (Some "span") [AttrHas "class" "sqft"];
    Sel (Some "span") [AttrHas "class" "size"];
    Sel (Some "div") [AttrIs "data-test" "property-card-size"];
    Sel (Some "div") [AttrIs "data-test" "size"];
    Sel (Some "div") [AttrHas "class" "sqft"];
    Sel (Some "div") [AttrHas "class" "size"];
    Sel None [AttrIs "data-test" "size"];
    Sel None [AttrHas "class" "sqft"] ].

Definition home_type_selectors : list selector :=
  [ Sel (Some "span") [AttrIs "data-test" "property-card-type"];
    Sel (Some "span") [AttrIs "data-test" "type"];
    Sel (Some "span") [AttrHas "class" "type"];
    Sel (Some "div") [AttrIs "data-test" "property-card-type"];
    Sel (Some "div") [AttrIs "data-test" "type"];
    Sel (Some "div") [AttrHas "class" "type"];
    Sel None [AttrIs "data-test" "type"];
    Sel None [AttrHas "class" "type"] ].

Definition card_bed_pattern : string := "(\d+(?:\.\d+)?)\s*(?:bd|bed)".
Definition card_bath_pattern : string := "(\d+(?:\.\d+)?)\s*(?:ba|bath)".

(** [tag.name] *)
Definition tag_name (n : node) : string :=
  match n with
  | Text _ => ""
  | Elem name _ _ => name
  end.

(** [tag.get('class', [])]: the words of the class attribute. *)
Definition class_list (n : node) : list string :=
  match Soup.attr n "class" with
  | Some w => String.words w
  | None => []
  end.

(** [find_all(names, class_=lambda x: x and any(term in x.lower() for
    term in terms))].  The test is run on every word of the class
    attribute and on the words joined by blanks; as no term holds a
    blank, this is the test on the attribute itself. *)
Definition class_mentions (terms : list string) (n : node) : bool :=
  match Soup.attr n "class" with
  | Some w => existsb (λ term, PyStr.contains term (PyStr.lower w)) terms
  | None => false
  end.

(** ASCII part of [str.isdigit] on one character *)
Definition isdigit (c : ascii) : bool :=
  let n := nat_of_ascii c in ((48 <=? n) && (n <=? 57))%nat.

(** [for selector in selectors: elem = card.select_one(selector);
    if elem: ... break]: the element the loop stops at. *)
Fixpoint first_selected (card : node) (selectors : list selector) : option node :=
  match selectors with
  | [] => None
  | selector :: rest =>
      match Soup.select_one selector card with
      | Some elem => Some elem
      | None => first_selected card rest
      end
  end.

(** [a and 'href' in a.attrs] *)
Definition has_href (a : option node) : bool :=
  match a with
  | Some tag => bool_decide (is_Some (Soup.attr tag "href"))
  | None => false
  end.

(** The loop over [link_selectors]: the value of [a] after it. *)
Fixpoint link_loop (card : node) (selectors : list selector) (a : option node)
    : option node :=
  match selectors with
  | [] => a
  | selector :: rest =>
      let a := Soup.select_one selector card in
      if has_href a then a else link_loop card rest a
  end.

(** The detail URL of a card, made absolute. *)
Definition card_link (card : node) : option string :=
  let a := link_loop card link_selectors None in
  if has_href a
  then
    match a with
    | Some tag =>
        match Soup.attr tag "href" with
        | Some href =>
            Some (if PyStr.startswith href "https://"
                  then href
                  else "https://www.zillow.com" ++ href)%string
        | None => None
        end
    | None => None
    end
  else None.

(** The loop over [sqft_selectors]: an element whose text neither
    mentions [sqft] nor has a digit does not end it. *)
Fixpoint sqft_loop (card : node) (selectors : list selector) : option string :=
  match selectors with
  | [] => None
  | selector :: rest =>
      match Soup.select_one selector card with
      | Some sqft_elem =>
          let text := Soup.text_stripped sqft_elem in
          if PyStr.contains "sqft" (PyStr.lower text) ||
             existsb isdigit (list_ascii_of_string text)
          then Some text
          else sqft_loop card rest
      | None => sqft_loop card rest
      end
  end.

(** The second pass of [parse_search_page], over the links of the
    page: [card_data] and [seen_urls] after it. *)
Fixpoint secondary_pass (extra_links : list node) (card_data : list dict)
    (seen_urls : gset string) : list dict * gset string :=
  match extra_links with
  | [] => (card_data, seen_urls)
  | a :: rest =>
      match Soup.attr a "href" with
      | None => secondary_pass rest card_data seen_urls
      | Some href =>
          if String.eqb href "" then secondary_pass rest card_data seen_urls
          else
            let href := (if PyStr.startswith href "http"
                         then href
                         else "https://www.zillow.com" ++ href)%string in
            if negb (PyStr.contains "/homedetails/" href)
            then secondary_pass rest card_data seen_urls
            else if bool_decide (href ∈ seen_urls)
            then secondary_pass rest card_data seen_urls
            else secondary_pass rest
                   (card_data ++ [ {[ "detail_url" := PStr href ]} ])
                   ({[ href ]} ∪ seen_urls)
      end
  end.

Section SearchPage.

(** [BeautifulSoup(html, 'html.parser')] *)
Variable BeautifulSoup : string → node.
(** [re.search(pattern, text)] *)
Variable re_search : string → string → option re_match.
(** [str(l)] of a list of strings, as an f-string formats it *)
Variable list_str : list string → string.

(** The identifier by which found cards are told apart. *)
Definition card_id (card : node) : string :=
  (tag_name card ++ "_" ++ list_str (class_list card) ++ "_" ++
   Soup.get card "data-test" "")%string.

(** "Remove duplicates while preserving order" *)
Fixpoint unique_cards (property_cards : list node) (seen_cards : gset string)
    : list node :=
  match property_cards with
  | [] => []
  | card :: rest =>
      if bool_decide (card_id card ∈ seen_cards)
      then unique_cards rest seen_cards
      else card :: unique_cards rest ({[ card_id card ]} ∪ seen_cards)
  end.

(** The cards of a page: what the card selectors select, without
    duplicates, or else every tag whose class looks like a card's. *)
Definition find_cards (soup : node) : list node :=
  let property_cards := flat_map (λ selector, select_cards selector soup) card_selectors in
  match unique_cards property_cards ∅ with
  | [] =>
      List.filter (class_mentions ["card"; "property"; "listing"; "item"])
                  (Soup.find_all ["article"; "div"; "li"] soup)
  | unique => unique
  end.

(** The body of the primary pass: [card_info] of one card. *)
Definition parse_card (card : node) : dict :=
  let card_info : dict := ∅ in
  let card_info :=
    match card_link card with
    | Some href => <["detail_url" := PStr href]> card_info
    | None => card_info
    end in
  let card_info :=
    match first_selected card card_price_selectors with
    | Some price_elem => <["card_price" := PStr (Soup.text_stripped price_elem)]> card_info
    | None => card_info
    end in
  let card_info :=
    match first_selected card card_address_selectors with
    | Some address_elem =>
        <["card_address" := PStr (Soup.text_stripped address_elem)]> card_info
    | None => card_info
    end in
  let card_info :=
    match first_selected card bed_bath_selectors with
    | Some beds_baths_elem =>
        fold_left
          (λ card_info item,
             let text := PyStr.lower (Soup.text_stripped item) in
             if PyStr.contains "bd" text || PyStr.contains "bed" text
             then <["card_bedrooms" := PStr (Soup.text_stripped item)]> card_info
             else if PyStr.contains "ba" text || PyStr.contains "bath" text
             then <["card_bathrooms" := PStr (Soup.text_stripped item)]> card_info
             else card_info)
          (Soup.find_all ["li"; "span"; "div"] beds_baths_elem)
          card_info
    | None => card_info
    end in
  let card_info :=
    if bool_decide (card_info !! "card_bedrooms" = None) ||
       bool_decide (card_info !! "card_bathrooms" = None)
    then
      let all_text := PyStr.lower (Soup.text card) in
      let card_info :=
        match re_search card_bed_pattern all_text with
        | Some bed_match => <["card_bedrooms" := PStr (group1 bed_match ++ " bd")]> card_info
        | None => card_info
        end in
      match re_search card_bath_pattern all_text with
      | Some bath_match => <["card_bathrooms" := PStr (group1 bath_match ++ " ba")]> card_info
      | None => card_info
      end
    else card_info in
  let card_info :=
    match sqft_loop card sqft_selectors with
    | Some text => <["card_sqft" := PStr text]> card_info
    | None => card_info
    end in
  match first_selected card home_type_selectors with
  | Some home_type_elem =>
      <["card_home_type" := PStr (Soup.text_stripped home_type_elem)]> card_info
  | None => card_info
  end.

(** The primary pass over the found cards: [card_data] and
    [seen_urls] after it. *)
Fixpoint primary_pass (property_cards : list node) (card_data : list dict)
    (seen_urls : gset string) : list dict * gset string :=
  match property_cards with
  | [] => (card_data, seen_urls)
  | card :: rest =>
      let card_info := parse_card card in
      primary_pass rest
        (if bool_decide (card_info = ∅) then card_data else card_data ++ [card_info])
        (match card_link card with
         | Some href => {[ href ]} ∪ seen_urls
         | None => seen_urls
         end)
  end.

(** [parse_search_page(html)].  The [logger.info] lines, which
    report what was found, are left out. *)
Definition parse_search_page (html : string) : M (list dict) :=
  let soup := BeautifulSoup html in
  write_debug "debug_search_page_full.html";;
  let property_cards := find_cards soup in
  let '(card_data, seen_urls) := primary_pass property_cards [] ∅ in
  let extra_links := Soup.select (Sel (Some "a") [AttrHas "href" "/homedetails/"]) soup in
  mret (fst (secondary_pass extra_links card_data seen_urls)).

End SearchPage.

(** A record made from the JSON of the search page: its values are
    JSON values. *)
Abbreviation jdict := (gmap string json).

(** [j.get(k, d)] *)
Definition json_get_default (j : json) (k : string) (d : json) : M json :=
  match j with
  | JObj l => mret (default d (fields_get k l))
  | _ => raise (AttributeError "get")
  end.

(** The items a [for] loop over [j] goes through: the elements of a
    list, the keys of a dict, the characters of a string. *)
Definition json_iter (j : json) : M (list json) :=
  match j with
  | JArr items => mret items
  | JObj l => mret (map (λ kv, JStr (fst kv)) l)
  | JStr s => mret (map (λ c, JStr (String c "")) (list_ascii_of_string s))
  | _ => raise (TypeError "object is not iterable")
  end.

(** [s.find(sub, start)]: the lowest index, at or after [start], at
    which [sub] begins, [None] for -1; [pos] is the index in the whole
    string of the first character of [s]. *)
Fixpoint find_from (sub : string) (start pos : nat) (s : string) : option nat :=
  if (start <=? pos)%nat && String.prefix sub s then Some pos
  else
    match s with
    | EmptyString => None
    | String _ rest => find_from sub start (S pos) rest
    end.

Definition initial_state_marker : string := "window.__INITIAL_STATE__=".

(** [script_content[json_start:json_end]]: the text after the
    marker, up to the next semicolon or to the end.  ([find] answers
    -1 when the marker is missing, which makes [json_start] 24.) *)
Definition initial_state (script_content : string) : string :=
  let json_start :=
    match find_from initial_state_marker 0 0 script_content with
    | Some i => i + String.length initial_state_marker
    | None => String.length initial_state_marker - 1
    end in
  let json_end :=
    match find_from ";" json_start 0 script_content with
    | Some i => i
    | None => String.length script_content
    end in
  String.substring json_start (json_end - json_start) script_content.

(** [script.string and ('apiCache' in script.string or 'property' in
    script.string)] *)
Definition mentions_data (script : node) : bool :=
  match Soup.string_ script with
  | Some str =>
      negb (String.eqb str "") &&
      (PyStr.contains "apiCache" str || PyStr.contains "property" str)
  | None => false
  end.

(** [card_data_list[:max_cards]] under [if max_cards:] *)
Definition first_cards (max_cards : option Z) (card_data_list : list dict) : list dict :=
  match max_cards with
  | Some m =>
      if (m =? 0)%Z then card_data_list
      else if (m <? 0)%Z
      then take (Z.to_nat (Z.of_nat (length card_data_list) + m)) card_data_list
      else take (Z.to_nat m) card_data_list
  | None => card_data_list
  end.

Definition additional_scroll_flow : list flow_step :=
  [ wait 5000;
    scroll_to "article[data-test='property-card']:nth-child(10)" false;
    wait 3000;
    scroll_to "article[data-test='property-card']:nth-child(15)" false;
    wait 3000;
    scroll_to "article[data-test='property-card']:nth-child(18)" false;
    wait 3000;
    scroll_to "body" false;
    wait 3000;
    scroll_to "footer" false;
    wait 3000;
    infinite_scroll 30000 "div[data-test='loading-spinner']" 3000 (Some 5000%Z);
    wait 8000 ].

(** What [process_individual_cards] returns: the records made from
    the JSON of the search page, or the records made card by card. *)
Inductive scraped : Type :=
| FromJson (all_data : list jdict)
| FromCards (all_data : list dict).

Section Run.

Variable backend : nat → request → response.
(** [BeautifulSoup(html, 'html.parser')] *)
Variable BeautifulSoup : string → node.
(** [json.loads(text)]: [None] stands for [json.JSONDecodeError]. *)
Variable json_loads : string → option json.
(** [re.search(pattern, text)] *)
Variable re_search : string → string → option re_match.
(** [str(l)] of a list of strings and [str(j)] of a JSON value, as
    an f-string formats them *)
Variable list_str : list string → string.
Variable py_str : json → string.

(** The record made of one entry of [listResults]. *)
Definition property_data (result : list (string * json)) : jdict :=
  let get := λ k d, default d (fields_get k result) in
  <["detail_url" :=
      JStr ("https://www.zillow.com/homedetails/" ++ py_str (get "zpid" JNull) ++ "/")]>
  (<["description" := get "description" (JStr "")]>
  (<["days_on_zillow" := get "daysOnZillow" (JStr "")]>
  (<["price_per_sqft" := get "pricePerSqft" (JStr "")]>
  (<["lot_size" := get "lotSize" (JStr "")]>
  (<["year_built" := get "yearBuilt" (JStr "")]>
  (<["home_type" := get "propertyType" (JStr "")]>
  (<["square_feet" := get "area" (JStr "")]>
  (<["bathrooms" := get "baths" (JStr "")]>
  (<["bedrooms" := get "beds" (JStr "")]>
  (<["price" := get "price" (JStr "")]>
  (<["address" := get "address" (JStr "")]>
  (<["zpid" := get "zpid" JNull]> ∅)))))))))))).

(** The loop over [listResults].  [all_properties] is a list the
    function appends to, and an exception leaves it as it is at
    that point: the loop gives the list back together with the
    exception that ended it, if one did. *)
Fixpoint list_results_loop (results : list json) (all_properties : list jdict)
    : list jdict * option exn :=
  match results with
  | [] => (all_properties, None)
  | result :: rest =>
      match result with
      | JObj fields => list_results_loop rest (all_properties ++ [property_data fields])
      | _ => (all_properties, Some (AttributeError "get"))
      end
  end.

(** From [if 'searchResults' in data:] to the end of the loop. *)
Definition search_results (data : json) (all_properties : list jdict)
    : M (list jdict * option exn) :=
  has ← json_contains "searchResults" data;
  if has : bool
  then
    search ← json_getitem data "searchResults";
    results ← json_get_default search "listResults" (JArr []);
    results ← json_iter results;
    mret (list_results_loop results all_properties)
  else mret (all_properties, None).

(** The loop over the scripts of [extract_data_from_search_page_html],
    with the two handlers: [JSONDecodeError] and [KeyError] go on
    with the next script, any other exception ends the function;
    both keep what [all_properties] holds by then. *)
Fixpoint scripts_loop (scripts : list node) (all_properties : list jdict)
    : M (list jdict) :=
  match scripts with
  | [] =>
      print (Warn "No JSON data found in search page");;
      mret all_properties
  | script :: rest =>
      if mentions_data script
      then
        let script_content := PyStr.strip (default "" (Soup.string_ script)) in
        if PyStr.contains initial_state_marker script_content
        then
          '(all_properties, stopped) ←
            try_except
              (data ←
                 match json_loads (initial_state script_content) with
                 | Some j => mret j
                 | None => raise JSONDecodeError
                 end;
               search_results data all_properties)
              (λ e, mret (all_properties, Some e));
          match stopped with
          | None => mret all_properties
          | Some e =>
              match e with
              | JSONDecodeError | KeyError _ =>
                  print (Warn "Failed to parse JSON from script");;
                  scripts_loop rest all_properties
              | _ =>
                  print (Error "Error extracting data from search page");;
                  mret all_properties
              end
          end
        else scripts_loop rest all_properties
      else scripts_loop rest all_properties
  end.

(** [extract_data_from_search_page_html(html)] *)
Definition extract_data_from_search_page_html (html : string) : M (list jdict) :=
  let soup := BeautifulSoup html in
  scripts_loop (Soup.find_all ["script"] soup) [].

(** [process_individual_cards] once the search page is at hand:
    from "Try to extract data from search page JSON first" to the
    end. *)
Definition records_of_page (initial_url : string) (max_cards : option Z)
    (use_clicks : bool) (html : pyval) : M scraped :=
  json_data ← extract_data_from_search_page_html (cell html);
  match json_data with
  | _ :: _ =>
      mret (FromJson
              (imap (λ i prop_data,
                       <["source" := JStr "search_page_json"]>
                         (<["card_index" := JNum (Z.of_nat (i + 1))]> prop_data))
                    json_data))
  | [] =>
      card_data_list ← parse_search_page BeautifulSoup re_search list_str (cell html);
      let card_data_list := first_cards max_cards card_data_list in
      all_data ← process_card_list backend BeautifulSoup json_loads
                   initial_url use_clicks 1 card_data_list [];
      mret (FromCards all_data)
  end.

(** [process_individual_cards(initial_url, max_cards, use_clicks)].
    The [logger.info] lines are left out. *)
Definition process_individual_cards (initial_url : string) (max_cards : option Z)
    (use_clicks : bool) : M scraped :=
  let search_render_flow :=
    create_render_flow_with_clicks [] ["article[data-test='property-card']"] 120000 in
  '(html, _) ← nimble_request backend initial_url (Some search_render_flow) 3 2;
  if negb (truthy html)
  then print (Error "Failed to fetch initial search page.");; mret (FromCards [])
  else
    write_debug "debug_search_page.html";;
    let soup := BeautifulSoup (cell html) in
    let initial_card_count :=
      length (Soup.select (Sel (Some "article") [AttrIs "data-test" "property-card"]) soup) in
    html ←
      (if (initial_card_count <? 15)%nat
       then
         '(additional_html, _) ←
           nimble_request backend initial_url (Some additional_scroll_flow) 3 2;
         if truthy additional_html
         then write_debug "debug_search_page.html";; mret additional_html
         else mret html
       else mret html);
    records_of_page initial_url max_cards use_clicks html.

End Run.

End Old.

(** * Vocabulary of the statements *)

(** [always m Q]: from every world [m] returns, with a value in [Q]. *)
Definition always {A : Type} (m : M A) (Q : A → Prop) : Prop :=
  ∀ w, ∃ a w', m w = (Ok a, w') ∧ Q a.

(** The world after one more network call, and after one more message. *)
Definition called (w : world) : world :=
  {| calls := S (calls w); printed := printed w;
     csv_file := csv_file w; debug_files := debug_files w |}.

Definition said (e : event) (w : world) : world :=
  {| calls := calls w; printed := printed w ++ [e];
     csv_file := csv_file w; debug_files := debug_files w |}.

(** The two failures of an attempt that the claim names first: the
    call got no answer (transport error, timeout), or the answer has an
    HTTP error status. *)
Definition transport_or_http_error (r : response) : bool :=
  match r with
  | NoAnswer _ => true
  | Reply code _ => ((400 <=? code) && (code <? 600))%Z
  end.

(** The answer is a success payload carrying [html]. *)
Definition success_reply (r : response) (html : pyval) : Prop :=
  ∃ code body, r = Reply code (Some body) ∧
    ((400 <=? code) && (code <? 600))%Z = false ∧
    body !! "status" = Some (PStr "success") ∧
    body !! "html_content" = Some html.

(** The answer is a well-formed payload whose status is not "success". *)
Definition backend_reported_error (r : response) : Prop :=
  ∃ code body status, r = Reply code (Some body) ∧
    ((400 <=? code) && (code <? 600))%Z = false ∧
    body !! "status" = Some status ∧ status ≠ PStr "success".

(** A backend that fails twice, by a timeout and by a 503, and then
    answers. *)
Definition success_body (html : string) : dict :=
  <["status" := PStr "success"]> (<["html_content" := PStr html]> ∅).

Definition error_body : dict :=
  <["status" := PStr "error"]> (<["message" := PStr "render failed"]> ∅).

Definition flaky_backend (n : nat) (rq : request) : response :=
  nth n [NoAnswer "timed out"; Reply 503 None] (Reply 200 (Some (success_body "<html></html>"))).

(** A backend whose first two answers report an error and whose third
    is a success. *)
Definition reporting_backend (n : nat) (rq : request) : response :=
  nth n [Reply 200 (Some error_body); Reply 200 (Some error_body)]
        (Reply 200 (Some (success_body "<html></html>"))).


(** ** Cards *)

(** The anchor [extract_property_details] looks for. *)
Definition link_of (card : node) : option node :=
  Soup.find "a" [("data-test", "property-card-link")] card.

(** The card has no such anchor, or the anchor has an [href]. *)
Definition well_linked (card : node) : bool :=
  match link_of card with
  | Some l => bool_decide (is_Some (Soup.attr l "href"))
  | None => true
  end.

(** The detail URL of a card: absolute, or [None] without an anchor. *)
Definition card_url (card : node) : pyval :=
  match link_of card with
  | Some l =>
      match Soup.attr l "href" with
      | Some h => PStr (if PyStr.startswith h "http" then h else "https://www.zillow.com" ++ h)
      | None => PNone
      end
  | None => PNone
  end.

Definition card_zpid (card : node) : string :=
  PyStr.replace "property-card-" "" (PyStr.replace "zpid_" "" (Soup.get card "id" "")).

(** The element of the first selector, in the order of the list, that
    selects anything in [doc]. *)
Fixpoint first_match (doc : node) (selectors : list selector) : option node :=
  match selectors with
  | [] => None
  | s :: rest =>
      match Soup.select_one s doc with
      | Some e => Some e
      | None => first_match doc rest
      end
  end.

Definition selected_address (card : node) : string :=
  match first_match card Main.address_selectors with
  | Some e => PyStr.strip (Soup.text e)
  | None => "Unknown"
  end.

Definition card_address (re_search : string → string → option re_match) (card : node) : string :=
  if String.eqb (selected_address card) "Unknown"
  then
    match re_search Main.address_pattern (PyStr.strip (Soup.text card)) with
    | Some m => group0 m
    | None => selected_address card
    end
  else selected_address card.

(** The record of a card alone. *)
Definition summary_of (re_search : string → string → option re_match) (card : node) : dict :=
  <["zpid" := PStr (card_zpid card)]>
    (<["url" := card_url card]> (<["address" := PStr (card_address re_search card)]> ∅)).

(** A regular-expression engine that finds nothing, for pages without
    any text the patterns could match. *)
Definition no_match (pattern text : string) : option re_match := None.

(** A card with the given attributes, link and address line. *)
Definition sample_card (id href address : string) : node :=
  Elem "article" [("data-test", "property-card"); ("id", id)]
    [ Elem "a" [("data-test", "property-card-link"); ("href", href)] [Text "View listing"];
      Elem "address" [("data-test", "property-card-addr")] [Text address] ].

(** A card whose link anchor carries no [href]. *)
Definition card_without_href : node :=
  Elem "article" [("data-test", "property-card"); ("id", "zpid_7")]
    [ Elem "a" [("data-test", "property-card-link")] [Text "View listing"];
      Elem "address" [("data-test", "property-card-addr")] [Text "7 Elm St"] ].

(** ** Records *)

(** The keys [extract_apartment_details] fills in. *)
Definition detail_keys : list string :=
  [ "price"; "bedrooms"; "bathrooms"; "sqft"; "address";
    "pets_allowed"; "laundry"; "parking"; "cooling"; "heating" ].


(** [d[k]] is there and is a string. *)
Definition has_str (d : dict) (k : string) : Prop := ∃ s, d !! k = Some (PStr s).

(** What [extract_apartment_details] returns: the ten detail keys, with
    strings, and nothing else. *)
Definition detail_shape (d : dict) : Prop :=
  (∀ k, In k detail_keys → has_str d k) ∧ (∀ k, is_Some (d !! k) → In k detail_keys).

(** [d'] is [d] after some assignments [d[k] = <a string>] with [k] in [K]. *)
Inductive grows (K : list string) : dict → dict → Prop :=
| grows_refl (d : dict) : grows K d d
| grows_step (d d' : dict) (k s : string) :
    In k K → grows K d d' → grows K d (<[k := PStr s]> d').

(** The price the selectors of a detail page resolve to. *)
Definition selected_price (soup : node) : string :=
  match first_match soup Main.price_selectors with
  | Some e => PyStr.strip (Soup.text e)
  | None => "Unknown"
  end.

(** The address a merge keeps: the detail page's only when the card's
    is ['Unknown'] and the detail page's is not. *)
Definition merged_address (card_address detail_address : pyval) : pyval :=
  if py_eqb card_address (PStr "Unknown") && negb (py_eqb detail_address (PStr "Unknown"))
  then detail_address
  else card_address.

(** The record appended for a card with record [details] once
    [extract_apartment_details] has answered [apartment_details]. *)
Definition record_of (details : dict) (apartment_details : option dict) : dict :=
  match Main.fetched apartment_details with
  | Some d =>
      dict_update
        (<["address" := merged_address (dict_get details "address") (dict_get d "address")]>
           details)
        (delete "address" d)
  | None => details
  end.

(** What [extract_apartment_details] may answer. *)
Definition detail_answer (apartment_details : option dict) : Prop :=
  match apartment_details with
  | Some d => detail_shape d
  | None => True
  end.

(** The cards that give a record: those with a detail URL. *)
Definition linked (cards : list node) : list node :=
  List.filter (λ card, truthy (card_url card)) cards.


(** ** Sample pages *)

(** A detail page with a price, an address heading and two facts. *)
Definition sample_detail_page : node :=
  Elem "[document]" []
    [ Elem "html" []
        [ Elem "body" []
            [ Elem "span" [("data-testid", "price")] [Text " $1,200/mo "];
              Elem "h1" [("data-testid", "home-details-address")] [Text "456 Oak Ave"];
              Elem "div" [("data-testid", "facts-and-features")]
                [ Elem "li" [] [Text "Cats OK"];
                  Elem "li" [] [Text "Garage parking"] ] ] ] ].

(** A search page with two cards that link to the same detail URL. *)
Definition sample_search_page : node :=
  Elem "[document]" []
    [ Elem "html" []
        [ Elem "body" []
            [ sample_card "zpid_1" "/homedetails/123-Main-St/1_zpid/" "123 Main St";
              sample_card "zpid_1" "/homedetails/123-Main-St/1_zpid/" "123 Main St" ] ] ].

(** A parser pinned on the two sample pages. *)
Definition sample_parser (html : string) : node :=
  if String.eqb html "<search/>" then sample_search_page else sample_detail_page.

(** [urlparse(url).path] is only asked for when a detail page has no
    address heading; the sample pages have one. *)
Definition sample_path (url : string) : string := url.

(** A backend that answers every call with the search page first and
    detail pages afterwards. *)
Definition healthy_backend (n : nat) (rq : request) : response :=
  match n with
  | O => Reply 200 (Some (success_body "<search/>"))
  | S _ => Reply 200 (Some (success_body "<detail/>"))
  end.



(** A backend that is down. *)
Definition dead_backend (n : nat) (rq : request) : response := NoAnswer "timed out".

(** The record of the first sample card and the detail record of the
    sample detail page. *)
Definition sample_summary : dict :=
  <["zpid" := PStr "1"]>
    (<["url" := PStr "https://www.zillow.com/homedetails/123-Main-St/1_zpid/"]>
       (<["address" := PStr "123 Main St"]> ∅)).

Definition sample_detail : dict :=
  <["price" := PStr "$1,200/mo"]>
    (<["bedrooms" := PStr "Unknown"]>
       (<["bathrooms" := PStr "Unknown"]>
          (<["sqft" := PStr "Unknown"]>
             (<["address" := PStr "456 Oak Ave"]>
                (<["pets_allowed" := PStr "cats ok"]>
                   (<["laundry" := PStr "None"]>
                      (<["parking" := PStr "garage parking"]>
                         (<["cooling" := PStr "None"]>
                            (<["heating" := PStr "None"]> ∅))))))))).

(** [apartment_details] is what some call of [extract_apartment_details]
    returned. *)
Definition answered (backend : nat → request → response) (BeautifulSoup : string → node)
    (re_search : string → string → option re_match) (urlparse_path : string → string)
    (apartment_details : option dict) : Prop :=
  ∃ url w w',
    Main.extract_apartment_details backend BeautifulSoup re_search urlparse_path url w
    = (Ok apartment_details, w').

(** A detail page without a price and without an address heading, and
    the detail record it gives when the URL has no [/homedetails/] path. *)
Definition bare_detail_page : node :=
  Elem "[document]" [] [ Elem "html" [] [ Elem "body" [] [ Elem "p" [] [Text "Listing removed"] ] ] ].



(** The detail record of [bare_detail_page]: nothing was resolved. *)
Definition bare_detail : dict :=
  <["price" := PStr "Unknown"]>
    (<["bedrooms" := PStr "Unknown"]>
       (<["bathrooms" := PStr "Unknown"]>
          (<["sqft" := PStr "Unknown"]>
             (<["address" := PStr "Unknown"]>
                (<["pets_allowed" := PStr "No"]>
                   (<["laundry" := PStr "None"]>
                      (<["parking" := PStr "None"]>
                         (<["cooling" := PStr "None"]>
                            (<["heating" := PStr "None"]> ∅))))))))).

(** ** Sample detail pages of the older script *)

(** A detail page whose preloaded-data script is not JSON, with a price
    the HTML strategies would find. *)
Definition malformed_payload_page : node :=
  Elem "[document]" []
    [ Elem "html" []
        [ Elem "body" []
            [ Elem "script" [("id", "hdpApolloPreloadedData")] [Text "{not json"];
              Elem "span" [("data-test", "price")] [Text " $1,500 "] ] ] ].

Definition malformed_parser (html : string) : node := malformed_payload_page.

(** A loader that accepts the empty object only: enough to reject the
    text of [malformed_payload_page], which is not JSON. *)
Definition sample_loads (text : string) : option json :=
  if String.eqb text "{}" then Some (JObj []) else None.

(** A backend that always answers with a page. *)
Definition page_backend (n : nat) (rq : request) : response :=
  Reply 200 (Some (success_body "<detail/>")).

(** Two entries of [card_data_list]. *)
Definition sample_card_data (url price : string) : dict :=
  <["detail_url" := PStr url]> (<["card_price" := PStr price]> ∅).

(** ** Vocabulary of the further properties *)

(** An answer on which the [try] of [nimble_request] in
    [scrape_zillow.py] raises: no answer, an HTTP error status, a body
    that is not JSON, a payload without [status], or a success payload
    without [html_content]. *)
Definition attempt_raises (r : response) : bool :=
  match r with
  | NoAnswer _ => true
  | Reply code body =>
      ((400 <=? code) && (code <? 600))%Z ||
      match body with
      | None => true
      | Some d =>
          match d !! "status" with
          | None => true
          | Some status =>
              py_eqb status (PStr "success") &&
              negb (bool_decide (is_Some (d !! "html_content")))
          end
      end
  end.

(** Nothing but messages and network calls: the files are as before. *)
Definition same_files (w w' : world) : Prop :=
  csv_file w' = csv_file w ∧ debug_files w' = debug_files w.

(** The message "Failed to fetch <url> after <n> attempts". *)
Definition is_FailedToFetch (e : event) : bool :=
  match e with
  | FailedToFetch _ _ => true
  | _ => false
  end.

(** A backend whose first answer is a page that is not JSON, whose
    second has no status, and whose third is a success. *)
Definition garbled_backend (n : nat) (rq : request) : response :=
  nth n [Reply 200 None; Reply 200 (Some (<["message" := PStr "busy"]> ∅))]
        (Reply 200 (Some (success_body "<html></html>"))).

(** A backend whose answers have no status field. *)
Definition statusless_backend (n : nat) (rq : request) : response :=
  Reply 200 (Some (<["message" := PStr "busy"]> ∅)).

(** From [w] to [w'] messages were added, none of them "Failed to
    fetch ... after ... attempts". *)
Definition no_give_up_message (w w' : world) : Prop :=
  ∃ new, printed w' = printed w ++ new ∧
         forallb (λ e, negb (is_FailedToFetch e)) new = true.

(** ** The record of a detail page, stage by stage *)

(** After the price loop and the two passes over the summary element
    and the whole page. *)
Definition detail_numbers (re_search : string → string → option re_match) (soup : node) : dict :=
  let details : dict :=
    <["sqft" := PStr "Unknown"]>
      (<["bathrooms" := PStr "Unknown"]>
         (<["bedrooms" := PStr "Unknown"]>
            (Main.price_loop soup Main.price_selectors (<["price" := PStr "Unknown"]> ∅)))) in
  let details :=
    match Soup.select_one (Sel (Some "div") [AttrIs "data-testid" "bed-bath-beyond"]) soup with
    | Some summary_elem =>
        Main.bed_bath_sqft re_search (PyStr.lower (Soup.text summary_elem)) details
    | None => details
    end in
  if existsb (λ key, py_eqb (dict_get details key) (PStr "Unknown"))
             ["bedrooms"; "bathrooms"; "sqft"]
  then Main.bed_bath_sqft re_search (PyStr.lower (Soup.text soup)) details
  else details.

(** The element the address of a detail page is read from. *)
Definition address_heading (soup : node) : option node :=
  match Soup.select_one (Sel (Some "h1") [AttrIs "data-testid" "home-details-address"]) soup with
  | Some e => Some e
  | None =>
      match Soup.select_one (Sel (Some "h1") [AttrHas "class" "address"]) soup with
      | Some e => Some e
      | None => Soup.select_one (Sel (Some "div") [AttrHas "class" "address"]) soup
      end
  end.

(** The address of a detail page: the heading, else the slug of the
    URL, else ['Unknown']. *)
Definition detail_address (re_search : string → string → option re_match)
    (urlparse_path : string → string) (url : string) (soup : node) : string :=
  match address_heading soup with
  | Some e => PyStr.strip (Soup.text e)
  | None =>
      match re_search Main.path_pattern (urlparse_path url) with
      | Some path_match => PyStr.replace "-" " " (group1 path_match)
      | None => "Unknown"
      end
  end.

(** The record before the facts are read. *)
Definition detail_defaults (re_search : string → string → option re_match)
    (urlparse_path : string → string) (url : string) (soup : node) : dict :=
  <["heating" := PStr "None"]>
    (<["cooling" := PStr "None"]>
       (<["parking" := PStr "None"]>
          (<["laundry" := PStr "None"]>
             (<["pets_allowed" := PStr "No"]>
                (<["address" := PStr (detail_address re_search urlparse_path url soup)]>
                   (detail_numbers re_search soup)))))).

(** The record [extract_apartment_details] returns for a fetched page. *)
Definition detail_record (re_search : string → string → option re_match)
    (urlparse_path : string → string) (url : string) (soup : node) : dict :=
  Main.facts_loop soup Main.facts_selectors
    (detail_defaults re_search urlparse_path url soup).

(** ** Sample pages and matches for the further properties *)



(** What [re.search] finds in the path of a detail URL. *)
Definition slug_search (pattern text : string) : option re_match :=
  if String.eqb pattern Main.path_pattern && String.eqb text "/homedetails/123-Main-St/1_zpid/"
  then Some (ReMatch "/homedetails/123-Main-St/1_zpid" "123-Main-St")
  else None.

(** ** The output file *)


(** A computation that only prints: it returns, makes no network call
    and writes no file. *)
Definition only_prints {A : Type} (m : M A) (Q : A → Prop) : Prop :=
  ∀ w, ∃ a w', m w = (Ok a, w') ∧ Q a ∧ calls w' = calls w ∧ same_files w w'.



(** The keys [extract_basic_info_from_html] may set. *)
Definition basic_keys : list string :=
  ["price"; "address"; "bedrooms"; "bathrooms"; "square_feet"; "home_type"; "year_built"].

(** A record that has string values, under keys of [K] only. *)
Definition strings_under (K : list string) (d : dict) : Prop :=
  ∀ k v, d !! k = Some v → In k K ∧ ∃ s, v = PStr s.

(** A computation that returns or raises, and either way makes no
    network call and writes no file. *)
Definition prints_or_raises {A : Type} (m : M A) (Q : A → Prop) : Prop :=
  ∀ w, ∃ o w', m w = (o, w') ∧ calls w' = calls w ∧ same_files w w' ∧
               match o with Ok a => Q a | Raise _ => True end.

(** A value of the payload's [apiCache] that holds a [property]. *)
Definition holds_property (value : json) : bool :=
  match value with
  | JObj l => bool_decide (is_Some (Old.fields_get "property" l))
  | _ => false
  end.

(** A decoded payload with property data: a non-empty [property] at
    the top, or an [apiCache] one of whose values holds a [property]. *)
Definition has_property_data (fields : list (string * json)) : bool :=
  Old.json_truthy (default (JObj []) (Old.fields_get "property" fields)) ||
  match Old.fields_get "apiCache" fields with
  | Some (JObj cache) => existsb holds_property (map snd cache)
  | _ => false
  end.

(** A detail page whose payload is well formed and describes the
    property, and which also shows a price. *)
Definition payload_page : node :=
  Elem "[document]" []
    [ Elem "html" []
        [ Elem "body" []
            [ Elem "script" [("id", "hdpApolloPreloadedData")] [Text "{payload}"];
              Elem "span" [("data-test", "price")] [Text "$1,500"] ] ] ].

Definition payload_parser (html : string) : node := payload_page.

Definition payload_loads (text : string) : option json :=
  if String.eqb text "{payload}"
  then Some (JObj [("apiCache",
                    JObj [("q", JObj [("property", JObj [("zpid", JNum 1)])])])])
  else None.

(** The card-level keys copied into every record. *)
Definition card_level_keys : list string :=
  ["card_price"; "card_address"; "card_bedrooms"; "card_bathrooms"; "card_sqft";
   "card_home_type"].

(** [r] is a record of the card at position [i]: the card has a
    detail URL, and [r] carries the position, the URL and the
    card-level fields of the card (the empty string for a missing one). *)
Definition card_record (i : nat) (card_data r : dict) : Prop :=
  truthy (dict_get card_data "detail_url") = true ∧
  r !! "card_index" = Some (PInt (Z.of_nat i)) ∧
  r !! "detail_url" = Some (dict_get card_data "detail_url") ∧
  ∀ k, In k card_level_keys → r !! k = Some (Old.card_field card_data k).

(** [new] holds records of some of the cards, in the order of the
    cards, each with the position of its card counted from [i]. *)
Inductive records_of : nat → list dict → list dict → Prop :=
| records_done (i : nat) : records_of i [] []
| records_skip (i : nat) (card_data : dict) (rest new : list dict) :
    records_of (S i) rest new → records_of i (card_data :: rest) new
| records_keep (i : nat) (card_data r : dict) (rest new : list dict) :
    card_record i card_data r →
    records_of (S i) rest new → records_of i (card_data :: rest) (r :: new).

(** Whether a card has a detail URL. *)
Definition has_detail_url (card_data : dict) : bool :=
  truthy (dict_get card_data "detail_url").

(** Three entries of [card_data_list]: the second has no detail URL. *)
Definition sample_card_list : list dict :=
  [ sample_card_data "https://www.zillow.com/homedetails/1_zpid/" "$1,500";
    <["card_price" := PStr "$1,600"]> ∅;
    sample_card_data "https://www.zillow.com/homedetails/3_zpid/" "$1,700" ].

(** ** The search page of [scrape_zillow_old.py] *)

Definition is_click (step : flow_step) : bool :=
  match step with
  | wait_and_click _ _ _ _ _ => true
  | _ => false
  end.

Definition is_infinite_scroll (step : flow_step) : bool :=
  match step with
  | infinite_scroll _ _ _ _ => true
  | _ => false
  end.

(** The keys of an entry of [card_data]. *)
Definition entry_keys : list string := "detail_url" :: card_level_keys.

(** The entry the secondary pass makes for a link. *)
Definition link_entry (href : string) : dict := {[ "detail_url" := PStr href ]}.

(** What the primary pass keeps true of [card_info]: string values
    under the entry keys only, and a detail URL that is absolute. *)
Definition entry_shape (entry : dict) : Prop :=
  strings_under entry_keys entry ∧
  ∀ v, entry !! "detail_url" = Some v →
       ∃ href, v = PStr href ∧ PyStr.startswith href "http" = true.

(** An entry of the list [parse_search_page] returns: it is not empty,
    it has string values under the entry keys only, and its detail URL,
    if it has one, is absolute. *)
Definition search_entry (entry : dict) : Prop :=
  entry ≠ ∅ ∧ entry_shape entry.

(** The world after [parse_search_page]: the debug copy of the page
    was written; no network call was made and the CSV file is as it
    was. *)
Definition page_saved (w w' : world) : Prop :=
  calls w' = calls w ∧ csv_file w' = csv_file w ∧
  debug_files w' = debug_files w ++ ["debug_search_page_full.html"].

(** A plain formatting of a list of class names. *)
Definition plain_list_str (l : list string) : string :=
  ("[" ++ String.concat ", " l ++ "]")%string.

(** Two cards that look alike and link to different listings. *)
Definition listing_card (zpid price : string) : node :=
  Elem "article" [("data-test", "property-card"); ("class", "StyledCard")]
    [ Elem "a" [("data-test", "property-card-link");
                ("href", "/homedetails/" ++ zpid ++ "_zpid/")%string] [Text "link"];
      Elem "span" [("data-test", "property-card-price")] [Text price] ].

(** The URL the secondary pass makes of an [href]. *)
Definition absolute (href : string) : string :=
  if PyStr.startswith href "http" then href else ("https://www.zillow.com" ++ href)%string.

(** A search page with the two cards, and its parser. *)
Definition alike_page : node :=
  Elem "[document]" []
    [ Elem "html" []
        [ Elem "body" []
            [ listing_card "1" "$1,500"; listing_card "2" "$1,700" ] ] ].

Definition alike_parser (html : string) : node := alike_page.

(** ** The run of [process_individual_cards] *)

(** The keys of a record made from the JSON of the search page. *)
Definition json_record_keys : list string :=
  ["zpid"; "address"; "price"; "bedrooms"; "bathrooms"; "square_feet"; "home_type";
   "year_built"; "lot_size"; "price_per_sqft"; "days_on_zillow"; "description";
   "detail_url"].

(** A record with exactly these keys. *)
Definition json_record (r : Old.jdict) : Prop :=
  ∀ k, is_Some (r !! k) ↔ In k json_record_keys.

(** The [i]-th record of the JSON path, counted from 0: it carries
    its position counted from 1, its source and the thirteen keys. *)
Definition numbered_record (i : nat) (r : Old.jdict) : Prop :=
  r !! "card_index" = Some (JNum (Z.of_nat (i + 1))) ∧
  r !! "source" = Some (JStr "search_page_json") ∧
  ∀ k, In k json_record_keys → is_Some (r !! k).

(** [str] on the scalar JSON values, which is all the samples format. *)
Definition sample_str (j : json) : string :=
  match j with
  | JNull => "None"
  | JBool b => if b then "True" else "False"
  | JNum n => pretty n
  | JStr s => s
  | JArr _ => "[]"
  | JObj _ => "{}"
  end.

(** A search page whose script holds the results as JSON. *)
Definition json_search_page : node :=
  Elem "[document]" []
    [ Elem "html" []
        [ Elem "body" []
            [ Elem "script" [] [Text "window.__INITIAL_STATE__={property};"] ] ] ].

Definition json_search_parser (html : string) : node := json_search_page.

Definition json_search_loads (text : string) : option json :=
  if String.eqb text "{property}"
  then Some (JObj [("searchResults",
                    JObj [("listResults",
                           JArr [JObj [("zpid", JNum 7); ("price", JStr "$1,500")];
                                 JObj [("zpid", JNum 8)]])])])
  else None.

(** * Runs of the monad *)

Section Runs.

Context {A B : Type}.

Lemma bind_ok (m : M A) (f : A → M B) w a w1 :
  m w = (Ok a, w1) → (m ≫= f) w = f a w1.
Proof. intros H. unfold mbind, M_bind. now rewrite H. Qed.

Lemma bind_raise (m : M A) (f : A → M B) w e w1 :
  m w = (Raise e, w1) → (m ≫= f) w = (Raise e, w1).
Proof. intros H. unfold mbind, M_bind. now rewrite H. Qed.

Lemma try_ok (m : M A) (h : exn → M A) w a w1 :
  m w = (Ok a, w1) → try_except m h w = (Ok a, w1).
Proof. intros H. unfold try_except. now rewrite H. Qed.

Lemma try_raise (m : M A) (h : exn → M A) w e w1 :
  m w = (Raise e, w1) → try_except m h w = h e w1.
Proof. intros H. unfold try_except. now rewrite H. Qed.

End Runs.

Section Always.

Context {A B : Type}.

Lemma always_ret (a : A) (Q : A → Prop) : Q a → always (mret a) Q.
Proof. intros H w. now exists a, w. Qed.

Lemma always_bind (m : M A) (f : A → M B) (Q : A → Prop) (R : B → Prop) :
  always m Q → (∀ a, Q a → always (f a) R) → always (m ≫= f) R.
Proof.
  intros Hm Hf w. destruct (Hm w) as (a & w1 & E & Ha).
  destruct (Hf a Ha w1) as (b & w2 & E2 & Hb).
  exists b, w2. split; [|exact Hb]. now rewrite (bind_ok _ _ _ _ _ E).
Qed.

Lemma always_weaken (m : M A) (Q R : A → Prop) :
  always m Q → (∀ a, Q a → R a) → always m R.
Proof.
  intros Hm HQR w. destruct (Hm w) as (a & w1 & E & Ha). exists a, w1. auto.
Qed.

(** A [try] whose handlers always return. *)
Lemma always_try (m : M A) (h : exn → M A) (Q : A → Prop) :
  (∀ w a w', m w = (Ok a, w') → Q a) →
  (∀ e, always (h e) Q) →
  always (try_except m h) Q.
Proof.
  intros Hm Hh w. unfold try_except.
  destruct (m w) as [[a|e] w1] eqn:E.
  - exists a, w1. split; [reflexivity|]. eapply Hm, E.
  - apply Hh.
Qed.

End Always.

Lemma always_print (e : event) (Q : unit → Prop) : Q tt → always (print e) Q.
Proof. intros H w. eexists _, _. split; [reflexivity|exact H]. Qed.

Lemma always_after_print {B : Type} (e : event) (m : M B) (R : B → Prop) :
  always m R → always (print e;; m) R.
Proof.
  intros H. eapply always_bind with (Q := λ _, True).
  - now apply always_print.
  - intros _ _. exact H.
Qed.

(** * The Fetch Client *)

Section FetchClient.

Variable backend : nat → request → response.

Lemma main_attempt_error url flow w :
  transport_or_http_error (backend (calls w) (Request url flow)) = true →
  ∃ e, Main.attempt_once backend url flow w = (Raise e, called w).
Proof.
  intros H. unfold Main.attempt_once, mbind, M_bind, post. fold (called w).
  destruct (backend (calls w) (Request url flow)) as [msg|code body]; simpl in *.
  - eexists; reflexivity.
  - rewrite H. unfold raise. eexists; reflexivity.
Qed.

Lemma main_attempt_success url flow w html :
  success_reply (backend (calls w) (Request url flow)) html →
  Main.attempt_once backend url flow w = (Ok html, called w).
Proof.
  intros (code & body & E & Hc & Hs & Hh).
  unfold Main.attempt_once, mbind, M_bind, post. fold (called w).
  rewrite E. simpl. rewrite Hc. simpl.
  unfold dict_getitem. rewrite Hs. simpl.
  now rewrite Hh.
Qed.

Lemma main_attempt_backend_error url flow w :
  backend_reported_error (backend (calls w) (Request url flow)) →
  ∃ msg, Main.attempt_once backend url flow w
         = (Ok PNone, said (RequestFailed url msg) (called w)).
Proof.
  intros (code & body & st & E & Hc & Hs & Hne).
  unfold Main.attempt_once, mbind, M_bind, post. fold (called w).
  rewrite E. simpl. rewrite Hc. simpl.
  unfold dict_getitem. rewrite Hs. simpl.
  unfold py_eqb. rewrite bool_decide_eq_false_2 by exact Hne.
  eexists. reflexivity.
Qed.

(** After [k] attempts that end in a transport or HTTP error, the
    loop is where it would be had it started [k] calls later. *)
Lemma main_attempts_skip url flow retries k :
  ∀ attempt todo w,
    (∀ i, i < k → transport_or_http_error (backend (calls w + i) (Request url flow)) = true) →
    ∃ w', calls w' = calls w + k ∧
          Main.attempts_from backend url flow retries attempt (k + todo) w
          = Main.attempts_from backend url flow retries (attempt + k) todo w'.
Proof.
  induction k as [|k IH]; intros attempt todo w Hfail.
  - exists w. split; [lia|]. now rewrite Nat.add_0_r.
  - destruct (main_attempt_error url flow w) as (e & He).
    { specialize (Hfail 0). rewrite Nat.add_0_r in Hfail. apply Hfail. lia. }
    simpl. rewrite (try_raise _ _ _ _ _ He).
    set (rest := Main.attempts_from backend url flow retries (S attempt) (k + todo)).
    assert (∃ w2, calls w2 = S (calls w) ∧
              (print (AttemptFailed (attempt + 1) url e);;
               (if (attempt <? retries - 1)%nat then print (Sleep 3 5) else mret tt);;
               rest) (called w) = rest w2) as (w2 & Hc2 & E2).
    { destruct (attempt <? retries - 1)%nat; eexists; (split; [|reflexivity]); reflexivity. }
    rewrite E2. subst rest.
    destruct (IH (S attempt) todo w2) as (w' & Hc & E).
    { intros i Hi. rewrite Hc2. replace (S (calls w) + i) with (calls w + S i) by lia.
      apply Hfail. lia. }
    exists w'. split; [lia|].
    rewrite E. f_equal. lia.
Qed.

Lemma main_retry_then url flow retries k w :
  k < retries →
  (∀ i, i < k → transport_or_http_error (backend (calls w + i) (Request url flow)) = true) →
  ∃ w1, calls w1 = calls w + k ∧
    ∀ v w2, Main.attempt_once backend url flow w1 = (Ok v, w2) →
            Main.nimble_request backend url flow retries w = (Ok v, w2).
Proof.
  intros Hk Hfail. unfold Main.nimble_request.
  destruct (main_attempts_skip url flow retries k 0 (S (retries - k - 1)) w Hfail)
    as (w1 & Hc & E).
  replace (k + S (retries - k - 1)) with retries in E by lia.
  exists w1. split; [exact Hc|]. intros v w2 Hv.
  rewrite E. simpl. now rewrite (try_ok _ _ _ _ _ Hv).
Qed.

Lemma old_attempt_error url flow attempt w :
  transport_or_http_error (backend (calls w) (Request url (Some flow))) = true →
  ∃ e, Old.attempt_once backend url flow attempt w
       = (Raise e, called (said (Fetching url (attempt + 1)) w))
       ∧ is_RequestException e = true.
Proof.
  intros H. unfold Old.attempt_once, mbind, M_bind, post, print. simpl.
  destruct (backend (calls w) (Request url (Some flow))) as [msg|code body]; simpl in *.
  - eexists; split; reflexivity.
  - rewrite H. unfold raise. eexists; split; reflexivity.
Qed.

Lemma old_attempt_success url flow attempt w html :
  success_reply (backend (calls w) (Request url (Some flow))) html →
  ∃ rf, Old.attempt_once backend url flow attempt w
        = (Ok (html, rf), called (said (Fetching url (attempt + 1)) w)).
Proof.
  intros (code & body & E & Hc & Hs & Hh).
  unfold Old.attempt_once, mbind, M_bind, post, print. simpl.
  rewrite E. simpl. rewrite Hc. simpl.
  unfold dict_getitem. rewrite Hs. simpl. rewrite Hh. simpl.
  eexists. reflexivity.
Qed.

Lemma old_attempt_backend_error url flow attempt w :
  backend_reported_error (backend (calls w) (Request url (Some flow))) →
  ∃ w', calls w' = S (calls w) ∧
        Old.attempt_once backend url flow attempt w = (Ok (PNone, PNone), w').
Proof.
  intros (code & body & st & E & Hc & Hs & Hne).
  unfold Old.attempt_once, mbind, M_bind, post, print. simpl.
  rewrite E. simpl. rewrite Hc. simpl.
  unfold dict_getitem. rewrite Hs. simpl.
  unfold py_eqb. rewrite bool_decide_eq_false_2 by exact Hne.
  eexists. split; [|reflexivity]. reflexivity.
Qed.

Lemma old_attempts_skip url flow retries backoff k :
  ∀ attempt todo w,
    attempt + k < retries →
    (∀ i, i < k →
          transport_or_http_error (backend (calls w + i) (Request url (Some flow))) = true) →
    ∃ w', calls w' = calls w + k ∧
          Old.attempts_from backend url flow retries backoff attempt (k + todo) w
          = Old.attempts_from backend url flow retries backoff (attempt + k) todo w'.
Proof.
  induction k as [|k IH]; intros attempt todo w Hlt Hfail.
  - exists w. split; [lia|]. now rewrite Nat.add_0_r.
  - destruct (old_attempt_error url flow attempt w) as (e & He & Hreq).
    { specialize (Hfail 0). rewrite Nat.add_0_r in Hfail. apply Hfail. lia. }
    simpl.
    unfold try_except_only. rewrite (try_raise _ _ _ _ _ He). rewrite Hreq.
    assert ((attempt <? retries - 1)%nat = true) as Hnext by (apply Nat.ltb_lt; lia).
    rewrite Hnext.
    set (rest := Old.attempts_from backend url flow retries backoff (S attempt) (k + todo)).
    assert (∃ w2, calls w2 = S (calls w) ∧
              (print (AttemptFailed (attempt + 1) url e);;
               print (Sleep (backoff * (attempt + 1)) (backoff * (attempt + 1)));;
               rest) (called (said (Fetching url (attempt + 1)) w)) = rest w2)
      as (w2 & Hc2 & E2).
    { eexists; (split; [|reflexivity]); reflexivity. }
    rewrite E2. subst rest.
    destruct (IH (S attempt) todo w2) as (w' & Hc & E).
    { lia. }
    { intros i Hi. rewrite Hc2. replace (S (calls w) + i) with (calls w + S i) by lia.
      apply Hfail. lia. }
    exists w'. split; [lia|].
    rewrite E. f_equal. lia.
Qed.

Lemma old_retry_then url flow retries backoff k w :
  k < retries →
  (∀ i, i < k →
        transport_or_http_error
          (backend (calls w + i) (Request url (Some (Old.effective_flow flow)))) = true) →
  ∃ w1, calls w1 = calls w + k ∧
    ∀ v w2, Old.attempt_once backend url (Old.effective_flow flow) k w1 = (Ok v, w2) →
            Old.nimble_request backend url flow retries backoff w = (Ok v, w2).
Proof.
  intros Hk Hfail. unfold Old.nimble_request.
  destruct (old_attempts_skip url (Old.effective_flow flow) retries backoff k 0
              (S (retries - k - 1)) w) as (w1 & Hc & E); [lia|exact Hfail|].
  replace (k + S (retries - k - 1)) with retries in E by lia.
  exists w1. split; [exact Hc|]. intros v w2 Hv.
  rewrite E. simpl.
  unfold try_except_only. now rewrite (try_ok _ _ _ _ _ Hv).
Qed.

End FetchClient.

(** C1, as amended.  An attempt that ends in a transport error or an
    HTTP error status (4xx, 5xx) is retried, in [scrape_zillow.py] and in
    [scrape_zillow_old.py]: after [k < retries] such attempts, a success
    answer is returned after exactly [k + 1] network calls (so with
    [retries = 3] and two failures, after exactly 3 calls).  An answer
    whose status field is not "success" is not retried: it ends the call
    at once with [None]. *)
Theorem nimble_request_retries_raised_failures
    (backend : nat → request → response) (url : string)
    (flow : option (list flow_step)) (retries backoff k : nat) (w : world) :
  k < retries →
  (∀ i rq, i < k → transport_or_http_error (backend (calls w + i) rq) = true) →
  (∀ html, (∀ rq, success_reply (backend (calls w + k) rq) html) →
     (∃ w', Main.nimble_request backend url flow retries w = (Ok html, w')
            ∧ calls w' = calls w + k + 1) ∧
     (∃ rf w', Old.nimble_request backend url flow retries backoff w = (Ok (html, rf), w')
               ∧ calls w' = calls w + k + 1)) ∧
  ((∀ rq, backend_reported_error (backend (calls w + k) rq)) →
     (∃ w', Main.nimble_request backend url flow retries w = (Ok PNone, w')
            ∧ calls w' = calls w + k + 1) ∧
     (∃ w', Old.nimble_request backend url flow retries backoff w = (Ok (PNone, PNone), w')
            ∧ calls w' = calls w + k + 1)).
Proof.
  intros Hk Hfail.
  destruct (main_retry_then backend url flow retries k w Hk) as (w1 & Hc1 & Hmain).
  { intros i Hi. now apply Hfail. }
  destruct (old_retry_then backend url flow retries backoff k w Hk) as (w2 & Hc2 & Hold).
  { intros i Hi. now apply Hfail. }
  split.
  - intros html Hok. split.
    + exists (called w1). split; [|simpl; lia].
      apply Hmain, main_attempt_success. rewrite Hc1. apply Hok.
    + destruct (old_attempt_success backend url (Old.effective_flow flow) k w2 html) as (rf & E).
      { rewrite Hc2. apply Hok. }
      eexists rf, _. split; [apply Hold, E|]. simpl. lia.
  - intros Herr. split.
    + destruct (main_attempt_backend_error backend url flow w1) as (msg & E).
      { rewrite Hc1. apply Herr. }
      eexists. split; [apply Hmain, E|]. simpl. lia.
    + destruct (old_attempt_backend_error backend url (Old.effective_flow flow) k w2) as (w' & Hc & E).
      { rewrite Hc2. apply Herr. }
      exists w'. split; [apply Hold, E|]. lia.
Qed.

Lemma nimble_request_retries_raised_failures_witness :
  ∃ w', Main.nimble_request flaky_backend "https://www.zillow.com/x" None 3 world0
        = (Ok (PStr "<html></html>"), w') ∧ calls w' = 3.
Proof.
  destruct (nimble_request_retries_raised_failures flaky_backend
              "https://www.zillow.com/x" None 3 2 2 world0) as [H _].
  - lia.
  - intros i rq Hi. destruct i as [|[|i]]; [reflexivity|reflexivity|lia].
  - destruct (H (PStr "<html></html>")) as [Hmain _].
    + intros rq. exists 200%Z, (success_body "<html></html>").
      repeat split; reflexivity.
    + exact Hmain.
Defined.

(** C1 as stated fails: a backend whose first two answers carry a status
    other than "success" and whose third answer is a success.  The
    attempts claimed to be retried are not: the call ends after one
    network call, with [None]. *)
Lemma backend_reported_error_is_not_retried :
  backend_reported_error (reporting_backend 0 (Request "https://www.zillow.com/x" None)) ∧
  backend_reported_error (reporting_backend 1 (Request "https://www.zillow.com/x" None)) ∧
  success_reply (reporting_backend 2 (Request "https://www.zillow.com/x" None))
                (PStr "<html></html>") ∧
  fst (Main.nimble_request reporting_backend "https://www.zillow.com/x" None 3 world0)
    = Ok PNone ∧
  calls (snd (Main.nimble_request reporting_backend "https://www.zillow.com/x" None 3 world0))
    = 1 ∧
  fst (Old.nimble_request reporting_backend "https://www.zillow.com/x" None 3 2 world0)
    = Ok (PNone, PNone) ∧
  calls (snd (Old.nimble_request reporting_backend "https://www.zillow.com/x" None 3 2 world0))
    = 1.
Proof.
  repeat split.
  - exists 200%Z, error_body, (PStr "error"). repeat split; try reflexivity. discriminate.
  - exists 200%Z, error_body, (PStr "error"). repeat split; try reflexivity. discriminate.
  - exists 200%Z, (success_body "<html></html>"). repeat split; reflexivity.
Qed.

(** * Cards: [extract_property_details] *)


Lemma address_loop_spec (card : node) (selectors : list selector) :
  always (Main.address_loop card selectors)
         (λ a, a = match first_match card selectors with
                   | Some e => PyStr.strip (Soup.text e)
                   | None => "Unknown"
                   end).
Proof.
  induction selectors as [|s rest IH]; simpl.
  - now apply always_ret.
  - destruct (Soup.select_one s card) as [e|]; [|exact IH].
    apply always_after_print. now apply always_ret.
Qed.

Section Cards.

Variable re_search : string → string → option re_match.

(** On a well-linked card the function returns the card's summary. *)
Lemma extract_property_details_ok (card : node) :
  well_linked card = true →
  always (Main.extract_property_details re_search card)
         (λ d, d = summary_of re_search card).
Proof.
  intros Hwl. unfold Main.extract_property_details.
  unfold well_linked, link_of in Hwl.
  eapply always_bind with (Q := λ u, u = card_url card).
  { unfold card_url, link_of.
    destruct (Soup.find "a" [("data-test", "property-card-link")] card) as [l|];
      [|simpl; now apply always_ret].
    unfold tag_getitem.
    destruct (Soup.attr l "href") as [h|]; [|discriminate].
    destruct (PyStr.startswith h "http"); simpl;
      (eapply always_bind with (Q := λ x, x = h); [now apply always_ret|]);
      intros ? ->; now apply always_ret. }
  intros u ->.
  eapply always_bind; [apply address_loop_spec|].
  intros a Ha. cbv beta in Ha. fold (selected_address card) in Ha. subst a.
  eapply always_bind with (Q := λ a, a = card_address re_search card).
  { unfold card_address.
    destruct (String.eqb (selected_address card) "Unknown"); [|now apply always_ret].
    destruct (re_search _ _) as [m|]; [|now apply always_ret].
    apply always_after_print. now apply always_ret. }
  intros a ->. now apply always_ret.
Qed.

(** On any other card it raises: the anchor is there and its [href]
    is read although it is missing. *)
Lemma extract_property_details_raises (card : node) (w : world) :
  well_linked card = false →
  Main.extract_property_details re_search card w = (Raise (KeyError "href"), w).
Proof.
  intros Hwl. unfold Main.extract_property_details.
  unfold well_linked, link_of in Hwl.
  destruct (Soup.find "a" [("data-test", "property-card-link")] card) as [l|];
    [|discriminate].
  unfold tag_getitem.
  destruct (Soup.attr l "href") as [h|].
  - rewrite bool_decide_eq_true_2 in Hwl by eauto. discriminate.
  - reflexivity.
Qed.

End Cards.

(** C10: the failing input.  A property card whose
    [property-card-link] anchor has no [href]: the guard
    ['href' in link.attrs] protects only the first branch of the
    conditional expression, the second branch reads [link['href']] and
    raises [KeyError]; no record is returned. *)
Theorem extract_property_details_link_without_href :
  Main.extract_property_details no_match card_without_href world0
  = (Raise (KeyError "href"), world0).
Proof. vm_compute. reflexivity. Qed.

(** * Detail pages: [extract_apartment_details] *)

Section Grows.

Variable K : list string.

Lemma grows_insert (d : dict) (k s : string) :
  In k K → grows K d (<[k := PStr s]> d).
Proof. intros H. apply grows_step; [exact H|apply grows_refl]. Qed.

Lemma grows_trans (d1 d2 d3 : dict) :
  grows K d1 d2 → grows K d2 d3 → grows K d1 d3.
Proof.
  intros H12 H23. induction H23 as [|d2 d3 k s Hk H23 IH].
  - exact H12.
  - apply grows_step; [exact Hk|]. now apply IH.
Qed.

Lemma grows_lookup_ne (d d' : dict) (k : string) :
  grows K d d' → ¬ In k K → d' !! k = d !! k.
Proof.
  intros H Hk. induction H as [|d d' k' s Hk' H IH].
  - reflexivity.
  - rewrite lookup_insert_ne; [exact IH|]. intros ->. contradiction.
Qed.

Lemma grows_has_str (d d' : dict) (k : string) :
  grows K d d' → has_str d k → has_str d' k.
Proof.
  intros H Hs. induction H as [|d d' k' s Hk' H IH].
  - exact Hs.
  - destruct (decide (k' = k)) as [->|Hne].
    + exists s. apply lookup_insert_eq.
    + destruct (IH Hs) as (s' & E). exists s'. now rewrite lookup_insert_ne.
Qed.

Lemma grows_keys (d d' : dict) (k : string) :
  grows K d d' → is_Some (d' !! k) → is_Some (d !! k) ∨ In k K.
Proof.
  intros H Hs. induction H as [|d d' k' s Hk' H IH].
  - now left.
  - destruct (decide (k' = k)) as [->|Hne].
    + now right.
    + rewrite lookup_insert_ne in Hs by exact Hne. now apply IH.
Qed.

Lemma grows_fold {X : Type} (f : dict → X → dict) (l : list X) :
  (∀ d x, grows K d (f d x)) → ∀ d, grows K d (fold_left f l d).
Proof.
  intros Hf. induction l as [|x l IH]; intros d; simpl.
  - apply grows_refl.
  - eapply grows_trans; [apply Hf|apply IH].
Qed.

End Grows.

Lemma grows_weaken (K K' : list string) (d d' : dict) :
  incl K K' → grows K d d' → grows K' d d'.
Proof.
  intros Hi H. induction H as [|d d' k s Hk H IH].
  - apply grows_refl.
  - apply grows_step; [now apply Hi|exact IH].
Qed.

Lemma price_loop_grows (soup : node) (selectors : list selector) (d : dict) :
  grows ["price"] d (Main.price_loop soup selectors d).
Proof.
  induction selectors as [|s rest IH]; simpl.
  - apply grows_refl.
  - destruct (Soup.select_one s soup); [|exact IH].
    apply grows_insert. now left.
Qed.

Lemma price_loop_lookup (soup : node) (selectors : list selector) (d : dict) :
  Main.price_loop soup selectors d !! "price" =
  match first_match soup selectors with
  | Some e => Some (PStr (PyStr.strip (Soup.text e)))
  | None => d !! "price"
  end.
Proof.
  induction selectors as [|s rest IH]; simpl.
  - reflexivity.
  - destruct (Soup.select_one s soup); [|exact IH].
    apply lookup_insert_eq.
Qed.

Section DetailPage.

Variable re_search : string → string → option re_match.
Variable urlparse_path : string → string.

Lemma bed_bath_sqft_grows (text : string) (d : dict) :
  grows ["bedrooms"; "bathrooms"; "sqft"] d (Main.bed_bath_sqft re_search text d).
Proof.
  unfold Main.bed_bath_sqft.
  destruct (re_search Main.bed_pattern text),
           (re_search Main.bath_pattern text),
           (re_search Main.sqft_pattern text);
    repeat (apply grows_step; [simpl; tauto|]); apply grows_refl.
Qed.

Lemma classify_fact_grows (item : node) (d : dict) :
  grows Main.amenity_keys d (Main.classify_fact item d).
Proof.
  unfold Main.classify_fact.
  repeat (match goal with
          | |- context [if ?b then _ else _] => destruct b
          end;
          [apply grows_insert; simpl; tauto|]).
  apply grows_refl.
Qed.

Lemma facts_loop_grows (soup : node) (selectors : list selector) (d : dict) :
  grows Main.amenity_keys d (Main.facts_loop soup selectors d).
Proof.
  revert d. induction selectors as [|s rest IH]; intros d; simpl.
  - apply grows_refl.
  - match goal with
    | |- context [if ?b then _ else _] => destruct b
    end.
    + apply grows_fold. intros d' fg. apply grows_fold. intros d'' item.
      apply classify_fact_grows.
    + eapply grows_trans; [|apply IH].
      apply grows_fold. intros d' fg. apply grows_fold. intros d'' item.
      apply classify_fact_grows.
Qed.

(** A parsed detail page gives the ten detail keys, each with a
    string, and its price is the one the price selectors resolve to. *)
Lemma parse_apartment_details_ok (url : string) (soup : node) :
  always (Main.parse_apartment_details re_search urlparse_path url soup)
         (λ d, detail_shape d ∧ d !! "price" = Some (PStr (selected_price soup))).
Proof.
  unfold Main.parse_apartment_details.
  set (d1 := Main.price_loop soup Main.price_selectors (<["price" := PStr "Unknown"]> ∅)).
  set (others := ["bedrooms"; "bathrooms"; "sqft"; "address";
                  "pets_allowed"; "laundry"; "parking"; "cooling"; "heating"]).
  match goal with
  | |- always (?m ≫= ?f) _ =>
      assert (always m (λ d, grows others d1 d ∧
                             ∀ k, In k ["bedrooms"; "bathrooms"; "sqft"; "address"] →
                                  has_str d k)) as Hmid
  end.
  { set (d2 := <["sqft" := PStr "Unknown"]>
                 (<["bathrooms" := PStr "Unknown"]> (<["bedrooms" := PStr "Unknown"]> d1))).
    assert (grows others d1 d2) as G2.
    { subst d2. repeat (apply grows_step; [simpl; tauto|]). apply grows_refl. }
    assert (∀ k, In k ["bedrooms"; "bathrooms"; "sqft"] → has_str d2 k) as S2.
    { intros k Hk. subst d2. simpl in Hk.
      destruct Hk as [<-|[<-|[<-|[]]]]; eexists;
        repeat (first [apply lookup_insert_eq | rewrite lookup_insert_ne by discriminate]). }
    match goal with
    | |- context [<["address" := PStr "Unknown"]> ?d] => set (d4 := d)
    end.
    assert (grows ["bedrooms"; "bathrooms"; "sqft"] d2 d4) as G4.
    { subst d4.
      match goal with
      | |- grows _ _ (if ?b then _ else _) => destruct b
      end.
      - eapply grows_trans; [|apply bed_bath_sqft_grows].
        destruct (Soup.select_one _ soup); [apply bed_bath_sqft_grows|apply grows_refl].
      - destruct (Soup.select_one _ soup); [apply bed_bath_sqft_grows|apply grows_refl]. }
    clearbody d4.
    assert (grows others d1 (<["address" := PStr "Unknown"]> d4)) as G5.
    { apply grows_step; [simpl; tauto|].
      eapply grows_trans; [exact G2|].
      eapply grows_weaken; [|exact G4]. intros k Hk. simpl in *. tauto. }
    assert (∀ k, In k ["bedrooms"; "bathrooms"; "sqft"; "address"] →
                 has_str (<["address" := PStr "Unknown"]> d4) k) as S5.
    { intros k [<-|[<-|[<-|[<-|[]]]]];
        try (eapply grows_has_str; [apply grows_insert with (K := ["address"]); now left|];
             eapply grows_has_str; [exact G4|]; apply S2; simpl; tauto).
      eexists. apply lookup_insert_eq. }
    set (d5 := <["address" := PStr "Unknown"]> d4) in *. clearbody d5.
    assert (∀ a, always (mret (<["address" := PStr a]> d5) : M dict)
                   (λ d, grows others d1 d ∧
                         ∀ k, In k ["bedrooms"; "bathrooms"; "sqft"; "address"] →
                              has_str d k)) as Hset.
    { intros a. apply always_ret. split.
      - apply grows_step; [simpl; tauto|exact G5].
      - intros k Hk. eapply grows_has_str; [|apply S5, Hk].
        apply grows_insert with (K := ["address"]). now left. }
    match goal with
    | |- always (match ?x with _ => _ end) _ => destruct x
    end.
    - apply always_after_print, Hset.
    - destruct (re_search Main.path_pattern (urlparse_path url)).
      + apply always_after_print, Hset.
      + apply always_ret. split; [exact G5|exact S5]. }
  eapply always_bind; [exact Hmid|].
  intros d (G & S). apply always_ret.
  match goal with
  | |- context [Main.facts_loop soup _ ?d] => set (d6 := d)
  end.
  assert (grows others d d6) as G6.
  { subst d6. repeat (apply grows_step; [simpl; tauto|]). apply grows_refl. }
  assert (grows others d1 (Main.facts_loop soup Main.facts_selectors d6)) as GF.
  { eapply grows_trans; [exact G|]. eapply grows_trans; [exact G6|].
    eapply grows_weaken; [|apply facts_loop_grows].
    intros k Hk. simpl in *. tauto. }
  assert (has_str d1 "price") as Hp1.
  { eapply grows_has_str; [apply price_loop_grows|]. eexists. apply lookup_insert_eq. }
  split; [split|].
  - intros k Hk.
    assert (k = "price" ∨ In k ["bedrooms"; "bathrooms"; "sqft"; "address"] ∨
            In k Main.amenity_keys) as [->|[Hk'|Hk']]
      by (unfold detail_keys, Main.amenity_keys in *; simpl in *; intuition auto).
    + eapply grows_has_str; [exact GF|exact Hp1].
    + eapply grows_has_str; [apply facts_loop_grows|].
      eapply grows_has_str; [exact G6|]. now apply S.
    + eapply grows_has_str; [apply facts_loop_grows|].
      subst d6. simpl in Hk'.
      destruct Hk' as [<-|[<-|[<-|[<-|[<-|[]]]]]]; eexists;
        repeat (first [apply lookup_insert_eq | rewrite lookup_insert_ne by discriminate]).
  - intros k Hk.
    destruct (grows_keys _ _ _ _ GF Hk) as [Hk1|Hk1]; [|subst others; unfold detail_keys; simpl in *; tauto].
    destruct (grows_keys _ _ _ _ (price_loop_grows soup Main.price_selectors _) Hk1)
      as [Hk0|Hk0]; [|simpl in *; tauto].
    destruct (decide (k = "price")) as [->|Hne]; [simpl; tauto|].
    rewrite lookup_insert_ne in Hk0 by congruence.
    rewrite lookup_empty in Hk0. now destruct Hk0.
  - rewrite (grows_lookup_ne _ _ _ _ GF) by (subst others; simpl; intuition discriminate).
    subst d1. rewrite price_loop_lookup. unfold selected_price.
    destruct (first_match soup Main.price_selectors); [reflexivity|].
    apply lookup_insert_eq.
Qed.

End DetailPage.

(** * The per-card loop of [scrape_zillow_rentals] *)

Lemma always_try_body {A : Type} (m : M A) (h : exn → M A) (Q : A → Prop) :
  always m Q → always (try_except m h) Q.
Proof.
  intros Hm w. destruct (Hm w) as (a & w' & E & Ha).
  exists a, w'. split; [now apply try_ok|exact Ha].
Qed.

Lemma merge_details_ok (details ad : dict) (ca da : pyval) :
  details !! "address" = Some ca →
  ad !! "address" = Some da →
  always (Main.merge_details details ad)
         (λ m, m = dict_update (<["address" := merged_address ca da]> details)
                               (delete "address" ad)).
Proof.
  intros Hc Hd. unfold Main.merge_details, dict_getitem. rewrite Hc.
  eapply always_bind with (Q := λ x, x = ca); [now apply always_ret|].
  intros ? ->. unfold dict_get, merged_address. rewrite Hd.
  eapply always_bind with (Q := λ x, x = <["address" :=
      if py_eqb ca (PStr "Unknown") && negb (py_eqb da (PStr "Unknown")) then da else ca]>
                                         details).
  - destruct (py_eqb ca (PStr "Unknown") && negb (py_eqb da (PStr "Unknown"))).
    + eapply always_bind with (Q := λ x, x = da); [now apply always_ret|].
      intros ? ->. now apply always_ret.
    + apply always_ret. symmetry. now apply insert_id.
  - intros ? ->. now apply always_ret.
Qed.

Section Loop.

Variable backend : nat → request → response.
Variable BeautifulSoup : string → node.
Variable re_search : string → string → option re_match.
Variable urlparse_path : string → string.

(** The Fetch Client never raises. *)
Lemma attempts_from_total url flow retries attempt todo :
  always (Main.attempts_from backend url flow retries attempt todo) (λ _, True).
Proof.
  revert attempt. induction todo as [|todo IH]; intros attempt; simpl.
  - apply always_after_print. now apply always_ret.
  - apply always_try; [auto|].
    intros e. apply always_after_print.
    eapply always_bind with (Q := λ _, True).
    + destruct (attempt <? retries - 1)%nat; [now apply always_print|now apply always_ret].
    + intros _ _. apply IH.
Qed.

Lemma nimble_request_total url flow retries :
  always (Main.nimble_request backend url flow retries) (λ _, True).
Proof. apply attempts_from_total. Qed.

Lemma extract_apartment_details_ok (url : string) :
  always (Main.extract_apartment_details backend BeautifulSoup re_search urlparse_path url)
         detail_answer.
Proof.
  unfold Main.extract_apartment_details.
  eapply always_bind; [apply nimble_request_total|].
  intros html _. destruct (negb (truthy html)).
  - apply always_after_print. now apply always_ret.
  - eapply always_bind; [apply parse_apartment_details_ok|].
    intros d (Hd & _). now apply always_ret.
Qed.

Lemma summary_address (card : node) :
  summary_of re_search card !! "address" = Some (PStr (card_address re_search card)).
Proof. reflexivity. Qed.

Lemma summary_url (card : node) :
  summary_of re_search card !! "url" = Some (card_url card).
Proof. reflexivity. Qed.

(** The [try] block of the loop body, for any answer of
    [extract_apartment_details] that satisfies [Q]. *)
Lemma process_card_with (Q : option dict → Prop) (card : node) :
  well_linked card = true →
  (∀ url, always (Main.extract_apartment_details backend BeautifulSoup
                    re_search urlparse_path url)
                 (λ ad, Q ad ∧ detail_answer ad)) →
  always (Main.process_card backend BeautifulSoup re_search urlparse_path card)
         (λ r, if truthy (card_url card)
               then ∃ ad, Q ad ∧ detail_answer ad ∧
                          r = Some (record_of (summary_of re_search card) ad)
               else r = None).
Proof.
  intros Hwl Hfetch. unfold Main.process_card.
  eapply always_bind; [apply extract_property_details_ok, Hwl|].
  intros details ->. unfold dict_getitem. rewrite summary_url.
  eapply always_bind with (Q := λ u, u = card_url card); [now apply always_ret|].
  intros ? ->. destruct (truthy (card_url card)); [|now apply always_ret].
  apply always_after_print.
  eapply always_bind with
    (Q := λ rec, ∃ ad, Q ad ∧ detail_answer ad ∧
                       rec = record_of (summary_of re_search card) ad).
  - apply always_try_body.
    eapply always_bind; [apply Hfetch|].
    intros ad (HQ & Hshape). unfold record_of.
    destruct (Main.fetched ad) as [d|] eqn:Hf.
    + assert (ad = Some d) as ->.
      { destruct ad as [d'|]; [|discriminate]. simpl in Hf.
        destruct (bool_decide (d' = ∅)); congruence. }
      pose proof Hshape as (Hkeys & _).
      destruct (Hkeys "address") as (da & Hda); [unfold detail_keys; simpl; tauto|].
      eapply always_weaken;
        [apply (merge_details_ok _ _ _ _ (summary_address card) Hda)|].
      intros m ->. exists (Some d). split; [exact HQ|]. split; [exact Hshape|].
      rewrite Hf. unfold dict_get. rewrite (summary_address card), Hda. reflexivity.
    + apply always_ret. exists ad. rewrite Hf. auto.
  - intros rec (ad & HQ & Hs & ->). apply always_after_print.
    apply always_ret. exists ad. auto.
Qed.

Lemma process_cards_with (Q : option dict → Prop) (cards : list node) :
  forallb well_linked cards = true →
  (∀ url, always (Main.extract_apartment_details backend BeautifulSoup
                    re_search urlparse_path url)
                 (λ ad, Q ad ∧ detail_answer ad)) →
  ∀ all_properties,
    always (Main.process_cards backend BeautifulSoup re_search urlparse_path
              cards all_properties)
           (λ records, ∃ new, records = all_properties ++ new ∧
              Forall2 (λ card rec, ∃ ad, Q ad ∧ detail_answer ad ∧
                                         rec = record_of (summary_of re_search card) ad)
                      (linked cards) new).
Proof.
  intros Hwl Hfetch. induction cards as [|card rest IH]; intros acc; simpl.
  - apply always_ret. exists []. split; [now rewrite app_nil_r|constructor].
  - simpl in Hwl. apply andb_prop in Hwl as (Hc & Hrest).
    eapply always_bind; [apply (process_card_with Q card Hc Hfetch)|].
    intros r Hr. unfold linked. simpl. fold (linked rest).
    destruct (truthy (card_url card)).
    + destruct Hr as (ad & HQ & Hs & ->).
      eapply always_weaken; [apply (IH Hrest)|].
      intros records (new & -> & HF).
      exists (record_of (summary_of re_search card) ad :: new).
      split; [now rewrite <- app_assoc|].
      constructor; [|exact HF]. eauto.
    + subst r. apply (IH Hrest).
Qed.

(** A run of the loop that returns went through well-linked cards only. *)
Lemma process_cards_returns (cards : list node) :
  ∀ all_properties w records w',
    Main.process_cards backend BeautifulSoup re_search urlparse_path
      cards all_properties w = (Ok records, w') →
    forallb well_linked cards = true.
Proof.
  induction cards as [|card rest IH]; intros acc w records w' E; [reflexivity|].
  simpl in *. destruct (well_linked card) eqn:Hwl.
  - simpl. unfold mbind, M_bind in E.
    destruct (Main.process_card _ _ _ _ card w) as [[r|e] w1]; [|discriminate].
    eapply IH, E.
  - exfalso.
    assert (Main.process_card backend BeautifulSoup re_search urlparse_path card w
            = (Raise (KeyError "href"), w)) as Hraise.
    { unfold Main.process_card. apply bind_raise.
      now apply extract_property_details_raises. }
    rewrite (bind_raise _ _ _ _ _ Hraise) in E. discriminate.
Qed.

End Loop.

(** * Records *)

Lemma merged_address_str (ca da : string) :
  ∃ s, merged_address (PStr ca) (PStr da) = PStr s.
Proof. unfold merged_address. destruct (_ && _); eauto. Qed.

Lemma fetched_shape (d : dict) : detail_shape d → Main.fetched (Some d) = Some d.
Proof.
  intros (Hk & _). simpl. rewrite bool_decide_eq_false_2; [reflexivity|].
  intros ->. destruct (Hk "price") as (s & E); [unfold detail_keys; simpl; tauto|].
  rewrite lookup_empty in E. discriminate.
Qed.

Section Records.

Variable re_search : string → string → option re_match.
Variable card : node.
Variable d : dict.
Hypothesis shape : detail_shape d.

Let s := summary_of re_search card.
Let r := record_of s (Some d).

Lemma record_fetched :
  r = dict_update
        (<["address" := merged_address (PStr (card_address re_search card))
                                       (dict_get d "address")]> s)
        (delete "address" d).
Proof. subst r. unfold record_of. now rewrite (fetched_shape d shape). Qed.


Lemma record_summary_key (k : string) :
  k = "zpid" ∨ k = "url" → r !! k = s !! k.
Proof.
  intros Hk. rewrite record_fetched. unfold dict_update.
  destruct shape as (_ & Honly).
  rewrite lookup_union_r.
  - rewrite lookup_insert_ne by (destruct Hk; subst; discriminate). reflexivity.
  - rewrite lookup_delete_ne by (destruct Hk; subst; discriminate).
    destruct (d !! k) eqn:E; [|reflexivity].
    exfalso. assert (In k detail_keys) as Hin by (apply Honly; eauto).
    unfold detail_keys in Hin. simpl in Hin. destruct Hk; subst; intuition discriminate.
Qed.

Lemma record_address :
  r !! "address" = Some (merged_address (PStr (card_address re_search card))
                                        (dict_get d "address")).
Proof.
  rewrite record_fetched. unfold dict_update.
  rewrite lookup_union_r by apply lookup_delete_eq.
  apply lookup_insert_eq.
Qed.

Lemma record_address_str : has_str r "address".
Proof.
  destruct shape as (Hkeys & _).
  destruct (Hkeys "address") as (da & Hda); [unfold detail_keys; simpl; tauto|].
  unfold has_str. rewrite record_address. unfold dict_get. rewrite Hda.
  destruct (merged_address_str (card_address re_search card) da) as (x & ->). eauto.
Qed.

End Records.


Lemma truthy_url (card : node) :
  truthy (card_url card) = true → ∃ u, card_url card = PStr u ∧ u ≠ "".
Proof.
  unfold card_url. destruct (link_of card) as [l|]; [|discriminate].
  destruct (Soup.attr l "href") as [h|]; [|discriminate].
  simpl. intros H. eexists. split; [reflexivity|].
  intros E. rewrite E in H. discriminate.
Qed.

(** The three summary columns of the record of any card. *)
Lemma record_summary_columns re_search card ad :
  detail_answer ad →
  let r := record_of (summary_of re_search card) ad in
  r !! "zpid" = Some (PStr (card_zpid card)) ∧
  r !! "url" = Some (card_url card) ∧
  has_str r "address".
Proof.
  intros Hs. destruct ad as [d|]; simpl in Hs.
  - cbv zeta. rewrite !(record_summary_key re_search card d Hs) by tauto.
    split; [reflexivity|]. split; [reflexivity|].
    now apply record_address_str.
  - cbv zeta. unfold record_of. simpl.
    split; [reflexivity|]. split; [reflexivity|]. eexists. reflexivity.
Qed.

(** * The claims about [scrape_zillow_rentals] *)

(** What [merge_details] returns when both records have an address. *)
Lemma merge_details_run
    (details apartment_details : dict) (card_address detail_address : pyval) (w : world) :
  details !! "address" = Some card_address →
  apartment_details !! "address" = Some detail_address →
  Main.merge_details details apartment_details w
  = (Ok (dict_update (<["address" := merged_address card_address detail_address]> details)
                     (delete "address" apartment_details)), w).
Proof.
  intros Hc Hd.
  unfold Main.merge_details, dict_getitem, mbind, M_bind, mret, M_ret.
  rewrite Hc. unfold dict_get, merged_address. rewrite Hd.
  destruct (py_eqb card_address (PStr "Unknown") &&
            negb (py_eqb detail_address (PStr "Unknown"))).
  - reflexivity.
  - now rewrite insert_id.
Qed.

Lemma merged_lookup_address (details apartment_details : dict) (a : pyval) :
  dict_update (<["address" := a]> details) (delete "address" apartment_details) !! "address"
  = Some a.
Proof.
  unfold dict_update. rewrite lookup_union_r by apply lookup_delete_eq.
  apply lookup_insert_eq.
Qed.

(** C2, as amended.  When a detail page was fetched, the merged record
    takes the detail-page value for every field other than the address
    (so a detail price ["$1,200/mo"] is the merged price).  For the
    address the card's value is kept whenever it is not ['Unknown']; the
    detail page's address is taken only when the card's is ['Unknown']
    and the detail page's is not. *)
Theorem merge_takes_detail_fields_and_keeps_card_address
    (details apartment_details : dict) (card_address detail_address : pyval) (w : world) :
  details !! "address" = Some card_address →
  apartment_details !! "address" = Some detail_address →
  ∃ merged,
    Main.merge_details details apartment_details w = (Ok merged, w) ∧
    (∀ k v, k ≠ "address" → apartment_details !! k = Some v → merged !! k = Some v) ∧
    merged !! "address" =
      Some (if py_eqb card_address (PStr "Unknown") &&
               negb (py_eqb detail_address (PStr "Unknown"))
            then detail_address else card_address).
Proof.
  intros Hc Hd. eexists. split; [apply (merge_details_run _ _ _ _ _ Hc Hd)|]. split.
  - intros k v Hk Hv. unfold dict_update.
    apply lookup_union_Some_l. now rewrite lookup_delete_ne by congruence.
  - apply merged_lookup_address.
Qed.

Lemma merge_takes_detail_fields_and_keeps_card_address_witness :
  ∃ merged,
    Main.merge_details sample_summary sample_detail world0 = (Ok merged, world0) ∧
    merged !! "price" = Some (PStr "$1,200/mo") ∧
    merged !! "address" = Some (PStr "123 Main St").
Proof.
  destruct (merge_takes_detail_fields_and_keeps_card_address
              sample_summary sample_detail (PStr "123 Main St") (PStr "456 Oak Ave") world0)
    as (merged & E & Hfields & Haddr); [reflexivity|reflexivity|].
  exists merged. split; [exact E|]. split.
  - apply Hfields; [discriminate|reflexivity].
  - exact Haddr.
Defined.

(** C2 as stated fails on the address: the card says "123 Main St", the
    fetched detail page says "456 Oak Ave", both known, and the record
    written keeps the card's address. *)
Lemma known_detail_address_does_not_win :
  fst (Main.extract_property_details no_match
         (sample_card "zpid_1" "/homedetails/123-Main-St/1_zpid/" "123 Main St") world0)
    = Ok sample_summary ∧
  fst (Main.parse_apartment_details no_match sample_path
         "https://www.zillow.com/homedetails/123-Main-St/1_zpid/" sample_detail_page world0)
    = Ok sample_detail ∧
  sample_detail !! "address" = Some (PStr "456 Oak Ave") ∧
  ∃ merged,
    fst (Main.merge_details sample_summary sample_detail world0) = Ok merged ∧
    merged !! "address" = Some (PStr "123 Main St").
Proof.
  split; [vm_compute; reflexivity|].
  split; [vm_compute; reflexivity|].
  split; [reflexivity|].
  eexists. split; [reflexivity|]. vm_compute. reflexivity.
Qed.

Section Aggregator.

Variable backend : nat → request → response.
Variable BeautifulSoup : string → node.
Variable re_search : string → string → option re_match.
Variable urlparse_path : string → string.

Lemma extract_apartment_details_answered (url : string) :
  always (Main.extract_apartment_details backend BeautifulSoup re_search urlparse_path url)
         (λ ad, answered backend BeautifulSoup re_search urlparse_path ad ∧ detail_answer ad).
Proof.
  intros w.
  destruct (extract_apartment_details_ok backend BeautifulSoup re_search urlparse_path url w)
    as (ad & w' & E & Hs).
  exists ad, w'. split; [exact E|]. split; [|exact Hs]. now exists url, w, w'.
Qed.

(** The loop over well-linked cards: one record per card with a
    detail URL, in the order of the cards, each the merge of the
    card's summary with what its detail fetch answered. *)
Lemma process_cards_ok (cards : list node) (w : world) :
  forallb well_linked cards = true →
  ∃ records w',
    Main.process_cards backend BeautifulSoup re_search urlparse_path cards [] w
    = (Ok records, w') ∧
    Forall2 (λ card rec, ∃ ad, answered backend BeautifulSoup re_search urlparse_path ad ∧
                               detail_answer ad ∧
                               rec = record_of (summary_of re_search card) ad)
            (linked cards) records.
Proof.
  intros Hwl.
  destruct (process_cards_with backend BeautifulSoup re_search urlparse_path
              (answered backend BeautifulSoup re_search urlparse_path) cards Hwl
              extract_apartment_details_answered [] w)
    as (records & w' & E & new & -> & HF).
  exists new, w'. split; [exact E|exact HF].
Qed.

End Aggregator.

(** C3, as amended.  The aggregator of [scrape_zillow.py] does not
    de-duplicate: it emits one record per card that has a detail URL, in
    the order of the cards, so two cards with the same detail URL give
    two records with that URL. *)
Theorem one_record_per_linked_card
    (backend : nat → request → response) (BeautifulSoup : string → node)
    (re_search : string → string → option re_match) (urlparse_path : string → string)
    (cards : list node) (w : world) :
  forallb well_linked cards = true →
  ∃ records w',
    Main.process_cards backend BeautifulSoup re_search urlparse_path cards [] w
    = (Ok records, w') ∧
    map (λ r : dict, r !! "url") records
    = map (λ card, Some (card_url card)) (linked cards).
Proof.
  intros Hwl.
  destruct (process_cards_ok backend BeautifulSoup re_search urlparse_path cards w Hwl)
    as (records & w' & E & HF).
  exists records, w'. split; [exact E|]. clear E.
  induction HF as [|card rec cs rs (ad & _ & Hs & ->) HF IH]; [reflexivity|].
  simpl. rewrite IH. f_equal.
  now destruct (record_summary_columns re_search card ad Hs) as (_ & -> & _).
Qed.

Lemma one_record_per_linked_card_witness :
  ∃ records w',
    Main.process_cards healthy_backend sample_parser no_match sample_path
      (Soup.select (Sel (Some "article") [AttrIs "data-test" "property-card"])
                   sample_search_page) [] (called world0)
    = (Ok records, w') ∧
    map (λ r : dict, r !! "url") records
    = [ Some (PStr "https://www.zillow.com/homedetails/123-Main-St/1_zpid/");
        Some (PStr "https://www.zillow.com/homedetails/123-Main-St/1_zpid/") ].
Proof.
  apply (one_record_per_linked_card healthy_backend sample_parser no_match sample_path
           (Soup.select (Sel (Some "article") [AttrIs "data-test" "property-card"])
                        sample_search_page) (called world0)).
  reflexivity.
Defined.

(** C3 as stated fails: the sample search page has two cards with the
    same detail URL, and the file written has two rows for that URL. *)
Lemma same_detail_url_gives_two_rows :
  csv_file (snd (Main.scrape_zillow_rentals healthy_backend sample_parser
                   no_match sample_path world0))
  = Some
      [ Main.csv_columns;
        [ "1"; "123 Main St"; "https://www.zillow.com/homedetails/123-Main-St/1_zpid/";
          "$1,200/mo"; "Unknown"; "Unknown"; "Unknown"; "cats ok"; "None";
          "garage parking"; "None"; "None" ];
        [ "1"; "123 Main St"; "https://www.zillow.com/homedetails/123-Main-St/1_zpid/";
          "$1,200/mo"; "Unknown"; "Unknown"; "Unknown"; "cats ok"; "None";
          "garage parking"; "None"; "None" ] ].
Proof. vm_compute. reflexivity. Qed.




(** C6.  An ['Unknown'] detail value never overwrites a known value of
    the card: for the record [details] of a card and the detail record
    [apartment_details] of a fetched page, every key the card knows
    keeps its value in the merged record when the detail page resolved
    it to ['Unknown']; in particular a known card address survives an
    ['Unknown'] detail address. *)
Theorem unknown_detail_never_overwrites_known_summary
    (re_search : string → string → option re_match) (urlparse_path : string → string)
    (card soup : node) (url : string) (details apartment_details : dict)
    (w0 w1 w2 w3 w : world) :
  Main.extract_property_details re_search card w0 = (Ok details, w1) →
  Main.parse_apartment_details re_search urlparse_path url soup w2
    = (Ok apartment_details, w3) →
  ∃ merged,
    Main.merge_details details apartment_details w = (Ok merged, w) ∧
    ∀ k v, details !! k = Some v → v ≠ PStr "Unknown" →
           apartment_details !! k = Some (PStr "Unknown") →
           merged !! k = Some v.
Proof.
  intros Hcard Hpage.
  assert (well_linked card = true) as Hwl.
  { destruct (well_linked card) eqn:Hwl; [reflexivity|].
    rewrite extract_property_details_raises in Hcard by exact Hwl. discriminate. }
  destruct (extract_property_details_ok re_search card Hwl w0) as (x & w1' & E1 & ->).
  rewrite E1 in Hcard. injection Hcard as <- <-.
  destruct (parse_apartment_details_ok re_search urlparse_path url soup w2)
    as (d & w3' & E2 & Hshape & _).
  rewrite E2 in Hpage. injection Hpage as <- <-.
  destruct Hshape as (Hkeys & Honly).
  destruct (Hkeys "address") as (da & Hda); [unfold detail_keys; simpl; tauto|].
  eexists. split.
  { apply (merge_details_run (summary_of re_search card) d
             (PStr (card_address re_search card)) (PStr da) w); [reflexivity|exact Hda]. }
  pose proof (merged_lookup_address (summary_of re_search card) d
                (merged_address (PStr (card_address re_search card)) (PStr da))) as Haddr.
  unfold merged_address in Haddr at 2.
  intros k v Hk Hv Hu.
  assert (In k detail_keys) as Hin by (apply Honly; eauto).
  destruct (decide (k = "address")) as [->|Hne].
  - rewrite Haddr. rewrite Hda in Hu. injection Hu as ->.
    change (summary_of re_search card !! "address")
      with (Some (PStr (card_address re_search card))) in Hk.
    rewrite andb_false_r. exact Hk.
  - exfalso. unfold summary_of in Hk. unfold detail_keys in Hin. simpl in Hin.
    destruct (decide (k = "zpid")) as [->|Hz]; [intuition discriminate|].
    destruct (decide (k = "url")) as [->|Hurl]; [intuition discriminate|].
    rewrite !lookup_insert_ne in Hk by congruence.
    rewrite lookup_empty in Hk. discriminate.
Qed.

Lemma unknown_detail_never_overwrites_known_summary_witness :
  ∃ merged,
    Main.merge_details sample_summary bare_detail world0 = (Ok merged, world0) ∧
    merged !! "address" = Some (PStr "123 Main St").
Proof.
  destruct (unknown_detail_never_overwrites_known_summary no_match sample_path
              (sample_card "zpid_1" "/homedetails/123-Main-St/1_zpid/" "123 Main St")
              bare_detail_page "https://www.zillow.com/"
              sample_summary bare_detail
              world0 (said (CardAddress "123 Main St") world0) world0 world0 world0)
    as (merged & E & H); [vm_compute; reflexivity|vm_compute; reflexivity|].
  exists merged. split; [exact E|].
  apply H; [reflexivity|discriminate|reflexivity].
Defined.

(** * Exhausted fetches *)

Section Exhausted.

Variable backend : nat → request → response.
Variable BeautifulSoup : string → node.
Variable re_search : string → string → option re_match.
Variable urlparse_path : string → string.

(** Every call ends in a transport or HTTP error. *)
Hypothesis down : ∀ n rq, transport_or_http_error (backend n rq) = true.

Lemma nimble_request_exhausted url flow retries w :
  ∃ w1, Main.nimble_request backend url flow retries w
        = (Ok PNone, said (FailedToFetch url retries) w1)
        ∧ calls w1 = calls w + retries.
Proof.
  unfold Main.nimble_request.
  destruct (main_attempts_skip backend url flow retries retries 0 0 w) as (w1 & Hc & E).
  { intros i _. apply down. }
  rewrite Nat.add_0_r in E. rewrite E.
  exists w1. split; [reflexivity|exact Hc].
Qed.

Lemma extract_apartment_details_exhausted url :
  always (Main.extract_apartment_details backend BeautifulSoup re_search urlparse_path url)
         (λ ad, ad = None ∧ detail_answer ad).
Proof.
  intros w. unfold Main.extract_apartment_details.
  destruct (nimble_request_exhausted url (Some Main.detail_render_flow) 2 w)
    as (w1 & E & _).
  rewrite (bind_ok _ _ _ _ _ E). simpl.
  eexists _, _. split; [reflexivity|]. split; [reflexivity|exact I].
Qed.

Lemma process_cards_exhausted (cards : list node) (w : world) :
  forallb well_linked cards = true →
  ∃ w', Main.process_cards backend BeautifulSoup re_search urlparse_path cards [] w
        = (Ok (map (summary_of re_search) (linked cards)), w').
Proof.
  intros Hwl.
  destruct (process_cards_with backend BeautifulSoup re_search urlparse_path
              (λ ad, ad = None) cards Hwl extract_apartment_details_exhausted [] w)
    as (records & w' & E & new & -> & HF).
  exists w'. rewrite E. do 2 f_equal. simpl. clear E.
  induction HF as [|card rec cs rs (ad & -> & _ & ->) HF IH]; [reflexivity|].
  simpl. now rewrite IH.
Qed.

End Exhausted.

(** C7, as amended.  [nimble_request] never raises, whatever the
    backend answers.  Against a backend whose every call ends in a
    transport or HTTP error it makes exactly [retries] network calls,
    prints "Failed to fetch <url> after <retries> attempts" and returns
    [None]; the value returned carries no attempt count.  The loop of
    [scrape_zillow_rentals] then keeps, for every card with a detail
    URL, the record of the card alone, and goes on to the remaining
    cards. *)
Theorem exhausted_fetch_returns_none_and_run_continues
    (backend any_backend : nat → request → response) (BeautifulSoup : string → node)
    (re_search : string → string → option re_match) (urlparse_path : string → string)
    (url : string) (flow : option (list flow_step)) (retries : nat)
    (cards : list node) (w : world) :
  (∀ n rq, transport_or_http_error (backend n rq) = true) →
  forallb well_linked cards = true →
  (∃ v w', Main.nimble_request any_backend url flow retries w = (Ok v, w')) ∧
  (∃ w1, Main.nimble_request backend url flow retries w
         = (Ok PNone, said (FailedToFetch url retries) w1)
         ∧ calls w1 = calls w + retries) ∧
  (∃ w', Main.process_cards backend BeautifulSoup re_search urlparse_path cards [] w
         = (Ok (map (summary_of re_search) (linked cards)), w')).
Proof.
  intros Hdown Hwl. split; [|split].
  - destruct (nimble_request_total any_backend url flow retries w) as (v & w' & E & _).
    now exists v, w'.
  - now apply nimble_request_exhausted.
  - now apply process_cards_exhausted.
Qed.

Lemma exhausted_fetch_returns_none_and_run_continues_witness :
  (∃ v w', Main.nimble_request reporting_backend "https://www.zillow.com/x" None 2 world0
           = (Ok v, w')) ∧
  (∃ w1, Main.nimble_request dead_backend "https://www.zillow.com/x" None 2 world0
         = (Ok PNone, said (FailedToFetch "https://www.zillow.com/x" 2) w1)
         ∧ calls w1 = 2) ∧
  (∃ w', Main.process_cards dead_backend sample_parser no_match sample_path
           [ sample_card "zpid_1" "/homedetails/123-Main-St/1_zpid/" "123 Main St";
             sample_card "zpid_2" "/homedetails/9-Elm-St/2_zpid/" "9 Elm St" ] [] world0
         = (Ok [ summary_of no_match
                   (sample_card "zpid_1" "/homedetails/123-Main-St/1_zpid/" "123 Main St");
                 summary_of no_match
                   (sample_card "zpid_2" "/homedetails/9-Elm-St/2_zpid/" "9 Elm St") ], w')).
Proof.
  apply (exhausted_fetch_returns_none_and_run_continues dead_backend reporting_backend
           sample_parser no_match sample_path "https://www.zillow.com/x" None 2
           [ sample_card "zpid_1" "/homedetails/123-Main-St/1_zpid/" "123 Main St";
             sample_card "zpid_2" "/homedetails/9-Elm-St/2_zpid/" "9 Elm St" ] world0).
  - intros n rq. reflexivity.
  - reflexivity.
Defined.

(** C7 as stated fails: the value returned after all attempts failed is
    the same [None] whatever the number of attempts, so no attempt
    count can be read off it. *)
Lemma failure_outcome_carries_no_attempt_count :
  ¬ ∃ attempts_of : pyval → nat,
      ∀ retries failure w',
        Main.nimble_request dead_backend "https://www.zillow.com/x" None retries world0
        = (Ok failure, w') →
        attempts_of failure = retries.
Proof.
  intros (attempts_of & H).
  assert (attempts_of PNone = 1) as H1 by (eapply H; vm_compute; reflexivity).
  assert (attempts_of PNone = 2) as H2 by (eapply H; vm_compute; reflexivity).
  congruence.
Qed.

(** * The output *)

(** C9.  Every record of the output has a detail URL: a non-empty
    string under ["url"].  Cards without one give no record, so the
    records are as many as the cards with a detail URL. *)
Theorem every_record_has_a_detail_url
    (backend : nat → request → response) (BeautifulSoup : string → node)
    (re_search : string → string → option re_match) (urlparse_path : string → string)
    (cards : list node) (w w' : world) (records : list dict) :
  Main.process_cards backend BeautifulSoup re_search urlparse_path cards [] w
  = (Ok records, w') →
  Forall (λ r : dict, ∃ u, r !! "url" = Some (PStr u) ∧ u ≠ "") records ∧
  length records = length (linked cards).
Proof.
  intros E.
  pose proof (process_cards_returns _ _ _ _ _ _ _ _ _ E) as Hwl.
  destruct (process_cards_ok backend BeautifulSoup re_search urlparse_path cards w Hwl)
    as (records' & w'' & E' & HF).
  rewrite E in E'. injection E' as <- <-. clear E.
  assert (Forall (λ card, truthy (card_url card) = true) (linked cards)) as Hl.
  { unfold linked. apply List.Forall_forall. intros c Hc.
    now apply List.filter_In in Hc. }
  induction HF as [|card rec cs rs (ad & _ & Hs & ->) HF IH].
  - split; [constructor|reflexivity].
  - inversion Hl as [|? ? Hu Hl']; subst.
    destruct (IH Hl') as (IH1 & IH2).
    split; [|simpl; now rewrite IH2].
    constructor; [|exact IH1].
    destruct (truthy_url card Hu) as (u & Eu & Hne).
    exists u. split; [|exact Hne].
    destruct (record_summary_columns re_search card ad Hs) as (_ & -> & _).
    now rewrite Eu.
Qed.

(** A card without a link anchor, between two linked cards. *)
Lemma every_record_has_a_detail_url_witness :
  ∃ records w',
    Main.process_cards healthy_backend sample_parser no_match sample_path
      [ sample_card "zpid_1" "/homedetails/123-Main-St/1_zpid/" "123 Main St";
        Elem "article" [("data-test", "property-card")] [Text "Sponsored"];
        sample_card "zpid_2" "/homedetails/9-Elm-St/2_zpid/" "9 Elm St" ] [] (called world0)
    = (Ok records, w') ∧
    Forall (λ r : dict, ∃ u, r !! "url" = Some (PStr u) ∧ u ≠ "") records ∧
    length records = 2.
Proof.
  destruct (process_cards_ok healthy_backend sample_parser no_match sample_path
              [ sample_card "zpid_1" "/homedetails/123-Main-St/1_zpid/" "123 Main St";
                Elem "article" [("data-test", "property-card")] [Text "Sponsored"];
                sample_card "zpid_2" "/homedetails/9-Elm-St/2_zpid/" "9 Elm St" ]
              (called world0)) as (records & w' & E & _); [reflexivity|].
  exists records, w'. split; [exact E|].
  exact (every_record_has_a_detail_url _ _ _ _ _ _ _ _ E).
Defined.

(** * Strategy order *)




(** * [scrape_zillow_old.py]: a payload that does not parse *)

Section MalformedPayload.

Variable backend : nat → request → response.
Variable BeautifulSoup : string → node.
Variable json_loads : string → option json.

Lemma parse_house_page_decode_error (html content : string) (script : node) (w : world) :
  Old.find_script (BeautifulSoup html) = Some script →
  Soup.string_ script = Some content →
  json_loads (Old.clean_script_content (PyStr.strip content)) = None →
  Old.parse_house_page BeautifulSoup json_loads html w
  = (Ok ∅, said (Error "JSON decode error") w).
Proof.
  intros Hscript Hstring Hloads. unfold Old.parse_house_page.
  rewrite Hscript, Hstring.
  unfold try_except, mbind, M_bind, mret, M_ret. simpl.
  rewrite Hloads. reflexivity.
Qed.

End MalformedPayload.

(** C8, as amended.  A detail page of [scrape_zillow_old.py] whose
    embedded payload is found but is not JSON: the decode error is
    caught inside [parse_house_page], which returns the empty record and
    does not run the HTML strategies of the page; the loop of
    [process_individual_cards] then keeps the card-level data of that
    listing, tagged [card_data_only], and goes on with the next
    listings. *)
Theorem malformed_payload_falls_back_to_card_data
    (backend : nat → request → response) (BeautifulSoup : string → node)
    (json_loads : string → option json)
    (initial_url : string) (use_clicks : bool) (i : nat)
    (card_data : dict) (rest all_data : list dict)
    (html content : string) (render_flow : pyval) (script : node) (w w1 : world) :
  truthy (dict_get card_data "detail_url") = true →
  Old.fetch_detail backend initial_url use_clicks i (dict_get card_data "detail_url") w
    = (Ok (PStr html, render_flow), w1) →
  html ≠ "" →
  Old.find_script (BeautifulSoup html) = Some script →
  Soup.string_ script = Some content →
  json_loads (Old.clean_script_content (PyStr.strip content)) = None →
  (∀ w2, Old.parse_house_page BeautifulSoup json_loads html w2
         = (Ok ∅, said (Error "JSON decode error") w2)) ∧
  ∃ w',
    Old.process_card_list backend BeautifulSoup json_loads initial_url use_clicks
      i (card_data :: rest) all_data w
    = Old.process_card_list backend BeautifulSoup json_loads initial_url use_clicks
        (S i) rest
        (all_data ++ [Old.fallback_data i (dict_get card_data "detail_url") card_data]) w'.
Proof.
  intros Hhref Hfetch Hhtml Hscript Hstring Hloads.
  assert (∀ w2, Old.parse_house_page BeautifulSoup json_loads html w2
                = (Ok ∅, said (Error "JSON decode error") w2)) as Hparse.
  { intros w2. eapply parse_house_page_decode_error; eassumption. }
  split; [exact Hparse|].
  simpl. unfold Old.process_card at 1. rewrite Hhref. simpl.
  unfold mbind at 1, M_bind at 1.
  unfold mbind at 1, M_bind at 1. rewrite Hfetch.
  assert (truthy (PStr html) = true) as Ht.
  { simpl. apply negb_true_iff, String.eqb_neq, Hhtml. }
  rewrite Ht.
  unfold mbind at 1, M_bind at 1.
  unfold mbind at 1, M_bind at 1.
  unfold write_debug at 1.
  unfold mbind at 1, M_bind at 1. simpl cell. rewrite Hparse.
  rewrite bool_decide_eq_true_2 by reflexivity.
  eexists. reflexivity.
Qed.

Lemma malformed_payload_falls_back_to_card_data_witness :
  (∀ w2, Old.parse_house_page malformed_parser sample_loads "<detail/>" w2
         = (Ok ∅, said (Error "JSON decode error") w2)) ∧
  ∃ w',
    Old.process_card_list page_backend malformed_parser sample_loads
      "https://www.zillow.com/rentals/" false 1
      [ sample_card_data "https://www.zillow.com/homedetails/1_zpid/" "$1,500";
        sample_card_data "https://www.zillow.com/homedetails/2_zpid/" "$1,700" ] [] world0
    = Old.process_card_list page_backend malformed_parser sample_loads
        "https://www.zillow.com/rentals/" false 2
        [ sample_card_data "https://www.zillow.com/homedetails/2_zpid/" "$1,700" ]
        ([] ++ [ Old.fallback_data 1 (PStr "https://www.zillow.com/homedetails/1_zpid/")
                   (sample_card_data "https://www.zillow.com/homedetails/1_zpid/" "$1,500") ])
        w'.
Proof.
  eapply (malformed_payload_falls_back_to_card_data page_backend malformed_parser
           sample_loads "https://www.zillow.com/rentals/" false 1
           (sample_card_data "https://www.zillow.com/homedetails/1_zpid/" "$1,500")
           [ sample_card_data "https://www.zillow.com/homedetails/2_zpid/" "$1,700" ] []
           "<detail/>" "{not json" PNone
           (Elem "script" [("id", "hdpApolloPreloadedData")] [Text "{not json"]) world0).
  - reflexivity.
  - vm_compute. reflexivity.
  - discriminate.
  - reflexivity.
  - reflexivity.
  - reflexivity.
Defined.

(** C8 as stated fails: on a page whose payload is not JSON the HTML
    strategies would find the price, yet [parse_house_page] returns the
    empty record. *)
Lemma decode_error_returns_empty_not_html_result :
  Old.find_script malformed_payload_page
    = Some (Elem "script" [("id", "hdpApolloPreloadedData")] [Text "{not json"]) ∧
  sample_loads (Old.clean_script_content (PyStr.strip "{not json")) = None ∧
  fst (Old.extract_basic_info_from_html malformed_payload_page world0)
    = Ok (<["price" := PStr "$1,500"]> ∅) ∧
  fst (Old.parse_house_page malformed_parser sample_loads "<detail/>" world0) = Ok ∅.
Proof.
  split; [reflexivity|]. split; [reflexivity|].
  split; vm_compute; reflexivity.
Qed.

(** * Further properties of the Fetch Client *)

Section FetchBounds.

Variable backend : nat → request → response.

(** One attempt is one network call and touches no file. *)
Lemma main_attempt_once_world url flow w o w' :
  Main.attempt_once backend url flow w = (o, w') →
  calls w' = S (calls w) ∧ same_files w w'.
Proof.
  unfold Main.attempt_once, mbind, M_bind, post, same_files.
  destruct (backend (calls w) (Request url flow)) as [msg|code body]; simpl.
  - intros [= <- <-]. simpl. auto.
  - destruct ((400 <=? code)%Z && (code <? 600)%Z); simpl.
    + intros [= <- <-]. simpl. auto.
    + destruct body as [d|]; simpl; [|intros [= <- <-]; simpl; auto].
      unfold dict_getitem.
      destruct (d !! "status") as [st|]; simpl; [|intros [= <- <-]; simpl; auto].
      destruct (py_eqb st (PStr "success")).
      * destruct (d !! "html_content"); simpl; intros [= <- <-]; simpl; auto.
      * simpl. intros [= <- <-]. simpl. auto.
Qed.

Lemma main_attempts_from_bounds url flow retries todo :
  ∀ attempt w, ∃ v w',
    Main.attempts_from backend url flow retries attempt todo w = (Ok v, w') ∧
    (calls w ≤ calls w' ≤ calls w + todo)%nat ∧
    (0 < todo → calls w < calls w') ∧
    same_files w w'.
Proof.
  induction todo as [|todo IH]; intros attempt w; simpl.
  - eexists _, _. split; [reflexivity|]. simpl. unfold same_files. simpl.
    repeat split; lia.
  - unfold try_except.
    destruct (Main.attempt_once backend url flow w) as [[v|e] w1] eqn:E;
      destruct (main_attempt_once_world _ _ _ _ _ E) as (Hc & Hf1 & Hf2).
    + exists v, w1. split; [reflexivity|]. unfold same_files. repeat split; (lia || auto).
    + set (w2 := said (AttemptFailed (attempt + 1) url e) w1).
      assert (∃ w3, calls w3 = calls w1 ∧ same_files w1 w3 ∧
                (print (AttemptFailed (attempt + 1) url e);;
                 (if (attempt <? retries - 1)%nat then print (Sleep 3 5) else mret tt);;
                 Main.attempts_from backend url flow retries (S attempt) todo) w1
                = Main.attempts_from backend url flow retries (S attempt) todo w3)
        as (w3 & Hc3 & (Hf3 & Hf4) & ->).
      { destruct (attempt <? retries - 1)%nat;
          eexists; (split; [|split; [split|reflexivity]]); reflexivity. }
      destruct (IH (S attempt) w3) as (v & w' & E' & Hb & _ & Hf5 & Hf6).
      exists v, w'. split; [exact E'|]. unfold same_files.
      repeat split; (lia || congruence).
Qed.

(** A failed attempt, of any kind, raises. *)
Lemma main_attempt_raises url flow w :
  attempt_raises (backend (calls w) (Request url flow)) = true →
  ∃ e, Main.attempt_once backend url flow w = (Raise e, called w).
Proof.
  intros H. unfold Main.attempt_once, mbind, M_bind, post. fold (called w).
  destruct (backend (calls w) (Request url flow)) as [msg|code body]; simpl in *.
  - eexists; reflexivity.
  - destruct ((400 <=? code)%Z && (code <? 600)%Z); simpl in *.
    + eexists; reflexivity.
    + destruct body as [d|]; simpl; [|eexists; reflexivity].
      unfold dict_getitem.
      destruct (d !! "status") as [st|]; simpl; [|eexists; reflexivity].
      apply andb_prop in H as (-> & Hh).
      destruct (d !! "html_content") as [h|] eqn:Eh; simpl.
      * rewrite bool_decide_eq_true_2 in Hh by eauto. discriminate.
      * eexists; reflexivity.
Qed.

Lemma main_attempts_skip_raises url flow retries k :
  ∀ attempt todo w,
    (∀ i, i < k → attempt_raises (backend (calls w + i) (Request url flow)) = true) →
    ∃ w', calls w' = calls w + k ∧
          Main.attempts_from backend url flow retries attempt (k + todo) w
          = Main.attempts_from backend url flow retries (attempt + k) todo w'.
Proof.
  induction k as [|k IH]; intros attempt todo w Hfail.
  - exists w. split; [lia|]. now rewrite Nat.add_0_r.
  - destruct (main_attempt_raises url flow w) as (e & He).
    { specialize (Hfail 0). rewrite Nat.add_0_r in Hfail. apply Hfail. lia. }
    simpl. rewrite (try_raise _ _ _ _ _ He).
    set (rest := Main.attempts_from backend url flow retries (S attempt) (k + todo)).
    assert (∃ w2, calls w2 = S (calls w) ∧
              (print (AttemptFailed (attempt + 1) url e);;
               (if (attempt <? retries - 1)%nat then print (Sleep 3 5) else mret tt);;
               rest) (called w) = rest w2) as (w2 & Hc2 & E2).
    { destruct (attempt <? retries - 1)%nat; eexists; (split; [|reflexivity]); reflexivity. }
    rewrite E2. subst rest.
    destruct (IH (S attempt) todo w2) as (w' & Hc & E).
    { intros i Hi. rewrite Hc2. replace (S (calls w) + i) with (calls w + S i) by lia.
      apply Hfail. lia. }
    exists w'. split; [lia|].
    rewrite E. f_equal. lia.
Qed.

End FetchBounds.

(** X1.  Whatever the backend answers, one call of [nimble_request]
    returns (it never raises), makes at most [retries] network calls,
    at least one when [retries] is positive, and writes no file. *)
Theorem nimble_request_call_bound
    (backend : nat → request → response) (url : string)
    (flow : option (list flow_step)) (retries : nat) (w : world) :
  ∃ v w',
    Main.nimble_request backend url flow retries w = (Ok v, w') ∧
    (calls w ≤ calls w' ≤ calls w + retries)%nat ∧
    (0 < retries → calls w < calls w') ∧
    same_files w w'.
Proof. apply main_attempts_from_bounds. Qed.

(** X2.  In [scrape_zillow.py] every attempt that raises is retried,
    not only transport and HTTP errors: an answer that is not JSON, a
    payload without a status field, a success payload without
    [html_content].  After [k < retries] such attempts a success answer
    is returned after exactly [k + 1] network calls. *)
Theorem nimble_request_retries_any_raised_failure
    (backend : nat → request → response) (url : string)
    (flow : option (list flow_step)) (retries k : nat) (html : pyval) (w : world) :
  k < retries →
  (∀ i, i < k → attempt_raises (backend (calls w + i) (Request url flow)) = true) →
  success_reply (backend (calls w + k) (Request url flow)) html →
  ∃ w', Main.nimble_request backend url flow retries w = (Ok html, w')
        ∧ calls w' = calls w + k + 1.
Proof.
  intros Hk Hfail Hok. unfold Main.nimble_request.
  destruct (main_attempts_skip_raises backend url flow retries k 0 (S (retries - k - 1)) w Hfail)
    as (w1 & Hc & E).
  replace (k + S (retries - k - 1)) with retries in E by lia.
  rewrite E. simpl.
  rewrite (try_ok _ _ _ _ _ (main_attempt_success backend url flow w1 html
                               ltac:(rewrite Hc; exact Hok))).
  exists (called w1). split; [reflexivity|]. simpl. lia.
Qed.

Lemma nimble_request_retries_any_raised_failure_witness :
  ∃ w', Main.nimble_request garbled_backend "https://www.zillow.com/x" None 3 world0
        = (Ok (PStr "<html></html>"), w') ∧ calls w' = 3.
Proof.
  apply (nimble_request_retries_any_raised_failure garbled_backend
           "https://www.zillow.com/x" None 3 2 (PStr "<html></html>") world0).
  - lia.
  - intros i Hi. destruct i as [|[|i]]; [reflexivity|reflexivity|lia].
  - exists 200%Z, (success_body "<html></html>"). repeat split; reflexivity.
Defined.

(** * The Fetch Client of [scrape_zillow_old.py] *)

Lemma no_give_up_refl w : no_give_up_message w w.
Proof. exists []. split; [now rewrite app_nil_r|reflexivity]. Qed.

Lemma no_give_up_trans w1 w2 w3 :
  no_give_up_message w1 w2 → no_give_up_message w2 w3 → no_give_up_message w1 w3.
Proof.
  intros (n1 & E1 & H1) (n2 & E2 & H2). exists (n1 ++ n2). split.
  - rewrite E2, E1. now rewrite <- app_assoc.
  - rewrite forallb_app. now rewrite H1, H2.
Qed.

Lemma no_give_up_said e w :
  is_FailedToFetch e = false → no_give_up_message w (said e w).
Proof. intros H. exists [e]. split; [reflexivity|]. simpl. now rewrite H. Qed.

Lemma no_give_up_called w : no_give_up_message w (called w).
Proof. exists []. split; [simpl; now rewrite app_nil_r|reflexivity]. Qed.

Section OldFetch.

Variable backend : nat → request → response.

(** One attempt of the older client: one network call, no file, no
    give-up message; it raises a [requests] exception or a
    [KeyError], or returns. *)
Lemma old_attempt_once_world url flow attempt w o w' :
  Old.attempt_once backend url flow attempt w = (o, w') →
  calls w' = S (calls w) ∧ same_files w w' ∧ no_give_up_message w w'.
Proof.
  unfold Old.attempt_once, mbind, M_bind, post, print, same_files. simpl.
  fold (said (Fetching url (attempt + 1)) w).
  set (w1 := said (Fetching url (attempt + 1)) w).
  assert (no_give_up_message w (called w1)) as Hq.
  { apply (no_give_up_trans _ w1); [now apply no_give_up_said|apply no_give_up_called]. }
  fold (called w1).
  destruct (backend (calls w) (Request url (Some flow))) as [msg|code body]; simpl.
  - intros [= <- <-]. simpl. auto.
  - destruct ((400 <=? code)%Z && (code <? 600)%Z); simpl.
    + intros [= <- <-]. simpl. auto.
    + destruct body as [d|]; simpl; [|intros [= <- <-]; simpl; auto].
      unfold dict_getitem.
      destruct (d !! "status") as [st|]; simpl; [|intros [= <- <-]; simpl; auto].
      destruct (py_eqb st (PStr "success")).
      * destruct (d !! "html_content"); simpl; intros [= <- <-]; simpl; auto.
      * simpl. intros [= <- <-]. simpl. split; [reflexivity|]. split; [split; reflexivity|].
        eexists [_; _]. split; [simpl; rewrite <- app_assoc; reflexivity|reflexivity].
Qed.

Lemma old_attempts_from_bounds url flow retries backoff todo :
  ∀ attempt w o w',
    attempt + todo = retries → 0 < todo →
    Old.attempts_from backend url flow retries backoff attempt todo w = (o, w') →
    (calls w < calls w' ≤ calls w + todo)%nat ∧
    same_files w w' ∧ no_give_up_message w w'.
Proof.
  induction todo as [|todo IH]; intros attempt w o w' Hsum Hpos; [lia|].
  simpl. unfold try_except_only, try_except.
  destruct (Old.attempt_once backend url flow attempt w) as [[v|e] w1] eqn:E;
    destruct (old_attempt_once_world _ _ _ _ _ _ E) as (Hc & (Hf1 & Hf2) & Hq).
  - intros [= <- <-]. split; [lia|]. split; [split; assumption|exact Hq].
  - destruct (is_RequestException e).
    + unfold mbind at 1, M_bind at 1, print at 1.
      fold (said (AttemptFailed (attempt + 1) url e) w1).
      destruct (attempt <? retries - 1)%nat eqn:Hlt.
      * unfold mbind at 1, M_bind at 1, print at 1.
        intros E'. apply Nat.ltb_lt in Hlt.
        assert (S attempt + todo = retries) as Hsum' by lia.
        assert (0 < todo) as Hpos' by lia.
        destruct (IH _ _ _ _ Hsum' Hpos' E')
          as (Hb & (Hf3 & Hf4) & (new & En & Hall)).
        destruct Hq as (n1 & En1 & Hall1).
        simpl in *.
        split; [lia|]. split; [split; congruence|].
        exists (n1 ++ [AttemptFailed (attempt + 1) url e;
                       Sleep (backoff * (attempt + 1)) (backoff * (attempt + 1))] ++ new).
        split.
        { rewrite En, En1. now rewrite <- !app_assoc. }
        rewrite !forallb_app, Hall1, Hall. reflexivity.
      * intros [= <- <-]. simpl.
        split; [lia|]. split; [split; simpl; congruence|].
        eapply no_give_up_trans; [exact Hq|].
        now apply (no_give_up_said (AttemptFailed (attempt + 1) url e) w1).
    + intros [= <- <-]. split; [lia|]. split; [split; assumption|exact Hq].
Qed.

End OldFetch.

(** X3.  In [scrape_zillow_old.py] one call of [nimble_request] with a
    positive [retries] makes at least one and at most [retries] network
    calls and writes no file, however it ends; and it never logs
    "Failed to fetch <url> after <retries> attempts": the two lines
    after the loop are only reached when [retries] is 0. *)
Theorem old_nimble_request_bound_and_silent_give_up
    (backend : nat → request → response) (url : string)
    (flow : option (list flow_step)) (retries backoff : nat)
    (w w' : world) (o : outcome (pyval * pyval)) :
  0 < retries →
  Old.nimble_request backend url flow retries backoff w = (o, w') →
  (calls w < calls w' ≤ calls w + retries)%nat ∧
  same_files w w' ∧ no_give_up_message w w'.
Proof.
  intros Hpos E.
  apply (old_attempts_from_bounds backend url (Old.effective_flow flow)
           retries backoff retries 0 w o w'); [lia|exact Hpos|exact E].
Qed.

Lemma old_nimble_request_bound_and_silent_give_up_witness :
  ∃ o w', Old.nimble_request dead_backend "https://www.zillow.com/x" None 3 2 world0 = (o, w') ∧
          (calls world0 < calls w' ≤ calls world0 + 3)%nat ∧
          same_files world0 w' ∧ no_give_up_message world0 w'.
Proof.
  destruct (Old.nimble_request dead_backend "https://www.zillow.com/x" None 3 2 world0)
    as [o w'] eqn:E.
  exists o, w'. split; [reflexivity|].
  eapply (old_nimble_request_bound_and_silent_give_up dead_backend
            "https://www.zillow.com/x" None 3 2 world0); [lia|exact E].
Defined.

(** X4.  The older client only catches [requests] exceptions: a 2xx
    JSON payload without a [status] field, met after [k < retries]
    retried transport or HTTP errors, makes [nimble_request] raise
    [KeyError] to its caller. *)
Theorem old_nimble_request_raises_on_missing_status
    (backend : nat → request → response) (url : string)
    (flow : option (list flow_step)) (retries backoff k : nat) (w : world)
    (code : Z) (body : dict) :
  k < retries →
  (∀ i rq, i < k → transport_or_http_error (backend (calls w + i) rq) = true) →
  (∀ rq, backend (calls w + k) rq = Reply code (Some body)) →
  ((400 <=? code) && (code <? 600))%Z = false →
  body !! "status" = None →
  ∃ w', Old.nimble_request backend url flow retries backoff w = (Raise (KeyError "status"), w')
        ∧ calls w' = calls w + k + 1.
Proof.
  intros Hk Hfail Hreply Hcode Hstatus. unfold Old.nimble_request.
  destruct (old_attempts_skip backend url (Old.effective_flow flow) retries backoff k 0
              (S (retries - k - 1)) w) as (w1 & Hc & E); [lia| |].
  { intros i Hi. now apply Hfail. }
  replace (k + S (retries - k - 1)) with retries in E by lia.
  rewrite E. simpl.
  assert (Old.attempt_once backend url (Old.effective_flow flow) k w1
          = (Raise (KeyError "status"), called (said (Fetching url (k + 1)) w1))) as Ha.
  { unfold Old.attempt_once, mbind, M_bind, post, print. simpl.
    rewrite <- Hc in Hreply. rewrite Hreply. simpl. rewrite Hcode. simpl.
    unfold dict_getitem. rewrite Hstatus. simpl. reflexivity. }
  unfold try_except_only. rewrite (try_raise _ _ _ _ _ Ha). simpl.
  eexists. split; [reflexivity|]. simpl. lia.
Qed.

Lemma old_nimble_request_raises_on_missing_status_witness :
  ∃ w', Old.nimble_request statusless_backend "https://www.zillow.com/x" None 3 2 world0
        = (Raise (KeyError "status"), w') ∧ calls w' = 1.
Proof.
  apply (old_nimble_request_raises_on_missing_status statusless_backend
           "https://www.zillow.com/x" None 3 2 0 world0 200%Z
           (<["message" := PStr "busy"]> ∅)).
  - lia.
  - intros i rq Hi. lia.
  - reflexivity.
  - reflexivity.
  - reflexivity.
Defined.

(** * Further properties of the field extraction *)

Lemma first_match_none (doc : node) (selectors : list selector) :
  (∀ s, In s selectors → Soup.select_one s doc = None) →
  first_match doc selectors = None.
Proof.
  induction selectors as [|s rest IH]; intros H; simpl; [reflexivity|].
  rewrite (H s) by now left. apply IH. intros s' Hs'. apply H. now right.
Qed.

(** [replace('-', ' ')] leaves no hyphen. *)
Lemma replace_hyphen_free (s : string) :
  PyStr.contains "-" (PyStr.replace "-" " " s) = false.
Proof.
  unfold PyStr.replace.
  induction s as [|c s IH]; [reflexivity|].
  cbn [PyStr.replace_go String.prefix].
  destruct (ascii_dec "-" c) as [<-|Hne].
  - cbn [String.prefix String.length Nat.sub].
    destruct s; cbn [String.append PyStr.contains String.prefix ascii_dec];
      simpl; exact IH || (simpl in IH; exact IH).
  - cbn [PyStr.contains String.prefix].
    destruct (ascii_dec "-" c); [contradiction|]. exact IH.
Qed.

Section DetailRecord.

Variable re_search : string → string → option re_match.
Variable urlparse_path : string → string.

(** A fetched page gives [detail_record], whatever is printed. *)
Lemma parse_apartment_details_value (url : string) (soup : node) :
  always (Main.parse_apartment_details re_search urlparse_path url soup)
         (λ d, d = detail_record re_search urlparse_path url soup).
Proof.
  unfold Main.parse_apartment_details, detail_record, detail_defaults, detail_address.
  fold (detail_numbers re_search soup). fold (address_heading soup).
  eapply always_bind with
    (Q := λ d, d = <["address" := PStr (detail_address re_search urlparse_path url soup)]>
                     (detail_numbers re_search soup)).
  - unfold detail_address.
    destruct (address_heading soup) as [e|].
    + apply always_after_print, always_ret. apply insert_insert_eq.
    + destruct (re_search Main.path_pattern (urlparse_path url)) as [m|].
      * apply always_after_print, always_ret. apply insert_insert_eq.
      * now apply always_ret.
  - intros d ->. now apply always_ret.
Qed.

Lemma facts_loop_nothing (soup : node) (selectors : list selector) (d : dict) :
  (∀ s, In s selectors → Soup.select s soup = []) →
  Main.facts_loop soup selectors d = d.
Proof.
  induction selectors as [|s rest IH]; intros H; simpl; [reflexivity|].
  rewrite (H s) by now left. simpl.
  match goal with
  | |- context [if ?b then _ else _] => destruct b; [reflexivity|]
  end.
  apply IH. intros s' Hs'. apply H. now right.
Qed.

(** The facts only write the five amenity keys. *)
Lemma detail_record_other_key (url : string) (soup : node) (k : string) :
  ¬ In k Main.amenity_keys →
  detail_record re_search urlparse_path url soup !! k
  = (<["address" := PStr (detail_address re_search urlparse_path url soup)]>
       (detail_numbers re_search soup)) !! k.
Proof.
  intros Hk. unfold detail_record.
  rewrite (grows_lookup_ne _ _ _ _ (facts_loop_grows _ _ _) Hk).
  unfold detail_defaults. unfold Main.amenity_keys in Hk. simpl in Hk.
  rewrite !lookup_insert_ne by (intros <-; tauto). reflexivity.
Qed.

End DetailRecord.

(** X5.  The URL of a card's record is absolute: [None] for a card
    without a link anchor, otherwise a string that starts with "http"
    (an [href] that does not is prefixed with the site's address). *)
Theorem card_url_is_absolute
    (re_search : string → string → option re_match) (card : node)
    (w w' : world) (details : dict) :
  Main.extract_property_details re_search card w = (Ok details, w') →
  details !! "url" = Some PNone ∨
  ∃ u, details !! "url" = Some (PStr u) ∧ PyStr.startswith u "http" = true.
Proof.
  intros E.
  assert (well_linked card = true) as Hwl.
  { destruct (well_linked card) eqn:Hwl; [reflexivity|].
    rewrite extract_property_details_raises in E by exact Hwl. discriminate. }
  destruct (extract_property_details_ok re_search card Hwl w) as (d & w1 & E1 & ->).
  rewrite E1 in E. injection E as <- <-.
  change (summary_of re_search card !! "url") with (Some (card_url card)).
  unfold card_url. destruct (link_of card) as [l|]; [|now left].
  destruct (Soup.attr l "href") as [h|]; [|now left].
  right. eexists. split; [reflexivity|].
  destruct (PyStr.startswith h "http") eqn:Hh; [exact Hh|reflexivity].
Qed.

Lemma card_url_is_absolute_witness :
  ∃ u, sample_summary !! "url" = Some (PStr u) ∧ PyStr.startswith u "http" = true.
Proof.
  destruct (card_url_is_absolute no_match
              (sample_card "zpid_1" "/homedetails/123-Main-St/1_zpid/" "123 Main St")
              world0 (said (CardAddress "123 Main St") world0) sample_summary)
    as [H|H]; [vm_compute; reflexivity|discriminate H|exact H].
Defined.

(** X6.  When every strategy of a field misses, the field is the
    sentinel ['Unknown'] and extraction goes on: the price of a detail
    page none of whose price selectors selects anything, and the address
    of a card none of whose address selectors selects anything and in
    whose text the address pattern finds nothing. *)
Theorem all_strategies_miss_gives_unknown
    (re_search : string → string → option re_match) (urlparse_path : string → string)
    (url : string) (doc : node) (w : world) :
  ((∀ s, In s Main.price_selectors → Soup.select_one s doc = None) →
   ∃ details w',
     Main.parse_apartment_details re_search urlparse_path url doc w = (Ok details, w') ∧
     details !! "price" = Some (PStr "Unknown")) ∧
  ((∀ s, In s Main.address_selectors → Soup.select_one s doc = None) →
   re_search Main.address_pattern (PyStr.strip (Soup.text doc)) = None →
   well_linked doc = true →
   ∃ details w',
     Main.extract_property_details re_search doc w = (Ok details, w') ∧
     details !! "address" = Some (PStr "Unknown")).
Proof.
  split.
  - intros Hmiss.
    destruct (parse_apartment_details_ok re_search urlparse_path url doc w)
      as (d & w' & E & _ & Hprice).
    exists d, w'. split; [exact E|]. rewrite Hprice. unfold selected_price.
    now rewrite (first_match_none doc _ Hmiss).
  - intros Hmiss Hre Hwl.
    destruct (extract_property_details_ok re_search doc Hwl w) as (d & w' & E & ->).
    exists (summary_of re_search doc), w'. split; [exact E|].
    change (summary_of re_search doc !! "address")
      with (Some (PStr (card_address re_search doc))).
    unfold card_address, selected_address.
    rewrite (first_match_none doc _ Hmiss). simpl. now rewrite Hre.
Qed.

Lemma all_strategies_miss_gives_unknown_witness :
  ∃ details w',
    Main.parse_apartment_details no_match sample_path "https://www.zillow.com/"
      bare_detail_page world0 = (Ok details, w') ∧
    details !! "price" = Some (PStr "Unknown").
Proof.
  apply (all_strategies_miss_gives_unknown no_match sample_path "https://www.zillow.com/"
           bare_detail_page world0).
  intros s Hs. unfold Main.price_selectors in Hs. simpl in Hs.
  repeat (destruct Hs as [<-|Hs]; [reflexivity|]). destruct Hs.
Defined.



(** X8.  A detail page in which no facts selector selects anything
    keeps the defaults of the amenities: [pets_allowed] is ['No'] and
    laundry, parking, cooling and heating are ['None']. *)
Theorem page_without_facts_keeps_amenity_defaults
    (re_search : string → string → option re_match) (urlparse_path : string → string)
    (url : string) (soup : node) (w : world) :
  (∀ s, In s Main.facts_selectors → Soup.select s soup = []) →
  ∃ details w',
    Main.parse_apartment_details re_search urlparse_path url soup w = (Ok details, w') ∧
    details !! "pets_allowed" = Some (PStr "No") ∧
    details !! "laundry" = Some (PStr "None") ∧
    details !! "parking" = Some (PStr "None") ∧
    details !! "cooling" = Some (PStr "None") ∧
    details !! "heating" = Some (PStr "None").
Proof.
  intros Hnone.
  destruct (parse_apartment_details_value re_search urlparse_path url soup w)
    as (d & w' & E & ->).
  eexists _, w'. split; [exact E|].
  unfold detail_record. rewrite (facts_loop_nothing soup _ _ Hnone).
  unfold detail_defaults.
  repeat split;
    repeat (first [apply lookup_insert_eq | rewrite lookup_insert_ne by discriminate]).
Qed.

Lemma page_without_facts_keeps_amenity_defaults_witness :
  ∃ details w',
    Main.parse_apartment_details no_match sample_path "https://www.zillow.com/"
      bare_detail_page world0 = (Ok details, w') ∧
    details !! "pets_allowed" = Some (PStr "No") ∧
    details !! "laundry" = Some (PStr "None") ∧
    details !! "parking" = Some (PStr "None") ∧
    details !! "cooling" = Some (PStr "None") ∧
    details !! "heating" = Some (PStr "None").
Proof.
  apply (page_without_facts_keeps_amenity_defaults no_match sample_path
           "https://www.zillow.com/" bare_detail_page world0).
  intros s Hs. unfold Main.facts_selectors in Hs. simpl in Hs.
  repeat (destruct Hs as [<-|Hs]; [reflexivity|]). destruct Hs.
Defined.

(** X9.  The address of a detail page without an address heading is
    taken from the path of its URL: the slug between [/homedetails/]
    and the zpid, with every hyphen replaced by a blank, so that no
    hyphen is left in it. *)
Theorem detail_address_falls_back_to_url_slug
    (re_search : string → string → option re_match) (urlparse_path : string → string)
    (url : string) (soup : node) (path_match : re_match) (w : world) :
  Soup.select_one (Sel (Some "h1") [AttrIs "data-testid" "home-details-address"]) soup = None →
  Soup.select_one (Sel (Some "h1") [AttrHas "class" "address"]) soup = None →
  Soup.select_one (Sel (Some "div") [AttrHas "class" "address"]) soup = None →
  re_search Main.path_pattern (urlparse_path url) = Some path_match →
  ∃ details w' address,
    Main.parse_apartment_details re_search urlparse_path url soup w = (Ok details, w') ∧
    details !! "address" = Some (PStr address) ∧
    address = PyStr.replace "-" " " (group1 path_match) ∧
    PyStr.contains "-" address = false.
Proof.
  intros H1 H2 H3 Hpath.
  destruct (parse_apartment_details_value re_search urlparse_path url soup w)
    as (d & w' & E & ->).
  eexists _, w', _. split; [exact E|]. split; [|split; [reflexivity|]].
  - rewrite detail_record_other_key
      by (unfold Main.amenity_keys; simpl; intuition discriminate).
    rewrite lookup_insert_eq. unfold detail_address, address_heading.
    now rewrite H1, H2, H3, Hpath.
  - apply replace_hyphen_free.
Qed.

Lemma detail_address_falls_back_to_url_slug_witness :
  ∃ details w',
    Main.parse_apartment_details slug_search sample_path "/homedetails/123-Main-St/1_zpid/"
      bare_detail_page world0 = (Ok details, w') ∧
    details !! "address" = Some (PStr "123 Main St").
Proof.
  destruct (detail_address_falls_back_to_url_slug slug_search sample_path
              "/homedetails/123-Main-St/1_zpid/" bare_detail_page
              (ReMatch "/homedetails/123-Main-St/1_zpid" "123-Main-St") world0)
    as (details & w' & address & E & Ha & -> & _); try reflexivity.
  exists details, w'. split; [exact E|exact Ha].
Defined.

(** * The run of [scrape_zillow_rentals] *)

Lemma same_files_refl w : same_files w w.
Proof. split; reflexivity. Qed.

Lemma same_files_trans w1 w2 w3 : same_files w1 w2 → same_files w2 w3 → same_files w1 w3.
Proof. intros (A1 & B1) (A2 & B2). split; congruence. Qed.

Section OnlyPrints.

Context {A B : Type}.

Lemma only_prints_ret (a : A) (Q : A → Prop) : Q a → only_prints (mret a) Q.
Proof. intros H w. exists a, w. repeat split; auto. Qed.

Lemma only_prints_bind (m : M A) (f : A → M B) (Q : A → Prop) (R : B → Prop) :
  only_prints m Q → (∀ a, Q a → only_prints (f a) R) → only_prints (m ≫= f) R.
Proof.
  intros Hm Hf w. destruct (Hm w) as (a & w1 & E & Ha & Hc & Hs).
  destruct (Hf a Ha w1) as (b & w2 & E2 & Hb & Hc2 & Hs2).
  exists b, w2. rewrite (bind_ok _ _ _ _ _ E).
  split; [exact E2|]. split; [exact Hb|]. split; [congruence|].
  eapply same_files_trans; eassumption.
Qed.

Lemma only_prints_after_print (e : event) (m : M B) (R : B → Prop) :
  only_prints m R → only_prints (print e;; m) R.
Proof.
  intros H w. destruct (H (said e w)) as (b & w2 & E & Hb & Hc & Hs).
  exists b, w2. split; [exact E|]. split; [exact Hb|]. split; [exact Hc|exact Hs].
Qed.

End OnlyPrints.




(** X10.  A search page that could not be fetched ends the run at
    once: "Failed to fetch page" is printed, no card is read, no file is
    written and nothing is raised; at most two network calls were made. *)
Theorem failed_search_page_ends_the_run
    (backend : nat → request → response) (BeautifulSoup : string → node)
    (re_search : string → string → option re_match) (urlparse_path : string → string)
    (w w1 : world) (html : pyval) :
  Main.nimble_request backend Main.initial_url (Some Main.create_scroll_flow) 2
    (said (ProcessingPage Main.initial_url) w) = (Ok html, w1) →
  truthy html = false →
  Main.scrape_zillow_rentals backend BeautifulSoup re_search urlparse_path w
  = (Ok tt, said FailedToFetchPage w1) ∧
  same_files w w1 ∧ (calls w1 ≤ calls w + 2)%nat.
Proof.
  intros E Hfalsy.
  destruct (main_attempts_from_bounds backend Main.initial_url
              (Some Main.create_scroll_flow) 2 2 0 (said (ProcessingPage Main.initial_url) w))
    as (v & w' & E' & Hb & _ & Hs).
  fold (Main.nimble_request backend Main.initial_url (Some Main.create_scroll_flow) 2) in E'.
  rewrite E in E'. injection E' as <- <-.
  split; [|split; [exact Hs|simpl in Hb; lia]].
  unfold Main.scrape_zillow_rentals.
  unfold mbind at 1, M_bind at 1, print at 1.
  fold (said (ProcessingPage Main.initial_url) w).
  rewrite (bind_ok _ _ _ _ _ E). rewrite Hfalsy. reflexivity.
Qed.

Lemma failed_search_page_ends_the_run_witness :
  ∃ w1,
    Main.scrape_zillow_rentals dead_backend sample_parser no_match sample_path world0
    = (Ok tt, said FailedToFetchPage w1) ∧
    same_files world0 w1 ∧ (calls w1 ≤ calls world0 + 2)%nat.
Proof.
  destruct (Main.nimble_request dead_backend Main.initial_url (Some Main.create_scroll_flow) 2
              (said (ProcessingPage Main.initial_url) world0)) as [o w1] eqn:E.
  assert (o = Ok PNone) as ->.
  { destruct (nimble_request_exhausted dead_backend (λ n rq, eq_refl) Main.initial_url
                (Some Main.create_scroll_flow) 2
                (said (ProcessingPage Main.initial_url) world0)) as (w2 & E2 & _).
    rewrite E2 in E. now injection E as <- _. }
  exists w1.
  apply (failed_search_page_ends_the_run dead_backend sample_parser no_match sample_path
           world0 w1 PNone E). reflexivity.
Defined.









(** * The detail page of [scrape_zillow_old.py] *)

Section PrintsOrRaises.

Context {A B : Type}.

Lemma por_ret (a : A) (Q : A → Prop) : Q a → prints_or_raises (mret a) Q.
Proof. intros H w. exists (Ok a), w. repeat split; auto. Qed.

Lemma por_raise (e : exn) (Q : A → Prop) : prints_or_raises (raise e) Q.
Proof. intros w. exists (Raise e), w. repeat split; auto. Qed.

Lemma por_only (m : M A) (Q : A → Prop) : only_prints m Q → prints_or_raises m Q.
Proof.
  intros H w. destruct (H w) as (a & w' & E & Ha & Hc & Hs).
  exists (Ok a), w'. auto.
Qed.

Lemma por_bind (m : M A) (f : A → M B) (Q : A → Prop) (R : B → Prop) :
  prints_or_raises m Q → (∀ a, Q a → prints_or_raises (f a) R) →
  prints_or_raises (m ≫= f) R.
Proof.
  intros Hm Hf w. destruct (Hm w) as ([a|e] & w1 & E & Hc & Hs & Ha).
  - destruct (Hf a Ha w1) as (o & w2 & E2 & Hc2 & Hs2 & Ho).
    exists o, w2. rewrite (bind_ok _ _ _ _ _ E).
    split; [exact E2|]. split; [congruence|]. split; [|exact Ho].
    eapply same_files_trans; eassumption.
  - exists (Raise e), w1. rewrite (bind_raise _ _ _ _ _ E). auto.
Qed.

Lemma only_prints_try (body : M A) (handler : exn → M A) (Q : A → Prop) :
  prints_or_raises body Q → (∀ e, only_prints (handler e) Q) →
  only_prints (try_except body handler) Q.
Proof.
  intros Hb Hh w. unfold try_except.
  destruct (Hb w) as ([a|e] & w1 & E & Hc & Hs & Ha); rewrite E.
  - exists a, w1. auto.
  - destruct (Hh e w1) as (a & w2 & E2 & Ha2 & Hc2 & Hs2).
    exists a, w2. split; [exact E2|]. split; [exact Ha2|]. split; [congruence|].
    eapply same_files_trans; eassumption.
Qed.

End PrintsOrRaises.

Lemma strings_under_empty (K : list string) : strings_under K ∅.
Proof. intros k v E. rewrite lookup_empty in E. discriminate. Qed.

Lemma strings_under_insert (K : list string) (d : dict) (k s : string) :
  In k K → strings_under K d → strings_under K (<[k := PStr s]> d).
Proof.
  intros Hk Hd k' v E. destruct (decide (k' = k)) as [->|Hne].
  - rewrite lookup_insert_eq in E. injection E as <-. eauto.
  - rewrite lookup_insert_ne in E by congruence. eauto.
Qed.

Lemma strings_under_found (K : list string) (d : dict) (k : string)
    (found : option node) (f : node → string) :
  In k K → strings_under K d →
  strings_under K (match found with Some e => <[k := PStr (f e)]> d | None => d end).
Proof. intros Hk Hd. destruct found; [now apply strings_under_insert|exact Hd]. Qed.

Lemma strings_under_fold {X : Type} (K : list string) (f : dict → X → dict) (l : list X) :
  (∀ d x, strings_under K d → strings_under K (f d x)) →
  ∀ d, strings_under K d → strings_under K (fold_left f l d).
Proof. intros Hf. induction l as [|x l IH]; intros d Hd; simpl; auto. Qed.

(** The HTML extraction returns a record of strings under the seven
    basic keys; it only logs. *)
Lemma extract_basic_info_run (soup : node) (w : world) :
  ∃ data,
    Old.extract_basic_info_from_html soup w
    = (Ok data, said (Info "Extracted basic info from HTML") w) ∧
    strings_under basic_keys data.
Proof.
  unfold Old.extract_basic_info_from_html, try_except. cbv zeta.
  eexists. split; [reflexivity|].
  repeat (first
    [ apply strings_under_found; [unfold basic_keys; simpl; tauto|]
    | apply strings_under_fold;
      [intros d x Hd;
       repeat match goal with |- context [if ?c then _ else _] => destruct c end;
       first [assumption
             |apply strings_under_insert; [unfold basic_keys; simpl; tauto|assumption]]|]
    | apply strings_under_empty ]).
Qed.

Lemma extract_basic_info_only_prints (soup : node) :
  only_prints (Old.extract_basic_info_from_html soup) (strings_under basic_keys).
Proof.
  intros w. destruct (extract_basic_info_run soup w) as (data & E & Hd).
  exists data, (said (Info "Extracted basic info from HTML") w).
  split; [exact E|]. split; [exact Hd|]. split; [reflexivity|split; reflexivity].
Qed.

Lemma json_get_por (j : json) (k : string) : prints_or_raises (Old.json_get j k) (λ _, True).
Proof. destruct j; simpl; first [now apply por_ret|apply por_raise]. Qed.

Lemma property_found_por (values : list json) :
  prints_or_raises (Old.property_found values) (λ _, True).
Proof.
  induction values as [|value rest IH]; simpl.
  - now apply por_ret.
  - eapply por_bind with (Q := λ _, True).
    + destruct value; simpl; first [now apply por_ret|apply por_raise].
    + intros [] _; [|exact IH].
      eapply por_bind with (Q := λ _, True).
      * destruct value; simpl; try apply por_raise.
        destruct (Old.fields_get _ _); [now apply por_ret|apply por_raise].
      * intros _ _. now apply por_ret.
Qed.

(** [parse_house_page] always returns; it makes no network call and
    writes no file. *)
Lemma parse_house_page_only_prints
    (BeautifulSoup : string → node) (json_loads : string → option json) (html : string) :
  only_prints (Old.parse_house_page BeautifulSoup json_loads html)
              (strings_under basic_keys).
Proof.
  unfold Old.parse_house_page.
  destruct (Old.find_script _) as [script|].
  2: { apply only_prints_after_print, extract_basic_info_only_prints. }
  apply only_prints_try.
  - eapply por_bind with (Q := λ _, True).
    { destruct (Soup.string_ script); [now apply por_ret|apply por_raise]. }
    intros content _.
    eapply por_bind with (Q := λ _, True).
    { destruct (json_loads _); [now apply por_ret|apply por_raise]. }
    intros preloaded_data _.
    eapply por_bind; [apply json_get_por|]. intros api_cache _.
    eapply por_bind with (Q := λ _, True).
    { destruct (negb _); [apply json_get_por|now apply por_ret]. }
    intros api_cache' _.
    eapply por_bind with (Q := λ _, True).
    { destruct api_cache'; simpl; first [now apply por_ret|apply por_raise]. }
    intros values _.
    eapply por_bind; [apply property_found_por|]. intros found _.
    destruct found.
    + apply por_only, only_prints_after_print, only_prints_ret, strings_under_empty.
    + eapply por_bind; [apply json_get_por|]. intros prop _.
      destruct (negb _).
      * apply por_only, only_prints_after_print, extract_basic_info_only_prints.
      * apply por_only, only_prints_after_print, only_prints_ret, strings_under_empty.
  - intros e. destruct e;
      apply only_prints_after_print, only_prints_ret, strings_under_empty.
Qed.

(** The search for a [property] in the values of [apiCache] leaves the
    world as it is, and cannot miss a value that holds one. *)
Lemma property_found_run (values : list json) (w : world) :
  ∃ o, Old.property_found values w = (o, w) ∧
       (existsb holds_property values = true → o ≠ Ok false).
Proof.
  induction values as [|value rest (o & E & Ho)]; simpl.
  - exists (Ok false). split; [reflexivity|discriminate].
  - unfold mbind, M_bind.
    destruct value as [|b|n|s|items|fields]; simpl;
      try (eexists; split; [reflexivity|discriminate]).
    + destruct (PyStr.contains "property" s); simpl.
      * eexists; split; [reflexivity|discriminate].
      * exists o. split; [exact E|exact Ho].
    + destruct (existsb _ items); simpl.
      * eexists; split; [reflexivity|discriminate].
      * exists o. split; [exact E|exact Ho].
    + destruct (Old.fields_get "property" fields) as [v|] eqn:Ef; simpl.
      * eexists; split; [reflexivity|discriminate].
      * exists o. split; [exact E|exact Ho].
Qed.

(** X13.  [parse_house_page] always returns a record and never raises,
    whatever the page and the payload; it makes no network call and
    writes no file; and the record has string values under keys among
    price, address, bedrooms, bathrooms, square_feet, home_type and
    year_built only: no field of the embedded payload is ever in it. *)
Theorem house_record_has_basic_string_fields_only
    (BeautifulSoup : string → node) (json_loads : string → option json)
    (html : string) (w : world) :
  ∃ data w',
    Old.parse_house_page BeautifulSoup json_loads html w = (Ok data, w') ∧
    calls w' = calls w ∧ same_files w w' ∧
    ∀ k v, data !! k = Some v → In k basic_keys ∧ ∃ s, v = PStr s.
Proof.
  destruct (parse_house_page_only_prints BeautifulSoup json_loads html w)
    as (data & w' & E & Hd & Hc & Hs).
  exists data, w'. auto.
Qed.

(** X14.  A detail page whose embedded payload is well formed and has
    property data (a non-empty [property] at the top, or an [apiCache]
    with a value holding a [property]) gives the empty record: the
    statements that would build the full record are never reached, and
    the HTML strategies are not run either. *)
Theorem payload_with_property_data_gives_empty_record
    (BeautifulSoup : string → node) (json_loads : string → option json)
    (html content : string) (script : node) (fields : list (string * json)) (w : world) :
  Old.find_script (BeautifulSoup html) = Some script →
  Soup.string_ script = Some content →
  json_loads (Old.clean_script_content (PyStr.strip content)) = Some (JObj fields) →
  has_property_data fields = true →
  ∃ w', Old.parse_house_page BeautifulSoup json_loads html w = (Ok ∅, w').
Proof.
  intros Hfind Hstr Hloads Hdata.
  unfold Old.parse_house_page. rewrite Hfind.
  unfold try_except, mbind, M_bind. rewrite Hstr. simpl. rewrite Hloads. simpl.
  unfold has_property_data in Hdata.
  set (prop := default (JObj []) (Old.fields_get "property" fields)) in *.
  set (cache := default (JObj []) (Old.fields_get "apiCache" fields)) in *.
  assert (Old.json_truthy prop = false →
          ∃ cfields, Old.fields_get "apiCache" fields = Some (JObj cfields) ∧
                     existsb holds_property (map snd cfields) = true) as Hcase.
  { intros Hp. rewrite Hp in Hdata. simpl in Hdata.
    destruct (Old.fields_get "apiCache" fields) as [[| | | | |cf]|]; try discriminate.
    eauto. }
  clear Hdata. simpl. fold cache.
  destruct (Old.json_truthy cache) eqn:Hcache; simpl.
  - destruct cache as [|b|n|s|items|cfields] eqn:Ec; simpl;
      try (eexists; reflexivity).
    destruct (property_found_run (map snd cfields) w) as (o & E & Ho). rewrite E.
    destruct o as [[|]|e]; simpl.
    + eexists; reflexivity.
    + destruct (Old.json_truthy prop) eqn:Hp; simpl; [eexists; reflexivity|].
      exfalso. apply Ho; [|reflexivity].
      destruct (Hcase eq_refl) as (cf & Hcf & Hex).
      subst cache. rewrite Hcf in Ec. simpl in Ec. now injection Ec as <-.
    + destruct e; eexists; reflexivity.
  - destruct prop as [|b|n|s|items|pfields] eqn:Ep; simpl;
      try (eexists; reflexivity).
    destruct (property_found_run (map snd pfields) w) as (o & E & Ho). rewrite E.
    destruct o as [[|]|e]; simpl.
    + eexists; reflexivity.
    + destruct pfields as [|pf pfs]; simpl; [|eexists; reflexivity].
      exfalso. destruct (Hcase eq_refl) as (cf & Hcf & Hex).
      subst cache. rewrite Hcf in Hcache. simpl in Hcache.
      destruct cf; [discriminate Hex|discriminate Hcache].
    + destruct e; eexists; reflexivity.
Qed.

Lemma payload_with_property_data_gives_empty_record_witness :
  ∃ w', Old.parse_house_page payload_parser payload_loads "<detail/>" world0 = (Ok ∅, w').
Proof.
  apply (payload_with_property_data_gives_empty_record payload_parser payload_loads
           "<detail/>" "{payload}"
           (Elem "script" [("id", "hdpApolloPreloadedData")] [Text "{payload}"])
           [("apiCache", JObj [("q", JObj [("property", JObj [("zpid", JNum 1)])])])]).
  - reflexivity.
  - reflexivity.
  - reflexivity.
  - reflexivity.
Defined.

(** * The card loop of [process_individual_cards] *)

Section OldCards.

Variable backend : nat → request → response.
Variable BeautifulSoup : string → node.
Variable json_loads : string → option json.
Variable initial_url : string.
Variable use_clicks : bool.

Lemma fetch_detail_world (i : nat) (href : pyval) (w w' : world) o :
  Old.fetch_detail backend initial_url use_clicks i href w = (o, w') →
  (calls w < calls w' ≤ calls w + 3)%nat ∧ same_files w w'.
Proof.
  unfold Old.fetch_detail, Old.nimble_request. intros E.
  destruct use_clicks;
    destruct (old_attempts_from_bounds backend _ _ 3 2 3 0 w o w' eq_refl ltac:(lia) E)
      as (Hc & Hs & _); auto.
Qed.

Lemma fallback_is_card_record (i : nat) (card_data : dict) :
  truthy (dict_get card_data "detail_url") = true →
  card_record i card_data
    (Old.fallback_data i (dict_get card_data "detail_url") card_data).
Proof.
  intros Hurl. split; [exact Hurl|].
  unfold Old.fallback_data, Old.with_card_fields.
  split; [now simplify_map_eq|]. split; [now simplify_map_eq|].
  intros k Hk. unfold card_level_keys in Hk. simpl in Hk.
  destruct Hk as [<-|[<-|[<-|[<-|[<-|[<-|[]]]]]]]; now simplify_map_eq.
Qed.

Lemma detailed_is_card_record (i : nat) (card_data house_data : dict) :
  truthy (dict_get card_data "detail_url") = true →
  card_record i card_data
    (Old.with_card_fields card_data
       (<["detail_url" := dict_get card_data "detail_url"]>
          (<["card_index" := PInt (Z.of_nat i)]> house_data))).
Proof.
  intros Hurl. split; [exact Hurl|].
  unfold Old.with_card_fields.
  split; [now simplify_map_eq|]. split; [now simplify_map_eq|].
  intros k Hk. unfold card_level_keys in Hk. simpl in Hk.
  destruct Hk as [<-|[<-|[<-|[<-|[<-|[<-|[]]]]]]]; now simplify_map_eq.
Qed.

(** One turn of the loop: at most three network calls, none for a
    card without a detail URL; the CSV file is left alone; a record,
    if one is made, is a record of the card. *)
Lemma old_process_card_run (i : nat) (card_data : dict) (w w' : world) o :
  Old.process_card backend BeautifulSoup json_loads initial_url use_clicks i card_data w
  = (o, w') →
  (calls w ≤ calls w' ≤ calls w + (if has_detail_url card_data then 3 else 0))%nat ∧
  csv_file w' = csv_file w ∧
  (has_detail_url card_data = false → o = Ok None) ∧
  ∀ r, o = Ok (Some r) → card_record i card_data r.
Proof.
  unfold Old.process_card, has_detail_url.
  destruct (truthy (dict_get card_data "detail_url")) eqn:Hurl; simpl.
  2: { intros [= <- <-]. simpl. split; [lia|]. split; [reflexivity|].
       split; [reflexivity|]. intros r [=]. }
  unfold mbind at 1, M_bind at 1.
  destruct (Old.fetch_detail _ _ _ _ _ w) as [[[detail_html flow]|e] w1] eqn:E1;
    destruct (fetch_detail_world _ _ _ _ _ E1) as (Hc1 & Hf1 & Hd1).
  2: { intros [= <- <-]. split; [lia|]. split; [exact Hf1|].
       split; [discriminate|]. intros r [=]. }
  destruct (truthy detail_html).
  - unfold mbind at 1, M_bind at 1. unfold mbind at 1, M_bind at 1, write_debug at 1.
    match goal with
    | |- context [(Old.parse_house_page _ _ _ ≫= _) ?w2] =>
        destruct (parse_house_page_only_prints BeautifulSoup json_loads
                    (cell detail_html) w2) as (data & w3 & E3 & _ & Hc3 & Hf3 & _)
    end.
    rewrite (bind_ok _ _ _ _ _ E3). simpl in Hc3, Hf3.
    destruct (bool_decide (data = ∅)); simpl; intros [= <- <-]; simpl;
      (split; [lia|]); (split; [congruence|]); (split; [discriminate|]);
      intros r [= <-].
    + now apply fallback_is_card_record.
    + now apply detailed_is_card_record.
  - simpl. intros [= <- <-]. simpl. split; [lia|]. split; [exact Hf1|].
    split; [discriminate|]. intros r [=].
Qed.

Lemma old_process_card_list_run (card_data_list : list dict) :
  ∀ (i : nat) (all_data : list dict) (w w' : world) o,
    Old.process_card_list backend BeautifulSoup json_loads initial_url use_clicks
      i card_data_list all_data w = (o, w') →
    (calls w ≤ calls w'
     ≤ calls w + 3 * length (List.filter has_detail_url card_data_list))%nat ∧
    csv_file w' = csv_file w ∧
    ∀ result, o = Ok result →
      ∃ new, result = all_data ++ new ∧ records_of i card_data_list new.
Proof.
  induction card_data_list as [|card_data rest IH]; intros i all_data w w' o; simpl.
  - intros [= <- <-]. split; [lia|]. split; [reflexivity|].
    intros result [= <-]. exists []. split; [now rewrite app_nil_r|constructor].
  - unfold mbind, M_bind.
    destruct (Old.process_card _ _ _ _ _ i card_data w) as [[record|e] w1] eqn:E1;
      destruct (old_process_card_run _ _ _ _ _ E1) as (Hc1 & Hf1 & Hno & Hrec).
    + intros E2. destruct (IH _ _ _ _ _ E2) as (Hc2 & Hf2 & Hres).
      destruct (has_detail_url card_data) eqn:Hurl; simpl.
      * split; [lia|]. split; [congruence|].
        intros result ->. destruct (Hres result eq_refl) as (new & -> & Hnew).
        destruct record as [r|].
        -- exists (r :: new). split; [now rewrite <- app_assoc|].
           constructor; [now apply Hrec|exact Hnew].
        -- exists new. split; [reflexivity|]. now constructor.
      * split; [lia|]. split; [congruence|].
        intros result ->. destruct (Hres result eq_refl) as (new & -> & Hnew).
        specialize (Hno eq_refl). injection Hno as ->.
        exists new. split; [reflexivity|]. now constructor.
    + intros [= <- <-].
      destruct (has_detail_url card_data); simpl;
        (split; [lia|]); (split; [exact Hf1|]); intros result [=].
Qed.

End OldCards.

Lemma records_of_length (i : nat) (card_data_list new : list dict) :
  records_of i card_data_list new →
  (length new ≤ length (List.filter has_detail_url card_data_list))%nat.
Proof.
  induction 1 as [i|i card_data rest new _ IH|i card_data r rest new (Hurl & _) _ IH]; simpl.
  - lia.
  - destruct (has_detail_url card_data); simpl; lia.
  - unfold has_detail_url at 1. rewrite Hurl. simpl. lia.
Qed.

(** The card loop on the sample cards returns. *)
Lemma sample_card_list_run :
  ∃ result w',
    Old.process_card_list page_backend malformed_parser sample_loads
      "https://www.zillow.com/rentals/" false 1 sample_card_list [] world0
    = (Ok result, w').
Proof. eexists _, _. vm_compute. reflexivity. Qed.

(** X15.  The records the card loop of [process_individual_cards]
    returns follow the cards: each record belongs to a card that has a
    detail URL and carries that URL, the position of the card in the
    list (counted from the start index) and the six card-level fields
    of the card, the empty string standing for a missing one; the
    records are in the order of the cards, at most one per card, and a
    card without a detail URL gives none. *)
Theorem old_records_follow_the_cards
    (backend : nat → request → response) (BeautifulSoup : string → node)
    (json_loads : string → option json) (initial_url : string) (use_clicks : bool)
    (i : nat) (card_data_list all_data result : list dict) (w w' : world) :
  Old.process_card_list backend BeautifulSoup json_loads initial_url use_clicks
    i card_data_list all_data w = (Ok result, w') →
  ∃ new, result = all_data ++ new ∧
         records_of i card_data_list new ∧
         (length new ≤ length (List.filter has_detail_url card_data_list))%nat.
Proof.
  intros E.
  destruct (old_process_card_list_run _ _ _ _ _ _ _ _ _ _ _ E) as (_ & _ & Hres).
  destruct (Hres result eq_refl) as (new & -> & Hnew).
  exists new. split; [reflexivity|]. split; [exact Hnew|].
  exact (records_of_length _ _ _ Hnew).
Qed.

Lemma old_records_follow_the_cards_witness :
  ∃ result w' new,
    Old.process_card_list page_backend malformed_parser sample_loads
      "https://www.zillow.com/rentals/" false 1 sample_card_list [] world0
    = (Ok result, w') ∧
    result = [] ++ new ∧
    records_of 1 sample_card_list new ∧
    (length new ≤ length (List.filter has_detail_url sample_card_list))%nat.
Proof.
  destruct sample_card_list_run as (result & w' & E).
  destruct (old_records_follow_the_cards page_backend malformed_parser sample_loads
              "https://www.zillow.com/rentals/" false 1 sample_card_list [] result
              world0 w' E) as (new & H).
  exists result, w', new. split; [exact E|exact H].
Defined.

(** X16.  However the card loop ends (also when a fetch raises), it
    has made at most three network calls for each card with a detail
    URL and none for the others, and it has not touched the CSV file. *)
Theorem old_card_loop_network_budget
    (backend : nat → request → response) (BeautifulSoup : string → node)
    (json_loads : string → option json) (initial_url : string) (use_clicks : bool)
    (i : nat) (card_data_list all_data : list dict) (w w' : world)
    (o : outcome (list dict)) :
  Old.process_card_list backend BeautifulSoup json_loads initial_url use_clicks
    i card_data_list all_data w = (o, w') →
  (calls w ≤ calls w'
   ≤ calls w + 3 * length (List.filter has_detail_url card_data_list))%nat ∧
  csv_file w' = csv_file w.
Proof.
  intros E.
  destruct (old_process_card_list_run _ _ _ _ _ _ _ _ _ _ _ E) as (Hc & Hf & _).
  split; [exact Hc|exact Hf].
Qed.

Lemma old_card_loop_network_budget_witness :
  ∃ o w',
    Old.process_card_list dead_backend malformed_parser sample_loads
      "https://www.zillow.com/rentals/" true 1 sample_card_list [] world0 = (o, w') ∧
    (calls world0 ≤ calls w'
     ≤ calls world0 + 3 * length (List.filter has_detail_url sample_card_list))%nat ∧
    csv_file w' = csv_file world0.
Proof.
  destruct (Old.process_card_list dead_backend malformed_parser sample_loads
              "https://www.zillow.com/rentals/" true 1 sample_card_list [] world0)
    as [o w'] eqn:E.
  exists o, w'. split; [reflexivity|].
  exact (old_card_loop_network_budget dead_backend malformed_parser sample_loads
           "https://www.zillow.com/rentals/" true 1 sample_card_list [] world0 w' o E).
Defined.

(** * The search page of [scrape_zillow_old.py] *)

Lemma filter_map_all {X Y : Type} (f : X → Y) (p : Y → bool) (l : list X) :
  (∀ x, p (f x) = true) → List.filter p (map f l) = map f l.
Proof.
  intros H. induction l as [|x l IH]; simpl; [reflexivity|].
  now rewrite H, IH.
Qed.

Lemma filter_map_none {X Y : Type} (f : X → Y) (p : Y → bool) (l : list X) :
  (∀ x, p (f x) = false) → List.filter p (map f l) = [].
Proof.
  intros H. induction l as [|x l IH]; simpl; [reflexivity|].
  now rewrite H, IH.
Qed.

(** X17.  The render flow built for the search page has one click
    step for each click selector, in their order, and none when the
    list is empty; it has exactly one infinite scroll, of 45000 ms,
    whatever [scroll_duration] is passed: that argument is not used. *)
Theorem search_flow_clicks_and_scroll
    (click_selectors wait_selectors : list string) (scroll_duration : Z) :
  List.filter is_click
    (Old.create_render_flow_with_clicks click_selectors wait_selectors scroll_duration)
  = map (λ selector, wait_and_click selector 20000 500 true false) click_selectors ∧
  List.filter is_infinite_scroll
    (Old.create_render_flow_with_clicks click_selectors wait_selectors scroll_duration)
  = [infinite_scroll 45000 "div[data-test='loading-spinner']" 5000 (Some 8000%Z)].
Proof.
  unfold Old.create_render_flow_with_clicks.
  rewrite !List.filter_app.
  rewrite (filter_map_all _ is_click) by reflexivity.
  rewrite (filter_map_none _ is_infinite_scroll) by reflexivity.
  destruct wait_selectors; simpl; rewrite ?app_nil_r; split; reflexivity.
Qed.

Section SearchPage.

Variable BeautifulSoup : string → node.
Variable re_search : string → string → option re_match.
Variable list_str : list string → string.

Lemma unique_cards_spec (property_cards : list node) :
  ∀ seen_cards : gset string,
    NoDup (map (Old.card_id list_str) (Old.unique_cards list_str property_cards seen_cards)) ∧
    (∀ c, In c (Old.unique_cards list_str property_cards seen_cards) →
          (Old.card_id list_str c ∉ seen_cards) ∧ In c property_cards) ∧
    (∀ c, In c property_cards →
          Old.card_id list_str c ∈ seen_cards ∨
          ∃ c', In c' (Old.unique_cards list_str property_cards seen_cards) ∧ Old.card_id list_str c' = Old.card_id list_str c) ∧
    sublist (Old.unique_cards list_str property_cards seen_cards) property_cards.
Proof.
  induction property_cards as [|card rest IH]; intros seen_cards; simpl.
  - split; [constructor|]. split; [intros c []|]. split; [intros c []|constructor].
  - destruct (bool_decide_reflect (Old.card_id list_str card ∈ seen_cards)) as [Hin|Hnot].
    + destruct (IH seen_cards) as (Hnd & Hout & Hcov & Hsub).
      split; [exact Hnd|]. split; [|split].
      * intros c Hc. destruct (Hout c Hc). auto.
      * intros c [<-|Hc]; [now left|apply Hcov, Hc].
      * now apply sublist_cons.
    + destruct (IH ({[ Old.card_id list_str card ]} ∪ seen_cards)) as (Hnd & Hout & Hcov & Hsub).
      split; [|split; [|split]].
      * simpl. constructor; [|exact Hnd].
        intros Hin. apply list_elem_of_In, in_map_iff in Hin as (c & Hid & Hc).
        destruct (Hout c Hc) as (Hfresh & _). apply Hfresh. rewrite Hid.
        apply elem_of_union. left. now apply elem_of_singleton.
      * intros c [<-|Hc]; [auto|].
        destruct (Hout c Hc) as (Hfresh & Hc'). split; [|auto].
        intros Hseen. apply Hfresh, elem_of_union. now right.
      * intros c [<-|Hc]; [right; exists card; simpl; auto|].
        destruct (Hcov c Hc) as [Hseen|(c' & Hc' & Hid)].
        -- apply elem_of_union in Hseen as [Hone|Hseen]; [|now left].
           apply elem_of_singleton in Hone. right. exists card. simpl. auto.
        -- right. exists c'. simpl. auto.
      * now apply sublist_skip.
Qed.

Lemma unique_cards_seen (property_cards : list node) (seen_cards : gset string) :
  Forall (λ c, Old.card_id list_str c ∈ seen_cards) property_cards →
  Old.unique_cards list_str property_cards seen_cards = [].
Proof.
  induction 1 as [|c rest Hc _ IH]; simpl; [reflexivity|].
  now rewrite bool_decide_eq_true_2.
Qed.

Lemma prefix_of_longer (p q s : string) :
  String.prefix (p ++ q) s = true → String.prefix p s = true.
Proof.
  revert s. induction p as [|a p IH]; intros s; simpl.
  - now destruct s.
  - destruct s as [|b s]; simpl; [discriminate|].
    destruct (ascii_dec a b); [apply IH|discriminate].
Qed.

Lemma https_is_http (href : string) :
  PyStr.startswith href "https://" = true → PyStr.startswith href "http" = true.
Proof. apply (prefix_of_longer "http" "s://"). Qed.

Lemma card_link_http (card : node) (href : string) :
  Old.card_link card = Some href → PyStr.startswith href "http" = true.
Proof.
  unfold Old.card_link.
  destruct (Old.has_href _); [|discriminate].
  destruct (Old.link_loop _ _ _) as [tag|]; [|discriminate].
  destruct (Soup.attr tag "href") as [h|]; [|discriminate].
  destruct (PyStr.startswith h "https://") eqn:Hs; intros [= <-].
  - now apply https_is_http.
  - reflexivity.
Qed.

Lemma entry_shape_insert (d : dict) (k s : string) :
  In k card_level_keys → entry_shape d → entry_shape (<[k := PStr s]> d).
Proof.
  intros Hk (Hd & Hurl). split.
  - apply strings_under_insert; [right; exact Hk|exact Hd].
  - intros v. rewrite lookup_insert_ne; [apply Hurl|].
    intros ->. unfold card_level_keys in Hk. simpl in Hk.
    repeat (destruct Hk as [Hk|Hk]; [discriminate Hk|]). exact Hk.
Qed.

Lemma entry_shape_found {X : Type} (d : dict) (k : string)
    (found : option X) (f : X → string) :
  In k card_level_keys → entry_shape d →
  entry_shape (match found with Some e => <[k := PStr (f e)]> d | None => d end).
Proof. intros Hk Hd. destruct found; [now apply entry_shape_insert|exact Hd]. Qed.

Lemma entry_shape_fold {X : Type} (f : dict → X → dict) (l : list X) :
  (∀ d x, entry_shape d → entry_shape (f d x)) →
  ∀ d, entry_shape d → entry_shape (fold_left f l d).
Proof. intros Hf. induction l as [|x l IH]; intros d Hd; simpl; auto. Qed.

Lemma entry_shape_link (card : node) :
  entry_shape (match Old.card_link card with
               | Some href => <["detail_url" := PStr href]> ∅
               | None => ∅
               end).
Proof.
  destruct (Old.card_link card) as [href|] eqn:E.
  - split.
    + apply strings_under_insert; [left; reflexivity|apply strings_under_empty].
    + intros v. rewrite lookup_insert_eq. intros [= <-].
      exists href. split; [reflexivity|]. exact (card_link_http card href E).
  - split; [apply strings_under_empty|]. intros v. rewrite lookup_empty. discriminate.
Qed.

Ltac card_key := unfold card_level_keys; simpl; tauto.

Lemma parse_card_shape (card : node) : entry_shape (Old.parse_card re_search card).
Proof.
  unfold Old.parse_card. cbv zeta.
  apply entry_shape_found; [card_key|].
  apply entry_shape_found; [card_key|].
  match goal with
  | |- entry_shape (if ?c then _ else ?d) =>
      assert (entry_shape d) as Hd; [|destruct c; [|exact Hd]]
  end.
  - match goal with
    | |- entry_shape (match ?o with Some _ => _ | None => ?d end) =>
        assert (entry_shape d) as Hd; [|destruct o; [|exact Hd]]
    end.
    + apply entry_shape_found; [card_key|].
      apply entry_shape_found; [card_key|].
      apply entry_shape_link.
    + apply entry_shape_fold; [|exact Hd].
      intros d x Hx.
      repeat match goal with |- context [if ?c then _ else _] => destruct c end;
        first [exact Hx|apply entry_shape_insert; [card_key|exact Hx]].
  - apply entry_shape_found; [card_key|].
    apply entry_shape_found; [card_key|].
    exact Hd.
Qed.

Lemma link_entry_is_search_entry (href : string) :
  PyStr.startswith href "http" = true → search_entry (link_entry href).
Proof.
  intros Hs. unfold link_entry. split; [|split].
  - intros E. apply (f_equal (λ d : dict, d !! "detail_url")) in E.
    rewrite lookup_singleton_eq, lookup_empty in E. discriminate.
  - intros k v E. destruct (decide (k = "detail_url")) as [->|Hne].
    + rewrite lookup_singleton_eq in E. injection E as <-.
      split; [left; reflexivity|eauto].
    + rewrite lookup_singleton_ne in E by congruence. discriminate.
  - intros v. rewrite lookup_singleton_eq. intros [= <-]. eauto.
Qed.

Lemma primary_pass_entries (property_cards : list node) :
  ∀ (card_data : list dict) (seen_urls : gset string),
    Forall search_entry card_data →
    Forall search_entry
      (fst (Old.primary_pass re_search property_cards card_data seen_urls)).
Proof.
  induction property_cards as [|card rest IH]; intros card_data seen_urls Hcd; simpl.
  - exact Hcd.
  - apply IH.
    destruct (bool_decide_reflect (Old.parse_card re_search card = ∅)) as [|Hne];
      [exact Hcd|].
    apply Forall_app. split; [exact Hcd|].
    constructor; [|constructor]. split; [exact Hne|apply parse_card_shape].
Qed.

(** The secondary pass adds one entry for each link to a listing not
    seen before, and none twice. *)
Lemma secondary_pass_spec (extra_links : list node) :
  ∀ (card_data : list dict) (seen_urls : gset string),
    ∃ added,
      Old.secondary_pass extra_links card_data seen_urls
      = (card_data ++ map link_entry added, list_to_set added ∪ seen_urls) ∧
      NoDup added ∧
      ∀ href, In href added →
        (href ∉ seen_urls) ∧
        PyStr.startswith href "http" = true ∧
        PyStr.contains "/homedetails/" href = true.
Proof.
  induction extra_links as [|a rest IH]; intros card_data seen_urls; simpl.
  - exists []. simpl. rewrite app_nil_r, union_empty_l_L.
    split; [reflexivity|]. split; [constructor|intros ? []].
  - destruct (Soup.attr a "href") as [h|]; [|apply IH].
    destruct (String.eqb h ""); [apply IH|].
    set (href := (if PyStr.startswith h "http" then h
                  else "https://www.zillow.com" ++ h)%string).
    assert (PyStr.startswith href "http" = true) as Hhttp.
    { subst href. destruct (PyStr.startswith h "http") eqn:Hs; [exact Hs|reflexivity]. }
    destruct (PyStr.contains "/homedetails/" href) eqn:Hdetail; simpl; [|apply IH].
    destruct (bool_decide_reflect (href ∈ seen_urls)) as [Hseen|Hnew]; [apply IH|].
    destruct (IH (card_data ++ [ {[ "detail_url" := PStr href ]} ])
                 ({[ href ]} ∪ seen_urls)) as (added & E & Hnd & Hadded).
    exists (href :: added). rewrite E. simpl.
    split; [|split].
    + f_equal; [now rewrite <- app_assoc|].
      rewrite (union_comm_L {[ href ]} (list_to_set added)), <- union_assoc_L.
      reflexivity.
    + constructor; [|exact Hnd].
      intros Hin. apply list_elem_of_In in Hin.
      destruct (Hadded href Hin) as (Hfresh & _).
      apply Hfresh, elem_of_union. left. now apply elem_of_singleton.
    + intros u [<-|Hu]; [auto|].
      destruct (Hadded u Hu) as (Hfresh & Hrest).
      split; [|exact Hrest].
      intros Hin. apply Hfresh, elem_of_union. now right.
Qed.

Lemma contains_after (needle p s : string) :
  PyStr.contains needle s = true → PyStr.contains needle (p ++ s) = true.
Proof.
  intros H. induction p as [|c p IH]; simpl; [exact H|].
  rewrite IH. apply orb_true_r.
Qed.

(** The detail URL of [card_info] is the link of the card: the later
    steps of the pass leave it alone. *)
Lemma url_kept_insert (d : dict) (k : string) (v : pyval) :
  In k card_level_keys → (<[k := v]> d) !! "detail_url" = d !! "detail_url".
Proof.
  intros Hk. apply lookup_insert_ne. intros ->.
  unfold card_level_keys in Hk. simpl in Hk.
  repeat (destruct Hk as [Hk|Hk]; [discriminate Hk|]). exact Hk.
Qed.

Lemma url_kept_found {X : Type} (d : dict) (k : string) (found : option X)
    (f : X → pyval) :
  In k card_level_keys →
  (match found with Some e => <[k := f e]> d | None => d end) !! "detail_url"
  = d !! "detail_url".
Proof. intros Hk. destruct found; [now apply url_kept_insert|reflexivity]. Qed.

Lemma url_kept_fold {X : Type} (f : dict → X → dict) (l : list X) :
  (∀ d x, f d x !! "detail_url" = d !! "detail_url") →
  ∀ d, fold_left f l d !! "detail_url" = d !! "detail_url".
Proof.
  intros Hf. induction l as [|x l IH]; intros d; simpl; [reflexivity|].
  now rewrite IH, Hf.
Qed.

Lemma parse_card_url (card : node) :
  Old.parse_card re_search card !! "detail_url" = PStr <$> Old.card_link card.
Proof.
  unfold Old.parse_card. cbv zeta.
  rewrite url_kept_found by card_key.
  rewrite url_kept_found by card_key.
  match goal with
  | |- (if ?c then _ else ?d) !! _ = _ =>
      assert (d !! "detail_url" = PStr <$> Old.card_link card) as Hd;
        [|destruct c; [|exact Hd]]
  end.
  - match goal with
    | |- (match ?o with Some _ => _ | None => ?d end) !! _ = _ =>
        assert (d !! "detail_url" = PStr <$> Old.card_link card) as Hd;
          [|destruct o; [|exact Hd]]
    end.
    + rewrite url_kept_found by card_key.
      rewrite url_kept_found by card_key.
      destruct (Old.card_link card); simpl;
        [apply lookup_insert_eq|apply lookup_empty].
    + rewrite url_kept_fold; [exact Hd|].
      intros d x.
      repeat match goal with |- context [if ?c then _ else _] => destruct c end;
        first [reflexivity|apply url_kept_insert; card_key].
  - rewrite url_kept_found by card_key.
    rewrite url_kept_found by card_key.
    exact Hd.
Qed.

(** Every URL the primary pass has seen is the detail URL of an
    entry it has made. *)
Lemma primary_pass_seen (property_cards : list node) :
  ∀ (card_data : list dict) (seen_urls : gset string),
    (∀ u, u ∈ seen_urls → ∃ entry, In entry card_data ∧
                                   entry !! "detail_url" = Some (PStr u)) →
    ∀ u, u ∈ snd (Old.primary_pass re_search property_cards card_data seen_urls) →
         ∃ entry,
           In entry (fst (Old.primary_pass re_search property_cards card_data seen_urls)) ∧
           entry !! "detail_url" = Some (PStr u).
Proof.
  induction property_cards as [|card rest IH]; intros card_data seen_urls Hseen; simpl.
  - exact Hseen.
  - apply IH. intros u Hu.
    pose proof (parse_card_url card) as Hurl.
    assert (u ∈ seen_urls → ∃ entry,
              In entry (if bool_decide (Old.parse_card re_search card = ∅)
                        then card_data
                        else card_data ++ [Old.parse_card re_search card]) ∧
              entry !! "detail_url" = Some (PStr u)) as Hold.
    { intros Hin. destruct (Hseen u Hin) as (entry & He & Hl).
      exists entry. split; [|exact Hl].
      destruct (bool_decide _); [exact He|apply in_or_app; now left]. }
    destruct (Old.card_link card) as [href|]; [|now apply Hold].
    apply elem_of_union in Hu as [Hu|Hu]; [|now apply Hold].
    apply elem_of_singleton in Hu as ->.
    exists (Old.parse_card re_search card). split; [|exact Hurl].
    rewrite bool_decide_eq_false_2.
    + apply in_or_app. right. now left.
    + intros E. rewrite E, lookup_empty in Hurl. discriminate.
Qed.

Lemma secondary_pass_covers (extra_links : list node) :
  ∀ (card_data : list dict) (seen_urls : gset string) (a : node) (h : string),
    In a extra_links → Soup.attr a "href" = Some h →
    PyStr.contains "/homedetails/" h = true →
    absolute h ∈ snd (Old.secondary_pass extra_links card_data seen_urls).
Proof.
  assert (∀ links card_data seen_urls,
            seen_urls ⊆ snd (Old.secondary_pass links card_data seen_urls)) as Hmono.
  { intros links card_data seen_urls.
    destruct (secondary_pass_spec links card_data seen_urls) as (added & -> & _).
    simpl. apply union_subseteq_r. }
  induction extra_links as [|b rest IH]; intros card_data seen_urls a h [] Hh Hc.
  - subst b. simpl. rewrite Hh.
    assert (h ≠ "") as Hne by (intros ->; discriminate Hc).
    apply String.eqb_neq in Hne. rewrite Hne. fold (absolute h).
    assert (PyStr.contains "/homedetails/" (absolute h) = true) as ->.
    { unfold absolute. destruct (PyStr.startswith h "http"); [exact Hc|].
      now apply contains_after. }
    simpl. destruct (bool_decide_reflect (absolute h ∈ seen_urls)) as [Hin|Hnew].
    + now apply Hmono.
    + apply Hmono, elem_of_union. left. now apply elem_of_singleton.
  - simpl. destruct (Soup.attr b "href") as [hb|]; [|now apply (IH _ _ a h)].
    destruct (String.eqb hb ""); [now apply (IH _ _ a h)|].
    destruct (negb _); [now apply (IH _ _ a h)|].
    destruct (bool_decide _); now apply (IH _ _ a h).
Qed.

Lemma secondary_pass_keeps (extra_links : list node) (card_data : list dict)
    (seen_urls : gset string) :
  (∀ u, u ∈ seen_urls → ∃ entry, In entry card_data ∧
                                 entry !! "detail_url" = Some (PStr u)) →
  ∀ u, u ∈ snd (Old.secondary_pass extra_links card_data seen_urls) →
       ∃ entry, In entry (fst (Old.secondary_pass extra_links card_data seen_urls)) ∧
                entry !! "detail_url" = Some (PStr u).
Proof.
  intros Hseen u.
  destruct (secondary_pass_spec extra_links card_data seen_urls) as (added & -> & _).
  simpl. intros Hu. apply elem_of_union in Hu as [Hu|Hu].
  - exists (link_entry u). split.
    + apply in_or_app. right. apply in_map, list_elem_of_In.
      now apply elem_of_list_to_set in Hu.
    + apply lookup_singleton_eq.
  - destruct (Hseen u Hu) as (entry & He & Hl).
    exists entry. split; [apply in_or_app; now left|exact Hl].
Qed.

(** [parse_search_page] as a value: it writes the debug copy of the
    page and returns the entries of the two passes. *)
Lemma parse_search_page_run (html : string) (w : world) :
  Old.parse_search_page BeautifulSoup re_search list_str html w
  = (Ok (fst (Old.secondary_pass
                (Soup.select (Sel (Some "a") [AttrHas "href" "/homedetails/"])
                             (BeautifulSoup html))
                (fst (Old.primary_pass re_search
                        (Old.find_cards list_str (BeautifulSoup html)) [] ∅))
                (snd (Old.primary_pass re_search
                        (Old.find_cards list_str (BeautifulSoup html)) [] ∅)))),
     snd (write_debug "debug_search_page_full.html" w)).
Proof.
  unfold Old.parse_search_page.
  destruct (Old.primary_pass _ _ _ _) as [card_data seen_urls]. reflexivity.
Qed.

End SearchPage.

(** X18.  Found cards are told apart by their look (tag name, class
    list and [data-test]) alone: the cards kept have pairwise different
    looks, they are kept in the order found, and every found card has
    the look of a kept one. *)
Theorem found_cards_are_told_apart_by_look
    (list_str : list string → string) (property_cards : list node) :
  NoDup (map (Old.card_id list_str) (Old.unique_cards list_str property_cards ∅)) ∧
  sublist (Old.unique_cards list_str property_cards ∅) property_cards ∧
  ∀ card, In card property_cards →
    ∃ kept, In kept (Old.unique_cards list_str property_cards ∅) ∧
            Old.card_id list_str kept = Old.card_id list_str card.
Proof.
  destruct (unique_cards_spec list_str property_cards ∅) as (Hnd & _ & Hcov & Hsub).
  split; [exact Hnd|]. split; [exact Hsub|].
  intros card Hc. destruct (Hcov card Hc) as [Hin|H]; [|exact H].
  now apply not_elem_of_empty in Hin.
Qed.

(** X19.  So, when the cards the selectors find all look alike, as the
    cards of one result list do, a single card is left: the first one,
    whatever the others link to. *)
Theorem cards_that_look_alike_collapse_to_one
    (list_str : list string → string) (soup card : node) (rest : list node) :
  flat_map (λ selector, Old.select_cards selector soup) Old.card_selectors = card :: rest →
  Forall (λ c, Old.card_id list_str c = Old.card_id list_str card) rest →
  Old.find_cards list_str soup = [card].
Proof.
  intros Hfound Halike. unfold Old.find_cards. rewrite Hfound. simpl.
  rewrite bool_decide_eq_false_2 by apply not_elem_of_empty.
  rewrite unique_cards_seen; [reflexivity|].
  eapply Forall_impl; [exact Halike|]. intros c ->.
  apply elem_of_union. left. now apply elem_of_singleton.
Qed.

Lemma cards_that_look_alike_collapse_to_one_witness :
  Old.find_cards plain_list_str alike_page = [listing_card "1" "$1,500"].
Proof.
  apply (cards_that_look_alike_collapse_to_one plain_list_str alike_page
           (listing_card "1" "$1,500")
           [listing_card "2" "$1,700"; listing_card "1" "$1,500"; listing_card "2" "$1,700"]).
  - reflexivity.
  - repeat constructor.
Defined.

(** X20.  The secondary pass adds one bare entry for each link it
    has not seen, and none twice: the URLs it adds are pairwise
    different, none was seen before, each is absolute and points to a
    detail page, and afterwards all of them count as seen. *)
Theorem secondary_pass_adds_each_unseen_link_once
    (extra_links : list node) (card_data : list dict) (seen_urls : gset string) :
  ∃ added,
    Old.secondary_pass extra_links card_data seen_urls
    = (card_data ++ map link_entry added, list_to_set added ∪ seen_urls) ∧
    NoDup added ∧
    ∀ href, In href added →
      (href ∉ seen_urls) ∧
      PyStr.startswith href "http" = true ∧
      PyStr.contains "/homedetails/" href = true.
Proof. apply secondary_pass_spec. Qed.

(** X21.  [parse_search_page] always returns: it saves the debug copy
    of the page, makes no network call and leaves the CSV file alone;
    no entry of its result is empty, every value of an entry is a string under one of the keys
    [detail_url], [card_price], [card_address], [card_bedrooms],
    [card_bathrooms], [card_sqft], [card_home_type], and every detail
    URL is absolute. *)
Theorem search_page_entries_are_well_formed
    (BeautifulSoup : string → node) (re_search : string → string → option re_match)
    (list_str : list string → string) (html : string) (w : world) :
  ∃ entries w',
    Old.parse_search_page BeautifulSoup re_search list_str html w = (Ok entries, w') ∧
    page_saved w w' ∧
    Forall search_entry entries.
Proof.
  eexists _, _. split; [apply parse_search_page_run|].
  split; [repeat split|].
  destruct (secondary_pass_spec
              (Soup.select (Sel (Some "a") [AttrHas "href" "/homedetails/"])
                           (BeautifulSoup html))
              (fst (Old.primary_pass re_search
                      (Old.find_cards list_str (BeautifulSoup html)) [] ∅))
              (snd (Old.primary_pass re_search
                      (Old.find_cards list_str (BeautifulSoup html)) [] ∅)))
    as (added & -> & _ & Hadded).
  simpl. apply Forall_app. split.
  - apply primary_pass_entries. constructor.
  - apply List.Forall_forall. intros entry Hin.
    apply in_map_iff in Hin as (href & <- & Hin).
    apply link_entry_is_search_entry. now destruct (Hadded href Hin) as (_ & ? & _).
Qed.

(** X22.  No listing link of the search page is lost: every anchor
    whose [href] mentions [/homedetails/] has its URL, made absolute, as
    the detail URL of an entry of the result, whether the anchor lies
    in a found card or not. *)
Theorem every_listing_link_gets_an_entry
    (BeautifulSoup : string → node) (re_search : string → string → option re_match)
    (list_str : list string → string) (html : string) (w w' : world)
    (entries : list dict) (a : node) (h : string) :
  Old.parse_search_page BeautifulSoup re_search list_str html w = (Ok entries, w') →
  In a (Soup.select (Sel (Some "a") [AttrHas "href" "/homedetails/"]) (BeautifulSoup html)) →
  Soup.attr a "href" = Some h →
  ∃ entry, In entry entries ∧ entry !! "detail_url" = Some (PStr (absolute h)).
Proof.
  rewrite parse_search_page_run. intros [= <- _] Ha Hh.
  apply secondary_pass_keeps.
  - apply primary_pass_seen. intros u Hu. now apply not_elem_of_empty in Hu.
  - apply (secondary_pass_covers _ _ _ a h Ha Hh).
    unfold Soup.select in Ha. apply filter_In in Ha as (_ & Hm).
    unfold Soup.matches in Hm. simpl in Hm. rewrite Hh in Hm.
    apply andb_prop in Hm as (_ & Hm). now rewrite andb_true_r in Hm.
Qed.

Lemma alike_page_run :
  ∃ entries w',
    Old.parse_search_page alike_parser no_match plain_list_str "<search/>" world0
    = (Ok entries, w').
Proof. eexists _, _. apply parse_search_page_run. Qed.

Lemma every_listing_link_gets_an_entry_witness :
  ∃ entries w' entry,
    Old.parse_search_page alike_parser no_match plain_list_str "<search/>" world0
    = (Ok entries, w') ∧
    In entry entries ∧
    entry !! "detail_url" = Some (PStr "https://www.zillow.com/homedetails/2_zpid/").
Proof.
  destruct alike_page_run as (entries & w' & E).
  destruct (every_listing_link_gets_an_entry alike_parser no_match plain_list_str
              "<search/>" world0 w' entries
              (Elem "a" [("data-test", "property-card-link");
                         ("href", "/homedetails/2_zpid/")] [Text "link"])
              "/homedetails/2_zpid/" E) as (entry & Hin & Hurl).
  - right. left. reflexivity.
  - reflexivity.
  - exists entries, w', entry. split; [exact E|]. split; [exact Hin|exact Hurl].
Defined.

(** * The run of [process_individual_cards] *)

Section OldRun.

Variable backend : nat → request → response.
Variable BeautifulSoup : string → node.
Variable json_loads : string → option json.
Variable re_search : string → string → option re_match.
Variable list_str : list string → string.
Variable py_str : json → string.

Lemma property_data_record (result : list (string * json)) :
  json_record (Old.property_data py_str result).
Proof.
  intros k. unfold Old.property_data, json_record_keys. cbv zeta. split.
  - intros Hk.
    repeat match goal with
           | H : is_Some ((<[?k' := _]> _) !! k) |- _ =>
               destruct (decide (k = k')) as [->|?];
                 [simpl; tauto|rewrite lookup_insert_ne in H by congruence]
           end.
    rewrite lookup_empty in Hk. now destruct Hk.
  - simpl. intros Hk.
    repeat (destruct Hk as [<-|Hk]; [now simplify_map_eq|]).
    destruct Hk.
Qed.

Lemma list_results_loop_records (results : list json) :
  ∀ all_properties,
    Forall json_record all_properties →
    Forall json_record (fst (Old.list_results_loop py_str results all_properties)).
Proof.
  induction results as [|result rest IH]; intros all_properties Hall; simpl;
    [exact Hall|].
  destruct result; simpl; try exact Hall.
  apply IH, Forall_app. split; [exact Hall|].
  constructor; [apply property_data_record|constructor].
Qed.

Lemma search_results_por (data : json) (all_properties : list Old.jdict) :
  Forall json_record all_properties →
  prints_or_raises (Old.search_results py_str data all_properties)
                   (λ r, Forall json_record (fst r)).
Proof.
  intros Hall. unfold Old.search_results.
  eapply por_bind with (Q := λ _, True).
  { destruct data; simpl; first [now apply por_ret|apply por_raise]. }
  intros [] _; [|now apply por_ret].
  eapply por_bind with (Q := λ _, True).
  { destruct data; simpl; try apply por_raise.
    destruct (Old.fields_get _ _); [now apply por_ret|apply por_raise]. }
  intros search _.
  eapply por_bind with (Q := λ _, True).
  { destruct search; simpl; first [now apply por_ret|apply por_raise]. }
  intros results _.
  eapply por_bind with (Q := λ _, True).
  { destruct results; simpl; first [now apply por_ret|apply por_raise]. }
  intros items _. apply por_ret. now apply list_results_loop_records.
Qed.

Lemma scripts_loop_only_prints (scripts : list node) :
  ∀ all_properties,
    Forall json_record all_properties →
    only_prints (Old.scripts_loop json_loads py_str scripts all_properties)
                (Forall json_record).
Proof.
  induction scripts as [|script rest IH]; intros all_properties Hall; simpl.
  - apply only_prints_after_print. now apply only_prints_ret.
  - destruct (Old.mentions_data script); [|now apply IH].
    destruct (PyStr.contains _ _); [|now apply IH].
    eapply only_prints_bind with (Q := λ r, Forall json_record (fst r)).
    + apply only_prints_try.
      * eapply por_bind with (Q := λ _, True).
        { destruct (json_loads _); [now apply por_ret|apply por_raise]. }
        intros data _. now apply search_results_por.
      * intros e. now apply only_prints_ret.
    + intros [props stopped] Hprops. simpl in Hprops.
      destruct stopped as [e|]; [|now apply only_prints_ret].
      destruct e; apply only_prints_after_print;
        first [now apply IH|now apply only_prints_ret].
Qed.

Lemma extract_data_only_prints (html : string) :
  only_prints (Old.extract_data_from_search_page_html BeautifulSoup json_loads py_str html)
              (Forall json_record).
Proof. apply scripts_loop_only_prints. constructor. Qed.

Lemma first_cards_length (m : Z) (card_data_list : list dict) :
  (0 < m)%Z → (length (Old.first_cards (Some m) card_data_list) ≤ Z.to_nat m)%nat.
Proof.
  intros Hm. unfold Old.first_cards.
  destruct (Z.eqb_spec m 0); [lia|]. destruct (Z.ltb_spec m 0); [lia|].
  rewrite length_take. lia.
Qed.

Lemma numbered_lookup (json_data : list Old.jdict) (i : nat) (r : Old.jdict) :
  Forall json_record json_data →
  imap (λ i prop_data,
          <["source" := JStr "search_page_json"]>
            (<["card_index" := JNum (Z.of_nat (i + 1))]> prop_data)) json_data !! i
  = Some r →
  numbered_record i r.
Proof.
  intros Hall. rewrite list_lookup_imap.
  destruct (json_data !! i) as [p|] eqn:Ep; [|discriminate]. simpl. intros [= <-].
  assert (json_record p) as Hp.
  { rewrite List.Forall_forall in Hall. apply Hall.
    apply list_elem_of_In. eapply list_elem_of_lookup_2, Ep. }
  split; [now simplify_map_eq|]. split; [now simplify_map_eq|].
  intros k Hk. apply Hp in Hk as [v Hv].
  destruct (decide (k = "source")) as [->|?]; [rewrite lookup_insert_eq; eauto|].
  rewrite lookup_insert_ne by congruence.
  destruct (decide (k = "card_index")) as [->|?]; [rewrite lookup_insert_eq; eauto|].
  rewrite lookup_insert_ne by congruence. eauto.
Qed.

(** The run once the search page is at hand. *)
Lemma records_of_page_run (initial_url : string) (max_cards : option Z)
    (use_clicks : bool) (html : pyval) (w w' : world) (o : outcome Old.scraped) :
  Old.records_of_page backend BeautifulSoup json_loads re_search list_str py_str
    initial_url max_cards use_clicks html w = (o, w') →
  (calls w ≤ calls w')%nat ∧
  (∀ m, max_cards = Some m → (0 < m)%Z → (calls w' ≤ calls w + 3 * Z.to_nat m)%nat) ∧
  match o with
  | Ok (Old.FromJson all_data) =>
      calls w' = calls w ∧ all_data ≠ [] ∧
      ∀ i r, all_data !! i = Some r → numbered_record i r
  | Ok (Old.FromCards all_data) =>
      ∀ m, max_cards = Some m → (0 < m)%Z → (length all_data ≤ Z.to_nat m)%nat
  | Raise _ => True
  end.
Proof.
  unfold Old.records_of_page.
  destruct (extract_data_only_prints (cell html) w) as (json_data & w1 & E1 & Hrec & Hc1 & _).
  rewrite (bind_ok _ _ _ _ _ E1).
  destruct json_data as [|prop_data json_data].
  - rewrite (bind_ok _ _ _ _ _
               (parse_search_page_run BeautifulSoup re_search list_str (cell html) w1)).
    match goal with
    | |- context [Old.first_cards max_cards ?l] =>
        set (card_data_list := Old.first_cards max_cards l)
    end.
    match goal with
    | |- context [(Old.process_card_list _ _ _ _ _ 1 card_data_list [] ≫= _) ?w2] =>
        destruct (Old.process_card_list backend BeautifulSoup json_loads initial_url
                    use_clicks 1 card_data_list [] w2) as [[all_data|e] w3] eqn:E3;
          destruct (old_process_card_list_run _ _ _ _ _ _ _ _ _ _ _ E3)
            as (Hc3 & _ & Hres)
    end; simpl in Hc3;
      pose proof (List.filter_length_le has_detail_url card_data_list) as Hfl.
    + rewrite (bind_ok _ _ _ _ _ E3). intros [= <- <-].
      split; [lia|]. split.
      * intros m -> Hm.
        pose proof (first_cards_length m _ Hm : (length card_data_list ≤ _)%nat). lia.
      * intros m -> Hm.
        pose proof (first_cards_length m _ Hm : (length card_data_list ≤ _)%nat).
        destruct (Hres all_data eq_refl) as (new & -> & Hnew).
        apply records_of_length in Hnew. simpl. lia.
    + rewrite (bind_raise _ _ _ _ _ E3). intros [= <- <-].
      split; [lia|]. split; [|exact I].
      intros m -> Hm.
      pose proof (first_cards_length m _ Hm : (length card_data_list ≤ _)%nat). lia.
  - intros [= <- <-]. split; [lia|]. split; [intros; lia|].
    split; [exact Hc1|]. split; [discriminate|].
    intros i r. exact (numbered_lookup (prop_data :: json_data) i r Hrec).
Qed.

Lemma old_nimble_request_world (url : string) (flow : option (list flow_step))
    (w w' : world) o :
  Old.nimble_request backend url flow 3 2 w = (o, w') →
  (calls w < calls w' ≤ calls w + 3)%nat.
Proof.
  unfold Old.nimble_request. intros E.
  now destruct (old_attempts_from_bounds backend _ _ 3 2 3 0 w o w' eq_refl ltac:(lia) E).
Qed.

Lemma process_individual_cards_run (initial_url : string) (max_cards : option Z)
    (use_clicks : bool) (w w' : world) (o : outcome Old.scraped) :
  Old.process_individual_cards backend BeautifulSoup json_loads re_search list_str py_str
    initial_url max_cards use_clicks w = (o, w') →
  (∀ m, max_cards = Some m → (0 < m)%Z → (calls w' ≤ calls w + 6 + 3 * Z.to_nat m)%nat) ∧
  match o with
  | Ok (Old.FromJson all_data) =>
      (calls w' ≤ calls w + 6)%nat ∧ all_data ≠ [] ∧
      ∀ i r, all_data !! i = Some r → numbered_record i r
  | Ok (Old.FromCards all_data) =>
      ∀ m, max_cards = Some m → (0 < m)%Z → (length all_data ≤ Z.to_nat m)%nat
  | Raise _ => True
  end.
Proof.
  unfold Old.process_individual_cards. cbv zeta.
  unfold mbind at 1, M_bind at 1.
  destruct (Old.nimble_request backend initial_url _ 3 2 w) as [[[html flow]|e] w1] eqn:E1;
    pose proof (old_nimble_request_world _ _ _ _ _ E1) as Hc1.
  2: { intros [= <- <-]. split; [intros; lia|exact I]. }
  destruct (truthy html); simpl.
  2: { intros [= <- <-]. simpl. split; [intros; lia|]. intros m _ _. simpl. lia. }
  unfold mbind at 1, M_bind at 1, write_debug at 1.
  match goal with
  | |- (_ ≫= _) ?w2 = _ → _ => set (wa := w2)
  end.
  assert (calls wa = calls w1) as Hca by reflexivity.
  assert (∀ html' wb,
            (calls wa ≤ calls wb ≤ calls wa + 3)%nat →
            Old.records_of_page backend BeautifulSoup json_loads re_search list_str py_str
              initial_url max_cards use_clicks html' wb = (o, w') →
            (∀ m, max_cards = Some m → (0 < m)%Z →
                  (calls w' ≤ calls w + 6 + 3 * Z.to_nat m)%nat) ∧
            match o with
            | Ok (Old.FromJson all_data) =>
                (calls w' ≤ calls w + 6)%nat ∧ all_data ≠ [] ∧
                ∀ i r, all_data !! i = Some r → numbered_record i r
            | Ok (Old.FromCards all_data) =>
                ∀ m, max_cards = Some m → (0 < m)%Z →
                     (length all_data ≤ Z.to_nat m)%nat
            | Raise _ => True
            end) as Htail.
  { intros html' wb Hcb E. destruct (records_of_page_run _ _ _ _ _ _ _ E) as (H1 & H2 & H3).
    split.
    - intros m Hm Hpos. specialize (H2 m Hm Hpos). lia.
    - destruct o as [[all_data|all_data]|e]; [|exact H3|exact I].
      destruct H3 as (Hc & Hne & Hnum). split; [lia|]. split; assumption. }
  destruct (_ <? 15)%nat.
  - unfold mbind at 1, M_bind at 1. unfold mbind at 1, M_bind at 1.
    destruct (Old.nimble_request backend initial_url _ 3 2 wa)
      as [[[additional_html flow2]|e] w3] eqn:E2;
      pose proof (old_nimble_request_world _ _ _ _ _ E2) as Hc2.
    2: { intros [= <- <-]. split; [intros; lia|exact I]. }
    destruct (truthy additional_html); simpl.
    + apply Htail. simpl. lia.
    + apply Htail. lia.
  - unfold mbind at 1, M_bind at 1. simpl. apply Htail. lia.
Qed.

End OldRun.

(** X23.  [extract_data_from_search_page_html] always returns and
    never raises, whatever the page and whatever [json.loads] gives; it
    makes no network call and writes no file; every record it returns
    has exactly the thirteen keys zpid, address, price, bedrooms,
    bathrooms, square_feet, home_type, year_built, lot_size,
    price_per_sqft, days_on_zillow, description and detail_url. *)
Theorem search_page_json_extraction_never_raises
    (BeautifulSoup : string → node) (json_loads : string → option json)
    (py_str : json → string) (html : string) (w : world) :
  ∃ all_properties w',
    Old.extract_data_from_search_page_html BeautifulSoup json_loads py_str html w
    = (Ok all_properties, w') ∧
    calls w' = calls w ∧ same_files w w' ∧
    Forall (λ r : Old.jdict, ∀ k, is_Some (r !! k) ↔ In k json_record_keys) all_properties.
Proof.
  destruct (extract_data_only_prints BeautifulSoup json_loads py_str html w)
    as (all_properties & w' & E & Hrec & Hc & Hs).
  exists all_properties, w'. auto.
Qed.

(** The run of the sample search page with JSON results returns their
    records. *)
Lemma json_search_run :
  ∃ all_data w',
    Old.process_individual_cards page_backend json_search_parser json_search_loads
      no_match plain_list_str sample_str "https://www.zillow.com/rentals/" (Some 20%Z) false
      world0
    = (Ok (Old.FromJson all_data), w').
Proof. eexists _, _. vm_compute. reflexivity. Qed.

(** X24.  When [process_individual_cards] returns records made from
    the JSON of the search page, there is at least one, each carries
    its position counted from 1 as [card_index], the source
    [search_page_json] and the thirteen keys of the extraction; and no
    detail page was fetched: the whole run made at most six network
    calls, those of the two requests for the search page. *)
Theorem json_records_are_numbered_without_detail_fetch
    (backend : nat → request → response) (BeautifulSoup : string → node)
    (json_loads : string → option json) (re_search : string → string → option re_match)
    (list_str : list string → string) (py_str : json → string)
    (initial_url : string) (max_cards : option Z) (use_clicks : bool)
    (all_data : list Old.jdict) (w w' : world) :
  Old.process_individual_cards backend BeautifulSoup json_loads re_search list_str py_str
    initial_url max_cards use_clicks w = (Ok (Old.FromJson all_data), w') →
  all_data ≠ [] ∧
  (∀ i r, all_data !! i = Some r → numbered_record i r) ∧
  (calls w' ≤ calls w + 6)%nat.
Proof.
  intros E.
  destruct (process_individual_cards_run _ _ _ _ _ _ _ _ _ _ _ _ E) as (_ & Hc & Hne & Hnum).
  auto.
Qed.

Lemma json_records_are_numbered_without_detail_fetch_witness :
  ∃ all_data w',
    Old.process_individual_cards page_backend json_search_parser json_search_loads
      no_match plain_list_str sample_str "https://www.zillow.com/rentals/" (Some 20%Z) false
      world0
    = (Ok (Old.FromJson all_data), w') ∧
    all_data ≠ [] ∧
    (∀ i r, all_data !! i = Some r → numbered_record i r) ∧
    (calls w' ≤ calls world0 + 6)%nat.
Proof.
  destruct json_search_run as (all_data & w' & E).
  exists all_data, w'. split; [exact E|].
  exact (json_records_are_numbered_without_detail_fetch page_backend json_search_parser
           json_search_loads no_match plain_list_str sample_str
           "https://www.zillow.com/rentals/" (Some 20%Z) false all_data world0 w' E).
Defined.

(** X25.  A positive [max_cards] bounds the run of
    [process_individual_cards]: however it ends, it has made at most
    [6 + 3 * max_cards] network calls, and when it returns records made
    card by card there are at most [max_cards] of them. *)
Theorem max_cards_bounds_records_and_calls
    (backend : nat → request → response) (BeautifulSoup : string → node)
    (json_loads : string → option json) (re_search : string → string → option re_match)
    (list_str : list string → string) (py_str : json → string)
    (initial_url : string) (m : Z) (use_clicks : bool)
    (w w' : world) (o : outcome Old.scraped) :
  (0 < m)%Z →
  Old.process_individual_cards backend BeautifulSoup json_loads re_search list_str py_str
    initial_url (Some m) use_clicks w = (o, w') →
  (calls w' ≤ calls w + 6 + 3 * Z.to_nat m)%nat ∧
  ∀ all_data, o = Ok (Old.FromCards all_data) → (length all_data ≤ Z.to_nat m)%nat.
Proof.
  intros Hm E.
  destruct (process_individual_cards_run _ _ _ _ _ _ _ _ _ _ _ _ E) as (Hc & Ho).
  split; [now apply Hc|].
  intros all_data ->. now apply Ho.
Qed.

Lemma max_cards_bounds_records_and_calls_witness :
  ∃ o w',
    Old.process_individual_cards page_backend alike_parser sample_loads
      no_match plain_list_str sample_str "https://www.zillow.com/rentals/" (Some 1%Z) false
      world0 = (o, w') ∧
    (calls w' ≤ calls world0 + 6 + 3 * Z.to_nat 1)%nat ∧
    ∀ all_data, o = Ok (Old.FromCards all_data) → (length all_data ≤ Z.to_nat 1)%nat.
Proof.
  destruct (Old.process_individual_cards page_backend alike_parser sample_loads
              no_match plain_list_str sample_str "https://www.zillow.com/rentals/"
              (Some 1%Z) false world0) as [o w'] eqn:E.
  exists o, w'. split; [reflexivity|].
  apply (max_cards_bounds_records_and_calls page_backend alike_parser sample_loads
           no_match plain_list_str sample_str "https://www.zillow.com/rentals/" 1 false
           world0 w' o); [lia|exact E].
Defined.

